(** * PM2 server monitor: worker, reconciliation and daemon state machine

    A shallow embedding of [core/pm2_worker.py] (the fleet client that
    probes the daemon and runs pm2 commands), of [PM2GUI.update_ui] and
    [PM2GUI.update_daemon_status] from [view/main.py], and of
    [ProjectListItemWidget.update_status] from [view/sidebar.py];
    then of the start-up path of [entry.py], of the project store
    [core/project_manager.py], and of the widgets the window feeds:
    the dashboard, its gauges, the performance graphs and the uptime
    of the detail pane; and of the data of the settings dialog
    [view/settings_dialog.py].

    Python dictionaries are finite maps, signals are events appended to
    a log, and the outside world (the listing of OS processes, the pm2
    commands, temporary files) answers through oracles indexed by a call
    counter, so every behaviour of the environment is covered by some
    oracle. The output of a command is text or, after a timeout, bytes;
    the divisions of the dashboard are made on binary64 numbers, given
    by their rounding. *)

From stdpp Require Import gmap strings list fin_maps pretty.
From Stdlib Require Import String Ascii Sorted.

Set Warnings "-register-all".
Local Open Scope string_scope.

(** ** Python values *)

(** The values [json.loads] produces. Numbers are whole numbers: a
    reading with a fraction is outside what is modelled here. Strings
    are byte strings
    (UTF-8), whose lexicographic order is the code-point order Python
    uses for [str]. *)
Inductive PyVal :=
| VNone
| VBool (b : bool)
| VInt (z : Z)
| VStr (s : string)
| VList (l : list PyVal)
| VDict (d : gmap string PyVal).

Abbreviation Dict := (gmap string PyVal).

Definition nl : string := String "010"%char EmptyString.
Definition dquote : string := String "034"%char EmptyString.

(** ** Exceptions *)

Inductive Exn :=
| KeyError (key : string)
| AttributeError
| TypeError
| OSError
| RecursionError
| ValueError
| UnicodeDecodeError
| OverflowError.

(** How [json.loads] ends: with a value, with [json.JSONDecodeError],
    or with another exception ([RecursionError] on text nested too
    deep, [ValueError] on an integer with too many digits,
    [UnicodeDecodeError] on bytes that are no text). *)
Inductive Loaded :=
| Parsed (v : PyVal)
| JSONDecodeError
| LoadsRaises (e : Exn).

(** The library functions the program calls on values, with what is
    known of them here: [json.loads("[]")] is the empty list, the empty
    text is no JSON, and [str] of a string is that string.
    [json.loads] takes text or, decoding it first, a bytes object. *)
Class PyBuiltins := {
  json_loads : string -> Loaded;
  json_loads_bytes : string -> Loaded;
  py_str : PyVal -> string;              (* str(v), as f-strings apply it *)
  json_loads_empty_list : json_loads "[]" = Parsed (VList []);
  json_loads_empty_text : json_loads EmptyString = JSONDecodeError;
  py_str_of_str : forall s, py_str (VStr s) = s
}.

(** ** What a command hands back *)

(** The output of a command as the program holds it: text, or the
    bytes read before a timeout. [subprocess] decodes the output of a
    call that ends, also with a non-zero status; where [os.name] is not
    ['nt'] the output carried by [TimeoutExpired] is left as bytes. *)
Inductive Output :=
| OutText (text : string)
| OutBytes (data : string).

(** Truthiness of an optional output: [if output:] *)
Definition truthy (output : option Output) : bool :=
  match output with
  | Some (OutText s) | Some (OutBytes s) => negb (String.eqb s EmptyString)
  | None => false
  end.

Definition hex_digit (n : nat) : ascii :=
  nth n (list_ascii_of_string "0123456789abcdef") "0"%char.

(** One byte in [repr] of a bytes object written between [quote]s. *)
Definition repr_byte (quote c : ascii) : string :=
  let n := nat_of_ascii c in
  if Ascii.eqb c quote || Ascii.eqb c "\" then String "\" (String c EmptyString)
  else if Ascii.eqb c "009" then "\t"
  else if Ascii.eqb c "010" then "\n"
  else if Ascii.eqb c "013" then "\r"
  else if (n <? 32)%nat || (127 <=? n)%nat then
    String "\" (String "x" (String (hex_digit (n / 16)) (String (hex_digit (n mod 16)) EmptyString)))
  else String c EmptyString.

Fixpoint has_char (c : ascii) (s : string) : bool :=
  match s with
  | EmptyString => false
  | String d s' => Ascii.eqb c d || has_char c s'
  end.

(** [repr(data)] for a bytes object, as an f-string shows it: between
    single quotes, or between double quotes when it holds a single
    quote and no double one. *)
Definition bytes_repr (data : string) : string :=
  let quote : ascii :=
    if has_char "'" data && negb (has_char "034" data) then "034"%char else "'"%char in
  String "b" (String quote
    (String.concat EmptyString (List.map (repr_byte quote) (list_ascii_of_string data))
     +:+ String quote EmptyString)).

(** [f"{output}"] *)
Definition fmt_output (output : option Output) : string :=
  match output with
  | Some (OutText s) => s
  | Some (OutBytes b) => bytes_repr b
  | None => "None"
  end.

(** What a slot receives for an argument the signal declares as [str]:
    text as it is, and the empty string for an object that is no text. *)
Definition str_argument (output : option Output) : string :=
  match output with
  | Some (OutText s) => s
  | Some (OutBytes _) | None => EmptyString
  end.

(** ** The state monad *)

Inductive Result (A : Type) :=
| Ok (a : A)
| Raise (e : Exn).
Arguments Ok {A} a.
Arguments Raise {A} e.

(** A computation over a mutable state [S]; the state reached when an
    exception is raised is kept, as mutations in Python are. *)
Definition M (S A : Type) : Type := S -> Result A * S.

Definition ret {S A} (a : A) : M S A := fun s => (Ok a, s).

Definition bind {S A B} (c : M S A) (k : A -> M S B) : M S B :=
  fun s =>
    match c s with
    | (Ok a, s') => k a s'
    | (Raise e, s') => (Raise e, s')
    end.

Definition raise {S A} (e : Exn) : M S A := fun s => (Raise e, s).

Definition gets {S A} (f : S -> A) : M S A := fun s => (Ok (f s), s).

Definition modify {S} (f : S -> S) : M S unit := fun s => (Ok tt, f s).

Definition lift {S A} (r : Result A) : M S A := fun s => (r, s).

(** [try: body finally: fin]. The [finally] block always runs; an
    exception of the body is re-raised after it unless the block raises
    itself. *)
Definition try_finally {S A} (body : M S A) (fin : M S unit) : M S A :=
  fun s =>
    match body s with
    | (r, s') =>
        match fin s' with
        | (Ok _, s'') => (r, s'')
        | (Raise e, s'') => (Raise e, s'')
        end
    end.

Definition when {S} (b : bool) (c : M S unit) : M S unit :=
  if b then c else ret tt.

(** [c] keeps [P]: whether it returns or raises, a state satisfying [P]
    is taken to one that does. *)
Definition preserves {S A} (P : S -> Prop) (c : M S A) : Prop :=
  forall s, P s -> P (c s).2.

Declare Scope monad_scope.
Delimit Scope monad_scope with monad.
Notation "x <- c ;; k" := (bind c (fun x => k))
  (at level 20, c at level 99, k at level 200, only parsing) : monad_scope.
Notation "c ;; k" := (bind c (fun _ => k))
  (at level 100, k at level 200, only parsing, right associativity) : monad_scope.
Local Open Scope monad_scope.

(** [for x in l: body] *)
Fixpoint for_each {S A} (l : list A) (body : A -> M S unit) : M S unit :=
  match l with
  | [] => ret tt
  | x :: l' => body x ;; for_each l' body
  end.

(** ** The worker: [core/pm2_worker.py] *)

Module Worker.

(** The five signals of [Pm2Worker]. *)
Inductive Signal :=
| list_ready (payload : string)
| logs_ready (proc_name logs : string)
| action_finished (title message : string)
| error (message : string)
| daemon_status_ready (is_running : bool).

(** How [subprocess.check_output] ends. [CalledProcessError] carries
    the captured output as text. [TimeoutExpired] carries what was
    read before the timeout: nothing, or bytes, or, under Windows where
    the rest is read after the process is killed, text. *)
Inductive ExecOutcome :=
| Completed (output : string)
| FileNotFoundError
| CalledProcessError (output : string)
| TimeoutExpired (output : option Output).

(** How writing the one-shot descriptor ends: the temporary file cannot
    be created, or it is created under [path] and [json.dump] succeeds
    or raises. *)
Inductive TempOutcome :=
| TempFailed
| TempCreated (path : string) (dumped : bool).

Inductive Event :=
| EvProbe (is_running : bool)
| EvRun (command : string)
| EvCreate (path : string)
| EvRemove (path : string)
| EvEmit (sig : Signal).

(** [files] holds the descriptor files on disk with their contents;
    [trace] is the history, oldest event first. *)
Record World := {
  clock : nat;
  files : gmap string PyVal;
  trace : list Event
}.

Definition log (e : Event) (w : World) : World :=
  {| clock := clock w; files := files w; trace := trace w ++ [e] |}.

Definition tick (w : World) : World :=
  {| clock := S (clock w); files := files w; trace := trace w |}.

Definition set_files (f : gmap string PyVal) (w : World) : World :=
  {| clock := clock w; files := f; trace := trace w |}.

(** The environment. Each oracle is asked with the number of calls made
    so far, so its answers may change over time. [process_listing] is
    how the query of the OS process list made by [_is_daemon_running]
    ends ([wmic] where [os.name] is ['nt'], [ps] piped into [grep]
    elsewhere); [check_output] is how a pm2 command ends. *)
Record Env := {
  os_name_nt : bool;
  process_listing : nat -> ExecOutcome;
  check_output : nat -> string -> ExecOutcome;
  named_temporary_file : nat -> TempOutcome
}.

(** [c.isspace()] and the line boundaries of [str.splitlines], for the
    ASCII text the listing tools print. *)
Definition is_space (c : ascii) : bool :=
  let n := nat_of_ascii c in
  ((9 <=? n)%nat && (n <=? 13)%nat) || ((28 <=? n)%nat && (n <=? 32)%nat).

Definition is_line_break (c : ascii) : bool :=
  let n := nat_of_ascii c in
  ((10 <=? n)%nat && (n <=? 13)%nat) || ((28 <=? n)%nat && (n <=? 30)%nat).

Fixpoint lstrip (text : list ascii) : list ascii :=
  match text with
  | c :: rest => if is_space c then lstrip rest else text
  | [] => []
  end.

Definition strip (text : list ascii) : list ascii :=
  reverse (lstrip (reverse (lstrip text))).

(** [len(text.splitlines())]: one line per boundary, a carriage return
    followed by a line feed being one boundary, and one more for text
    after the last boundary. [in_line] tells whether the current line
    has a character yet. *)
Fixpoint count_lines (in_line : bool) (text : list ascii) : nat :=
  match text with
  | [] => if in_line then 1 else 0
  | c :: rest =>
      if Ascii.eqb c "013" then
        match rest with
        | d :: rest' => if Ascii.eqb d "010" then S (count_lines false rest')
                        else S (count_lines false rest)
        | [] => 1
        end
      else if is_line_break c then S (count_lines false rest)
      else count_lines true rest
  end.

Fixpoint is_prefix (needle text : list ascii) : bool :=
  match needle, text with
  | [], _ => true
  | a :: needle', b :: text' => Ascii.eqb a b && is_prefix needle' text'
  | _ :: _, [] => false
  end.

(** [needle in text] *)
Fixpoint contains (needle text : list ascii) : bool :=
  is_prefix needle text ||
  match text with
  | [] => false
  | _ :: text' => contains needle text'
  end.

(** The verdict of [_is_daemon_running] on the way its query ended.
    Under Windows the listing must hold the header and at least one
    more line; elsewhere [grep] exits with zero when it matched. A query
    that fails, is missing or times out means not running. *)
Definition probe_verdict (nt : bool) (r : ExecOutcome) : bool :=
  match r with
  | Completed output =>
      if nt then
        contains (list_ascii_of_string "ProcessId") (list_ascii_of_string output) &&
        (1 <? count_lines false (strip (list_ascii_of_string output)))%nat
      else true
  | CalledProcessError _ => false
  | FileNotFoundError | TimeoutExpired _ => false
  end.

(** The verdict of a probe made in the world [w]. *)
Definition daemon_running (env : Env) (w : World) : bool :=
  probe_verdict (os_name_nt env) (process_listing env (clock w)).
Arguments daemon_running : simpl never.

Definition pm2_keys : list string :=
  [ "name"; "script"; "args"; "interpreter"; "node_args"; "watch";
    "max_memory_restart"; "env"; "exec_mode"; "instances"; "autorestart";
    "cron_restart"; "merge_logs"; "log_date_format"; "out_file";
    "error_file" ].

(** [project_data[key] not in (None, '')] *)
Definition not_blank (v : PyVal) : bool :=
  match v with
  | VNone => false
  | VStr s => negb (String.eqb s EmptyString)
  | _ => true
  end.

(** The loop over [pm2_keys] followed by the copy of ['path'] to ['cwd']. *)
Definition build_app_config (project_data : Dict) : Dict :=
  let app_config :=
    foldl (fun (acc : Dict) key =>
             match project_data !! key with
             | Some v => if not_blank v then <[key := v]> acc else acc
             | None => acc
             end) (∅ : Dict) pm2_keys in
  match project_data !! "path" with
  | Some p => <["cwd" := p]> app_config
  | None => app_config
  end.

Definition ecosystem_of (app_config : Dict) : PyVal :=
  VDict {[ "apps" := VList [VDict app_config] ]}.

Definition start_command (temp_eco_file : string) : string :=
  "pm2 start " +:+ dquote +:+ temp_eco_file +:+ dquote.

Definition logs_command (proc_id_or_name : string) : string :=
  "pm2 logs " +:+ proc_id_or_name +:+ " --lines 200 --nostream".

Section WithEnv.
Context `{!PyBuiltins} (env : Env).

Definition emit (sig : Signal) : M World unit := modify (log (EvEmit sig)).

Definition _is_daemon_running : M World bool :=
  fun w =>
    let is_running := daemon_running env w in
    (Ok is_running, tick (log (EvProbe is_running) w)).

Definition subprocess_check_output (command : string) : M World ExecOutcome :=
  fun w => (Ok (check_output env (clock w) command), tick (log (EvRun command) w)).

(** Both exception classes caught in the second handler have an
    [output] attribute, so the fallback text of the source is never
    taken. [cwd] is never passed by a caller. *)
Definition _run_command (command : string) (can_fail : bool)
  : M World (option Output) :=
  r <- subprocess_check_output command ;;
  match r with
  | Completed result => ret (Some (OutText result))
  | FileNotFoundError =>
      emit (error "Error: 'pm2' command not found. Is PM2 installed and in your system's PATH?") ;;
      ret None
  | CalledProcessError output =>
      when (negb can_fail)
        (emit (error ("Command failed: " +:+ command +:+ nl +:+ nl +:+
                      "Output:" +:+ nl +:+ output))) ;;
      ret (Some (OutText output))
  | TimeoutExpired output =>
      when (negb can_fail)
        (emit (error ("Command failed: " +:+ command +:+ nl +:+ nl +:+
                      "Output:" +:+ nl +:+ fmt_output output))) ;;
      ret output
  end.

(** [json.loads(process_list_json)] *)
Definition loads (process_list_json : Output) : Loaded :=
  match process_list_json with
  | OutText text => json_loads text
  | OutBytes data => json_loads_bytes data
  end.

(** [except (json.JSONDecodeError, TypeError)]: of the other
    exceptions of [json.loads] the handler takes [TypeError] alone. *)
Definition handled (e : Exn) : bool :=
  match e with
  | TypeError => true
  | _ => false
  end.

(** The list is returned as the object the query handed back. *)
Definition get_initial_state : M World (Output * bool) :=
  is_running <- _is_daemon_running ;;
  if negb is_running then ret (OutText "[]", false)
  else
    process_list_json <- _run_command "pm2 jlist" true ;;
    match process_list_json with
    | None => ret (OutText "[]", true)
    | Some output =>
        match loads output with
        | Parsed _ => ret (output, true)
        | JSONDecodeError => ret (OutText "[]", true)
        | LoadsRaises e => if handled e then ret (OutText "[]", true) else raise e
        end
    end.

(** [list_ready] is declared [Signal(str)]. *)
Definition get_process_list : M World unit :=
  is_running <- _is_daemon_running ;;
  emit (daemon_status_ready is_running) ;;
  if is_running then
    process_list_json <- _run_command "pm2 jlist" true ;;
    match process_list_json with
    | None => emit (list_ready "[]")
    | Some output =>
        match loads output with
        | Parsed _ => emit (list_ready (str_argument (Some output)))
        | JSONDecodeError => emit (list_ready "[]")
        | LoadsRaises e => if handled e then emit (list_ready "[]") else raise e
        end
    end
  else emit (list_ready "[]").

Definition start_daemon : M World unit :=
  _run_command "pm2 resurrect" true ;;
  emit (action_finished "PM2 Daemon" "Attempting to start/resurrect PM2 Daemon...") ;;
  get_process_list.

Definition kill_daemon : M World unit :=
  output <- _run_command "pm2 kill" false ;;
  when (bool_decide (output <> None))
    (emit (action_finished "PM2 Daemon Killed" "The PM2 daemon has been stopped.")) ;;
  get_process_list.

Definition get_logs (proc_id_or_name : string) : M World unit :=
  output <- _run_command (logs_command proc_id_or_name) false ;;
  when (truthy output) (emit (logs_ready proc_id_or_name (str_argument output))).

(** [with tempfile.NamedTemporaryFile(...) as fp: ... json.dump(...)] *)
Definition write_descriptor (ecosystem : PyVal) : M World (option string) :=
  fun w =>
    match named_temporary_file env (clock w) with
    | TempFailed => (Raise OSError, tick w)
    | TempCreated path dumped =>
        let w' := tick (log (EvCreate path)
                          (set_files (<[path := ecosystem]> (files w)) w)) in
        if dumped then (Ok (Some path), w') else (Raise OSError, w')
    end.

(** The name bound to [temp_eco_file] when the [finally] block runs:
    it is assigned as soon as the file exists, before [json.dump]. *)
Definition temp_eco_file_at (clk : nat) : option string :=
  match named_temporary_file env clk with
  | TempFailed => None
  | TempCreated path _ => Some path
  end.

(** [if temp_eco_file and os.path.exists(temp_eco_file): os.remove(...)] *)
Definition os_remove_if_exists (temp_eco_file : option string) : M World unit :=
  fun w =>
    match temp_eco_file with
    | Some path =>
        if negb (String.eqb path EmptyString) && bool_decide (is_Some (files w !! path))
        then (Ok tt, log (EvRemove path) (set_files (delete path (files w)) w))
        else (Ok tt, w)
    | None => (Ok tt, w)
    end.

Definition start_process (project_data : Dict) : M World unit :=
  let app_config := build_app_config project_data in
  let ecosystem := ecosystem_of app_config in
  fun w0 =>
    try_finally
      (temp_eco_file <- write_descriptor ecosystem ;;
       output <- _run_command (start_command (default EmptyString temp_eco_file)) false ;;
       when (truthy output)
         (match app_config !! "name" with
          | Some name =>
              emit (action_finished "Process Started"
                      ("Attempted to start '" +:+ py_str name +:+ "'." +:+ nl +:+
                       fmt_output output))
          | None => raise (KeyError "name")
          end))
      (os_remove_if_exists (temp_eco_file_at (clock w0)) ;;
       get_process_list)
      w0.

(** The five operations on one process and the two bulk operations
    share one shape: run the command, report, refresh. *)
Definition simple_action (command title : string)
    (message : option Output -> string) : M World unit :=
  output <- _run_command command false ;;
  when (truthy output) (emit (action_finished title (message output))) ;;
  get_process_list.

Definition stop_process (proc_id_or_name : string) : M World unit :=
  simple_action ("pm2 stop " +:+ proc_id_or_name) "Process Stopped"
    (fun output => "Stopped '" +:+ proc_id_or_name +:+ "'." +:+ nl +:+ fmt_output output).

Definition restart_process (proc_id_or_name : string) : M World unit :=
  simple_action ("pm2 restart " +:+ proc_id_or_name) "Process Restarted"
    (fun output => "Restarted '" +:+ proc_id_or_name +:+ "'." +:+ nl +:+ fmt_output output).

Definition delete_process (proc_id_or_name : string) : M World unit :=
  simple_action ("pm2 delete " +:+ proc_id_or_name) "Process Deleted"
    (fun output => "Deleted '" +:+ proc_id_or_name +:+ "' from PM2." +:+ nl +:+ fmt_output output).

Definition reload_process (proc_id_or_name : string) : M World unit :=
  simple_action ("pm2 reload " +:+ proc_id_or_name) "Process Reloaded"
    (fun output => "Reloaded '" +:+ proc_id_or_name +:+ "'." +:+ nl +:+ fmt_output output).

Definition stop_all : M World unit :=
  simple_action "pm2 stop all" "All Processes Stopped" str_argument.

Definition restart_all : M World unit :=
  simple_action "pm2 restart all" "All Processes Restarted" str_argument.

End WithEnv.

(** The control operations that change the daemon or a process. *)
Inductive Request :=
| StartProcess (project_data : Dict)
| StopProcess (proc_id_or_name : string)
| RestartProcess (proc_id_or_name : string)
| ReloadProcess (proc_id_or_name : string)
| DeleteProcess (proc_id_or_name : string)
| StopAll
| RestartAll
| StartDaemon
| KillDaemon.

Definition perform `{!PyBuiltins} (env : Env) (r : Request) : M World unit :=
  match r with
  | StartProcess project_data => start_process env project_data
  | StopProcess n => stop_process env n
  | RestartProcess n => restart_process env n
  | ReloadProcess n => reload_process env n
  | DeleteProcess n => delete_process env n
  | StopAll => stop_all env
  | RestartAll => restart_all env
  | StartDaemon => start_daemon env
  | KillDaemon => kill_daemon env
  end.

(** The command line a request passes to [_run_command]; the start
    command names the descriptor file created for it. *)
Definition command_of (r : Request) (temp_eco_file : string) : string :=
  match r with
  | StartProcess _ => start_command temp_eco_file
  | StopProcess n => "pm2 stop " +:+ n
  | RestartProcess n => "pm2 restart " +:+ n
  | ReloadProcess n => "pm2 reload " +:+ n
  | DeleteProcess n => "pm2 delete " +:+ n
  | StopAll => "pm2 stop all"
  | RestartAll => "pm2 restart all"
  | StartDaemon => "pm2 resurrect"
  | KillDaemon => "pm2 kill"
  end.

(** The events a computation appends to the history. *)
Definition events_of {A} (c : M World A) (w : World) : list Event :=
  drop (List.length (trace w)) (trace (c w).2).

Definition signals (t : list Event) : list Signal :=
  omap (fun e => match e with EvEmit sig => Some sig | _ => None end) t.

Definition commands (t : list Event) : list string :=
  omap (fun e => match e with EvRun command => Some command | _ => None end) t.

(** Whether a command ended without its exit status being zero. *)
Definition failed (r : ExecOutcome) : bool :=
  match r with
  | Completed _ => false
  | _ => true
  end.

(** What [_run_command] hands back: the output of a command that
    ended as text, what a timeout carries, nothing after
    [FileNotFoundError]. *)
Definition captured (r : ExecOutcome) : option Output :=
  match r with
  | Completed output => Some (OutText output)
  | FileNotFoundError => None
  | CalledProcessError output => Some (OutText output)
  | TimeoutExpired output => output
  end.

(** ** What a run of the worker amounts to

    Closed forms of what [_run_command], [get_process_list] and
    [start_process] do, shown to agree with the code among the
    properties of the worker. *)

(** The errors [_run_command] surfaces. *)
Definition surfaced (command : string) (can_fail : bool) (r : ExecOutcome) : list Event :=
  match r with
  | Completed _ => []
  | FileNotFoundError =>
      [EvEmit (error "Error: 'pm2' command not found. Is PM2 installed and in your system's PATH?")]
  | CalledProcessError output =>
      if can_fail then []
      else [EvEmit (error ("Command failed: " +:+ command +:+ nl +:+ nl +:+
                           "Output:" +:+ nl +:+ output))]
  | TimeoutExpired output =>
      if can_fail then []
      else [EvEmit (error ("Command failed: " +:+ command +:+ nl +:+ nl +:+
                           "Output:" +:+ nl +:+ fmt_output output))]
  end.

Section Summary.
Context `{!PyBuiltins} (env : Env).

(** What becomes of what the query handed back: the list kept, or
    the exception of [json.loads] that no handler takes. *)
Definition checked (output : option Output) : Result Output :=
  match output with
  | Some o =>
      match loads o with
      | Parsed _ => Ok o
      | JSONDecodeError => Ok (OutText "[]")
      | LoadsRaises e => if handled e then Ok (OutText "[]") else Raise e
      end
  | None => Ok (OutText "[]")
  end.

(** The payload a refresh emits for it, as the slots receive it. *)
Definition payload_for (output : option Output) : Result string :=
  match checked output with
  | Ok o => Ok (str_argument (Some o))
  | Raise e => Raise e
  end.

Definition refresh_events (w : World) : list Event :=
  let is_running := daemon_running env w in
  EvProbe is_running :: EvEmit (daemon_status_ready is_running) ::
  (if is_running then
     let query := check_output env (S (clock w)) "pm2 jlist" in
     EvRun "pm2 jlist" :: surfaced "pm2 jlist" true query ++
     match payload_for (captured query) with
     | Ok payload => [EvEmit (list_ready payload)]
     | Raise _ => []
     end
   else [EvEmit (list_ready "[]")]).

(** How a refresh ends. *)
Definition refresh_result (w : World) : Result unit :=
  if daemon_running env w then
    match payload_for (captured (check_output env (S (clock w)) "pm2 jlist")) with
    | Ok _ => Ok tt
    | Raise e => Raise e
    end
  else Ok tt.

Definition refreshed (w : World) : World :=
  {| clock := if daemon_running env w then S (S (clock w)) else S (clock w);
     files := files w;
     trace := trace w ++ refresh_events w |}.

(** The events of a start request before its refresh; [mid] stands
    for the report emitted after the command, if any. *)
Definition start_events (w : World) (mid : list Event) : list Event :=
  match named_temporary_file env (clock w) with
  | TempFailed => []
  | TempCreated path dumped =>
      EvCreate path ::
      (if dumped then
         EvRun (start_command path) ::
         surfaced (start_command path) false
           (check_output env (S (clock w)) (start_command path)) ++ mid
       else []) ++
      (if negb (String.eqb path EmptyString) then [EvRemove path] else [])
  end.

End Summary.

(** The claims about the worker that the code does not meet, as they
    are worded; their corrected forms are proved further down. *)

(** [get_initial_state]: without a running daemon the result is the
    empty list and no query; with one, a failed query or text that is
    not JSON gives the empty list. *)
Definition initial_state_claim : Prop :=
  forall (B : PyBuiltins) (env : Env) (w : World),
    let query := check_output env (S (clock w)) "pm2 jlist" in
    (daemon_running env w = false ->
       (get_initial_state env w).1 = Ok (OutText "[]", false) /\
       commands (events_of (get_initial_state env) w) = []) /\
    (daemon_running env w = true ->
       failed query = true \/
       (exists text, query = Completed text /\ json_loads text = JSONDecodeError) ->
       (get_initial_state env w).1 = Ok (OutText "[]", true)).

(** [get_process_list]: the liveness result comes first; a failed or
    malformed query gives the empty list and no error; without a
    running daemon the empty list is emitted and no query made. *)
Definition refresh_claim : Prop :=
  forall (B : PyBuiltins) (env : Env) (w : World),
    let is_running := daemon_running env w in
    let query := check_output env (S (clock w)) "pm2 jlist" in
    let emitted := signals (events_of (get_process_list env) w) in
    head emitted = Some (daemon_status_ready is_running) /\
    (is_running = true ->
       failed query = true \/
       (exists text, query = Completed text /\ json_loads text = JSONDecodeError) ->
       emitted = [daemon_status_ready true; list_ready "[]"]) /\
    (is_running = false ->
       emitted = [daemon_status_ready false; list_ready "[]"] /\
       commands (events_of (get_process_list env) w) = []).

(** [get_logs]: a failed fetch emits nothing at all. *)
Definition silent_logs_claim : Prop :=
  forall (env : Env) (w : World) (proc_id_or_name : string),
    failed (check_output env (clock w) (logs_command proc_id_or_name)) = true ->
    signals (events_of (get_logs env proc_id_or_name) w) = [].

(** The payloads the worker produces, as [update_ui] receives them:
    emitted through [list_ready] by a refresh or by a control
    operation, or returned by [get_initial_state] and passed on through
    the signal [finished] of the preloader, which declares it [str]. *)
Inductive worker_payload `{!PyBuiltins} (env : Env) (payload : string) : Prop :=
| payload_of_refresh w :
    EvEmit (list_ready payload) ∈ events_of (get_process_list env) w ->
    worker_payload env payload
| payload_of_request r w :
    EvEmit (list_ready payload) ∈ events_of (perform env r) w ->
    worker_payload env payload
| payload_of_initial_state w output is_running :
    (get_initial_state env w).1 = Ok (output, is_running) ->
    payload = str_argument (Some output) ->
    worker_payload env payload.

(** The command a request gets to run: always one, except that a start
    whose descriptor could not be written runs none. *)
Definition issued (env : Env) (r : Request) (w : World) : option string :=
  match r with
  | StartProcess _ =>
      match named_temporary_file env (clock w) with
      | TempCreated path true => Some (start_command path)
      | _ => None
      end
  | _ => Some (command_of r EmptyString)
  end.

Definition is_signal (e : Event) : Prop := exists sig, e = EvEmit sig.

End Worker.

(** ** The main window: [view/main.py] and [view/sidebar.py] *)

Module View.

Inductive DaemonState := STOPPED | RUNNING | PENDING.

(** A declared configuration of the project store: a record keyed by
    its [name], a string, with the remaining fields of the dictionary. *)
Record DeclaredProcessConfig := {
  cfg_name : string;
  cfg_fields : Dict
}.

(** The dictionary [get_projects] hands out for a configuration. *)
Definition as_dict (c : DeclaredProcessConfig) : Dict :=
  <["name" := VStr (cfg_name c)]> (cfg_fields c).

(** *** [ProjectListItemWidget] *)

Record ProjectListItemWidget := {
  project_name : PyVal;
  icon : string;
  name_style : string
}.

(** [project_data.get('pm2_env', {}).get('status', 'undeployed')]:
    a ['pm2_env'] that is not a dictionary has no [get]. *)
Definition status_of (project_data : Dict) : Result PyVal :=
  match project_data !! "pm2_env" with
  | None => Ok (VStr "undeployed")
  | Some (VDict pm2_env) => Ok (default (VStr "undeployed") (pm2_env !! "status"))
  | Some _ => Raise AttributeError
  end.

(** [status == text] for a string literal [text] *)
Definition str_is (text : string) (status : PyVal) : bool :=
  match status with
  | VStr s => String.eqb s text
  | _ => false
  end.

Definition update_status (project_data : Dict) (w : ProjectListItemWidget)
  : Result ProjectListItemWidget :=
  match status_of project_data with
  | Raise e => Raise e
  | Ok status =>
      let '(icon_theme, style) :=
        if str_is "online" status then ("presence-online", "color: #4CAF50;")
        else if str_is "stopped" status || str_is "stopping" status
             then ("presence-offline", "color: #FFC107;")
        else if str_is "errored" status then ("presence-busy", "color: #F44336;")
        else ("presence-unknown", EmptyString) in
      Ok {| project_name := project_name w; icon := icon_theme; name_style := style |}
  end.

(** The constructor: stores the name, then applies the initial status. *)
Definition new_ProjectListItemWidget (project_data : Dict) : Result ProjectListItemWidget :=
  update_status project_data
    {| project_name := default (VStr "N/A") (project_data !! "name");
       icon := EmptyString; name_style := EmptyString |}.

(** *** Reconciliation *)

(** Iterating the decoded payload: a list yields its elements, a
    dictionary its keys, a string its characters; nothing else is
    iterable. *)
Definition py_iter (v : PyVal) : Result (list PyVal) :=
  match v with
  | VList l => Ok l
  | VDict d => Ok (VStr <$> (map_to_list d).*1)
  | VStr s => Ok ((fun c => VStr (String c EmptyString)) <$> list_ascii_of_string s)
  | VNone | VBool _ | VInt _ => Raise TypeError
  end.

(** [p.get('name') == name] for a string [name] *)
Definition has_name (name : string) (p : Dict) : bool :=
  match p !! "name" with
  | Some (VStr s) => String.eqb s name
  | _ => false
  end.

(** [next((p for p in pm2_processes if p.get('name') == name), None)]:
    the first record so named; an element met on the way that is not a
    dictionary has no [get]. *)
Fixpoint find_live (name : string) (pm2_processes : list PyVal) : Result (option Dict) :=
  match pm2_processes with
  | [] => Ok None
  | VDict p :: rest => if has_name name p then Ok (Some p) else find_live name rest
  | _ :: _ => Raise AttributeError
  end.

(** [{**proj_config, **(live_data or {})}]: the live fields win. *)
Definition merge (proj_config : DeclaredProcessConfig) (live_data : option Dict) : Dict :=
  default ∅ live_data ∪ as_dict proj_config.

Fixpoint merge_known (pm2_processes : PyVal) (known_projects : list DeclaredProcessConfig)
  : Result (list Dict) :=
  match known_projects with
  | [] => Ok []
  | proj_config :: rest =>
      match py_iter pm2_processes with
      | Raise e => Raise e
      | Ok elems =>
          match find_live (cfg_name proj_config) elems with
          | Raise e => Raise e
          | Ok live_data =>
              match merge_known pm2_processes rest with
              | Raise e => Raise e
              | Ok merged => Ok (merge proj_config live_data :: merged)
              end
          end
      end
  end.

(** [p['name']] as a sort or map key. Every merged record carries the
    string name of its configuration; a name of another type is outside
    the data model and reported as a [TypeError]. *)
Definition name_key (p : Dict) : Result string :=
  match p !! "name" with
  | Some (VStr s) => Ok s
  | Some _ => Raise TypeError
  | None => Raise (KeyError "name")
  end.

Fixpoint with_keys (l : list Dict) : Result (list (string * Dict)) :=
  match l with
  | [] => Ok []
  | p :: rest =>
      match name_key p with
      | Raise e => Raise e
      | Ok k =>
          match with_keys rest with
          | Raise e => Raise e
          | Ok keyed => Ok ((k, p) :: keyed)
          end
      end
  end.

(** [list.sort(key=...)] is stable: an element goes in front of the
    first one whose key is not smaller. *)
Fixpoint insert_sorted (k : string) (p : Dict) (l : list (string * Dict))
  : list (string * Dict) :=
  match l with
  | [] => [(k, p)]
  | (k', p') :: l' =>
      if String.leb k k' then (k, p) :: (k', p') :: l'
      else (k', p') :: insert_sorted k p l'
  end.

Definition sort_keyed (l : list (string * Dict)) : list (string * Dict) :=
  foldr (fun kp acc => insert_sorted kp.1 kp.2 acc) [] l.

Definition sort_by_name (l : list Dict) : Result (list Dict) :=
  match with_keys l with
  | Raise e => Raise e
  | Ok keyed => Ok ((sort_keyed keyed).*2)
  end.

(** Step 1 of [update_ui] as a function of the store and the payload. *)
Definition reconcile (known_projects : list DeclaredProcessConfig) (pm2_processes : PyVal)
  : Result (list Dict) :=
  match merge_known pm2_processes known_projects with
  | Raise e => Raise e
  | Ok merged => sort_by_name merged
  end.

(** *** The list widget *)

Inductive Item :=
| DashboardItem
| ProjectItem (name : string) (widget : ProjectListItemWidget).

Inductive ListCall :=
| CallClear
| CallAddDashboard
| CallAddItem (name : string)
| CallInsertItem (row : nat) (name : string)
| CallTakeItem (name : string)
| CallUpdateStatus (name : string).

Definition is_named (name : string) (it : Item) : bool :=
  match it with
  | ProjectItem n _ => String.eqb n name
  | DashboardItem => false
  end.

Definition item_names (items : list Item) : list string :=
  omap (fun it => match it with ProjectItem n _ => Some n | DashboardItem => None end) items.

(** Keys of [existing_items_map] in insertion order; the item stored
    under a name is the last project item of that name, later entries
    overwriting earlier ones. *)
Definition existing_keys (items : list Item) : list string :=
  reverse (remove_dups (reverse (item_names items))).

(** [takeItem(row(existing_items_map[name]))] *)
Fixpoint take_last (name : string) (items : list Item) : list Item :=
  match items with
  | [] => []
  | it :: rest =>
      if is_named name it && negb (existsb (is_named name) rest) then rest
      else it :: take_last name rest
  end.

(** [itemWidget(existing_items_map[name]).update_status(proj)] *)
Fixpoint update_last (name : string) (proj : Dict) (items : list Item) : Result (list Item) :=
  match items with
  | [] => Ok []
  | it :: rest =>
      match it with
      | ProjectItem n w =>
          if String.eqb n name && negb (existsb (is_named name) rest) then
            match update_status proj w with
            | Raise e => Raise e
            | Ok w' => Ok (ProjectItem n w' :: rest)
            end
          else
            match update_last name proj rest with
            | Raise e => Raise e
            | Ok rest' => Ok (it :: rest')
            end
      | DashboardItem =>
          match update_last name proj rest with
          | Raise e => Raise e
          | Ok rest' => Ok (it :: rest')
          end
      end
  end.

(** [insertItem(row, item)]: a row past the end appends. *)
Definition insert_at (row : nat) (it : Item) (items : list Item) : list Item :=
  take row items ++ it :: drop row items.

(** *** The window *)

Record Controls := {
  start_daemon_action : bool;
  kill_daemon_action : bool;
  project_actions : bool;       (* add, remove, refresh, restart all, stop all *)
  dashboard_daemon_up : bool;
  loading_overlay : bool;
  refresh_timer : bool
}.

Record PM2GUI := {
  projects : list DeclaredProcessConfig;   (* project_manager.get_projects() *)
  daemon_state : option DaemonState;
  all_projects_data : list Dict;
  project_list_widget : list Item;
  list_calls : list ListCall;              (* calls made on the list widget *)
  controls : Controls;
  status_bar : string;
  error_dialogs : list string;
  updates : nat                            (* runs of update_ui so far *)
}.

Definition set_daemon_state (st : option DaemonState) (g : PM2GUI) : PM2GUI :=
  {| projects := projects g; daemon_state := st;
     all_projects_data := all_projects_data g;
     project_list_widget := project_list_widget g; list_calls := list_calls g;
     controls := controls g; status_bar := status_bar g;
     error_dialogs := error_dialogs g; updates := updates g |}.

Definition set_all_projects_data (d : list Dict) (g : PM2GUI) : PM2GUI :=
  {| projects := projects g; daemon_state := daemon_state g;
     all_projects_data := d;
     project_list_widget := project_list_widget g; list_calls := list_calls g;
     controls := controls g; status_bar := status_bar g;
     error_dialogs := error_dialogs g; updates := updates g |}.

Definition list_call (c : ListCall) (items : list Item) (g : PM2GUI) : PM2GUI :=
  {| projects := projects g; daemon_state := daemon_state g;
     all_projects_data := all_projects_data g;
     project_list_widget := items; list_calls := list_calls g ++ [c];
     controls := controls g; status_bar := status_bar g;
     error_dialogs := error_dialogs g; updates := updates g |}.

Definition set_controls (c : Controls) (g : PM2GUI) : PM2GUI :=
  {| projects := projects g; daemon_state := daemon_state g;
     all_projects_data := all_projects_data g;
     project_list_widget := project_list_widget g; list_calls := list_calls g;
     controls := c; status_bar := status_bar g;
     error_dialogs := error_dialogs g; updates := updates g |}.

Definition show_message (msg : string) (g : PM2GUI) : PM2GUI :=
  {| projects := projects g; daemon_state := daemon_state g;
     all_projects_data := all_projects_data g;
     project_list_widget := project_list_widget g; list_calls := list_calls g;
     controls := controls g; status_bar := msg;
     error_dialogs := error_dialogs g; updates := updates g |}.

Definition critical (msg : string) (g : PM2GUI) : PM2GUI :=
  {| projects := projects g; daemon_state := daemon_state g;
     all_projects_data := all_projects_data g;
     project_list_widget := project_list_widget g; list_calls := list_calls g;
     controls := controls g; status_bar := status_bar g;
     error_dialogs := error_dialogs g ++ [msg]; updates := updates g |}.

Definition count_update (g : PM2GUI) : PM2GUI :=
  {| projects := projects g; daemon_state := daemon_state g;
     all_projects_data := all_projects_data g;
     project_list_widget := project_list_widget g; list_calls := list_calls g;
     controls := controls g; status_bar := status_bar g;
     error_dialogs := error_dialogs g; updates := S (updates g) |}.

Definition is_stopped (st : option DaemonState) : bool :=
  match st with
  | Some STOPPED => true
  | _ => false
  end.

Definition is_empty {A} (l : list A) : bool :=
  match l with
  | [] => true
  | _ :: _ => false
  end.

(** What [update_daemon_status] receives: a boolean from the worker or
    the preloader, or a state from the window itself. *)
Inductive StatusArg :=
| PyBool (b : bool)
| PyState (st : DaemonState).

Definition to_state (new_state_or_bool : StatusArg) : DaemonState :=
  match new_state_or_bool with
  | PyBool b => if b then RUNNING else STOPPED
  | PyState st => st
  end.

Definition same_state (current : option DaemonState) (new_state : DaemonState) : bool :=
  match current, new_state with
  | Some STOPPED, STOPPED | Some RUNNING, RUNNING | Some PENDING, PENDING => true
  | _, _ => false
  end.

(** The widgets on entry to each state; the timer is left alone while
    pending, started when running and stopped when stopped. *)
Definition controls_for (st : DaemonState) (c : Controls) : Controls :=
  match st with
  | PENDING =>
      {| start_daemon_action := false; kill_daemon_action := false;
         project_actions := false; dashboard_daemon_up := false;
         loading_overlay := true; refresh_timer := refresh_timer c |}
  | RUNNING =>
      {| start_daemon_action := false; kill_daemon_action := true;
         project_actions := true; dashboard_daemon_up := true;
         loading_overlay := false; refresh_timer := true |}
  | STOPPED =>
      {| start_daemon_action := true; kill_daemon_action := false;
         project_actions := false; dashboard_daemon_up := false;
         loading_overlay := false; refresh_timer := false |}
  end.

Definition status_text (st : DaemonState) : string :=
  match st with
  | PENDING => "Checking PM2 daemon status..."
  | RUNNING => "PM2 Daemon is running. Fetching process list..."
  | STOPPED => "PM2 Daemon is not running. Please use the 'Start Daemon' button."
  end.

(** The value [update_ui] binds to [pm2_processes] for a payload: the
    value decoded, the empty list for what is no JSON, and none when
    [json.loads] raises another exception, which ends the slot. *)
Definition decoded `{!PyBuiltins} (pm2_json_data : string) : option PyVal :=
  match json_loads pm2_json_data with
  | Parsed v => Some v
  | JSONDecodeError => Some (VList [])
  | LoadsRaises _ => None
  end.

(** The calls a run on unchanged data may make on the list: status
    updates of the items shown; or, when the merged list is empty and
    the run takes the first-load branch, the rebuild of a list with no
    project item. *)
Definition in_place (data : list Dict) (c : ListCall) : Prop :=
  match data with
  | [] => c = CallClear \/ c = CallAddDashboard
  | _ :: _ => exists name, c = CallUpdateStatus name
  end.

Definition name_le (a b : string) : Prop := String.leb a b = true.

(** A window whose list shows the project names [W], and on whose list
    every call since the calls [C] is one of those in [Q]. *)
Definition settled (Q : ListCall -> Prop) (W : list string) (C : list ListCall)
    (g : PM2GUI) : Prop :=
  item_names (project_list_widget g) = W /\
  exists new, list_calls g = (C ++ new)%list /\ Forall Q new.

(** A property of the window that the list calls, the status bar and
    the run counter leave alone. *)
Definition list_frame (P : PM2GUI -> Prop) : Prop :=
  (forall g, P g -> P (count_update g)) /\
  (forall msg g, P g -> P (show_message msg g)) /\
  (forall c items g, P g -> P (list_call c items g)).

Section WithViews.
Context `{!PyBuiltins}.

(** Step 2 of [update_ui] hands the merged list to the dashboard and
    to the detail pane. Both keep their own widgets, and either may
    raise on data it cannot display; [refresh_views n data] is how
    the pair of calls ends in the [n]-th run. *)
Variable refresh_views : nat -> list Dict -> Result unit.

Definition show_error_message (message : string) : M PM2GUI unit :=
  modify (show_message "An error occurred.") ;;
  modify (critical message).

Definition _add_project_list_item (proj_data : Dict) (at_row : option nat)
  : M PM2GUI unit :=
  name <- lift (name_key proj_data) ;;
  custom_widget <- lift (new_ProjectListItemWidget proj_data) ;;
  modify (fun g =>
    match at_row with
    | Some row =>
        list_call (CallInsertItem row name)
          (insert_at row (ProjectItem name custom_widget) (project_list_widget g)) g
    | None =>
        list_call (CallAddItem name)
          (project_list_widget g ++ [ProjectItem name custom_widget]) g
    end).

(** REMOVE items that are no longer in the data *)
Definition remove_stale (existing new_names : list string) : M PM2GUI unit :=
  for_each existing (fun name =>
    when (negb (bool_decide (name ∈ new_names)))
      (modify (fun g =>
         list_call (CallTakeItem name) (take_last name (project_list_widget g)) g))).

(** UPDATE existing items and ADD new ones: the body of the loop over
    [enumerate(self.all_projects_data)]. *)
Definition update_or_add (existing : list string) (entry : nat * Dict) : M PM2GUI unit :=
  name <- lift (name_key entry.2) ;;
  if bool_decide (name ∈ existing) then
    fun g =>
      match update_last name entry.2 (project_list_widget g) with
      | Ok items => (Ok tt, list_call (CallUpdateStatus name) items g)
      | Raise e => (Raise e, g)
      end
  else _add_project_list_item entry.2 (Some (S entry.1)).

(** On first load, populate everything from scratch. The selection of
    the list ([setCurrentRow], [on_item_selected]) is not part of the
    state kept here. *)
Definition first_population (data : list Dict) : M PM2GUI unit :=
  modify (list_call CallClear []) ;;
  modify (fun g => list_call CallAddDashboard (project_list_widget g ++ [DashboardItem]) g) ;;
  for_each data (fun proj => _add_project_list_item proj None).

(** On subsequent updates, perform a diff. *)
Definition diff_population (data : list Dict) : M PM2GUI unit :=
  existing <- gets (fun g => existing_keys (project_list_widget g)) ;;
  new_data_map <- lift (with_keys data) ;;
  remove_stale existing new_data_map.*1 ;;
  for_each (imap pair data) (update_or_add existing).

(** [update_ui] after the payload is decoded: steps 1 to 3 and the
    status message. *)
Definition render (is_first_load : bool) (pm2_processes : PyVal) : M PM2GUI unit :=
  known_projects <- gets projects ;;
  new_project_data_list <- lift (reconcile known_projects pm2_processes) ;;
  modify (set_all_projects_data new_project_data_list) ;;
  n <- gets updates ;;
  modify count_update ;;
  lift (refresh_views n new_project_data_list) ;;
  (if is_first_load then first_population new_project_data_list
   else diff_population new_project_data_list) ;;
  st <- gets daemon_state ;;
  modify (show_message
            (if is_stopped st then "PM2 Daemon is not running."
             else "Updated. Managing " +:+ pretty (List.length new_project_data_list)
                  +:+ " projects.")).

Definition update_ui (pm2_json_data : string) : M PM2GUI unit :=
  is_first_load <- gets (fun g => is_empty (all_projects_data g)) ;;
  pm2_processes <-
    match json_loads pm2_json_data with
    | Parsed v => ret v
    | JSONDecodeError => show_error_message "Failed to parse PM2 data." ;; ret (VList [])
    | LoadsRaises e => raise e
    end ;;
  render is_first_load pm2_processes.

Definition update_daemon_status (new_state_or_bool : StatusArg) : M PM2GUI unit :=
  let new_state := to_state new_state_or_bool in
  current <- gets daemon_state ;;
  if same_state current new_state then ret tt
  else
    modify (set_daemon_state (Some new_state)) ;;
    modify (show_message (status_text new_state)) ;;
    modify (fun g => set_controls (controls_for new_state (controls g)) g) ;;
    match new_state with
    | STOPPED => update_ui "[]"
    | _ => ret tt
    end.

(** The connections made in [setup_worker_thread]; logs go to the
    detail pane, which is not part of the state kept here. *)
Definition deliver (sig : Worker.Signal) : M PM2GUI unit :=
  match sig with
  | Worker.list_ready payload => update_ui payload
  | Worker.logs_ready _ _ => ret tt
  | Worker.action_finished title _ => modify (show_message title)
  | Worker.error message => show_error_message message
  | Worker.daemon_status_ready is_running => update_daemon_status (PyBool is_running)
  end.

(** A slot runs to its end or to an exception; either way the window
    keeps the state reached. *)
Definition slot (c : M PM2GUI unit) (g : PM2GUI) : PM2GUI := (c g).2.

(** The states the machine goes through on a sequence of inputs. *)
Fixpoint state_history (inputs : list StatusArg) (g : PM2GUI) : list (option DaemonState) :=
  match inputs with
  | [] => []
  | i :: rest =>
      let g' := slot (update_daemon_status i) g in
      daemon_state g' :: state_history rest g'
  end.

End WithViews.

(** The window as [__init__] leaves it before [init_ui] sets the first
    state. *)
Definition new_window (known_projects : list DeclaredProcessConfig) : PM2GUI :=
  {| projects := known_projects; daemon_state := None; all_projects_data := [];
     project_list_widget := []; list_calls := [];
     controls := {| start_daemon_action := true; kill_daemon_action := true;
                    project_actions := true; dashboard_daemon_up := false;
                    loading_overlay := false; refresh_timer := false |};
     status_bar := EmptyString; error_dialogs := []; updates := 0 |}.

(** A change between running and stopped in a single step. *)
Definition direct_flip (a b : option DaemonState) : Prop :=
  (a = Some RUNNING /\ b = Some STOPPED) \/ (a = Some STOPPED /\ b = Some RUNNING).

(** The inputs of the claim: booleans from refresh results and explicit
    requests for [PENDING]. *)
Definition worker_or_request (i : StatusArg) : Prop :=
  match i with
  | PyBool _ => True
  | PyState st => st = PENDING
  end.

(** C8 as it is worded: after a run that returned, from a list that
    showed no name twice, a second run on the same payload makes no call
    on the list but status updates. *)
Definition idempotent_diff_claim : Prop :=
  forall (B : PyBuiltins) (refresh_views : nat -> list Dict -> Result unit)
         (pm2_json_data : string) (g g1 : PM2GUI),
    NoDup (item_names (project_list_widget g)) ->
    update_ui refresh_views pm2_json_data g = (Ok tt, g1) ->
    exists new,
      list_calls (slot (update_ui refresh_views pm2_json_data) g1) =
        (list_calls g1 ++ new)%list /\
      Forall (fun c => exists name, c = CallUpdateStatus name) new.

(** C1 as it is worded: on such inputs no two consecutive states of the
    machine are running and stopped, in either order. *)
Definition never_direct_claim : Prop :=
  forall (B : PyBuiltins) (refresh_views : nat -> list Dict -> Result unit)
         (g : PM2GUI) (inputs : list StatusArg),
    Forall worker_or_request inputs ->
    forall (k : nat) (a b : option DaemonState),
      (daemon_state g :: state_history refresh_views inputs g) !! k = Some a ->
      (daemon_state g :: state_history refresh_views inputs g) !! S k = Some b ->
      ~ direct_flip a b.

End View.

(** ** A reference instance of the Python functions

    A decoder for the part of JSON without fractions, exponents and
    string escapes. On that part it accepts what [json.loads] accepts,
    with the same value; elsewhere it rejects. *)

Module Reference.

Definition is_ws (c : ascii) : bool :=
  Ascii.eqb c " " || Ascii.eqb c "009" || Ascii.eqb c "010" || Ascii.eqb c "013".

Fixpoint skip_ws (s : list ascii) : list ascii :=
  match s with
  | c :: r => if is_ws c then skip_ws r else s
  | [] => []
  end.

Definition digit_of (c : ascii) : option Z :=
  let n := nat_of_ascii c in
  if (48 <=? n)%nat && (n <=? 57)%nat then Some (Z.of_nat (n - 48)) else None.

Fixpoint parse_digits (acc : Z) (s : list ascii) : Z * list ascii :=
  match s with
  | c :: r =>
      match digit_of c with
      | Some d => parse_digits (10 * acc + d) r
      | None => (acc, s)
      end
  | [] => (acc, [])
  end.

Definition starts_float (s : list ascii) : bool :=
  match s with
  | c :: _ => Ascii.eqb c "." || Ascii.eqb c "e" || Ascii.eqb c "E"
  | [] => false
  end.

Definition parse_nat (s : list ascii) : option (Z * list ascii) :=
  match s with
  | c :: r =>
      match digit_of c with
      | Some d =>
          let '(z, rest) := if (d =? 0)%Z then (0%Z, r) else parse_digits d r in
          if starts_float rest then None else Some (z, rest)
      | None => None
      end
  | [] => None
  end.

Definition parse_int (s : list ascii) : option (Z * list ascii) :=
  match s with
  | c :: r =>
      if Ascii.eqb c "-" then
        match parse_nat r with
        | Some (z, rest) => Some ((- z)%Z, rest)
        | None => None
        end
      else parse_nat s
  | [] => None
  end.

(** The text after an opening quote, up to the closing one. *)
Fixpoint parse_string (s : list ascii) : option (string * list ascii) :=
  match s with
  | [] => None
  | c :: r =>
      if Ascii.eqb c "034" then Some (EmptyString, r)
      else if Ascii.eqb c "\" || (nat_of_ascii c <? 32)%nat then None
      else
        match parse_string r with
        | Some (str, rest) => Some (String c str, rest)
        | None => None
        end
  end.

Fixpoint strip_prefix (p s : list ascii) : option (list ascii) :=
  match p, s with
  | [], _ => Some s
  | a :: p', b :: s' => if Ascii.eqb a b then strip_prefix p' s' else None
  | _ :: _, [] => None
  end.

Definition head_is (c : ascii) (s : list ascii) : option (list ascii) :=
  match s with
  | d :: r => if Ascii.eqb c d then Some r else None
  | [] => None
  end.

Definition parse_literal (s : list ascii) : option (PyVal * list ascii) :=
  match strip_prefix (list_ascii_of_string "null") s with
  | Some r => Some (VNone, r)
  | None =>
      match strip_prefix (list_ascii_of_string "true") s with
      | Some r => Some (VBool true, r)
      | None =>
          match strip_prefix (list_ascii_of_string "false") s with
          | Some r => Some (VBool false, r)
          | None =>
              match parse_int s with
              | Some (z, r) => Some (VInt z, r)
              | None => None
              end
          end
      end
  end.

(** In an object a repeated key keeps its last value. *)
Definition dict_of (members : list (string * PyVal)) : Dict :=
  list_to_map (reverse members).

Fixpoint parse_value (fuel : nat) (s : list ascii) : option (PyVal * list ascii) :=
  match fuel with
  | O => None
  | S fuel' =>
      let s := skip_ws s in
      match head_is "034" s with
      | Some r =>
          match parse_string r with
          | Some (str, rest) => Some (VStr str, rest)
          | None => None
          end
      | None =>
          match head_is "[" s with
          | Some r =>
              match head_is "]" (skip_ws r) with
              | Some rest => Some (VList [], rest)
              | None =>
                  match parse_elements fuel' r with
                  | Some (vs, rest) => Some (VList vs, rest)
                  | None => None
                  end
              end
          | None =>
              match head_is "{" s with
              | Some r =>
                  match head_is "}" (skip_ws r) with
                  | Some rest => Some (VDict ∅, rest)
                  | None =>
                      match parse_members fuel' r with
                      | Some (ms, rest) => Some (VDict (dict_of ms), rest)
                      | None => None
                      end
                  end
              | None => parse_literal s
              end
          end
      end
  end
with parse_elements (fuel : nat) (s : list ascii) : option (list PyVal * list ascii) :=
  match fuel with
  | O => None
  | S fuel' =>
      match parse_value fuel' s with
      | Some (v, rest) =>
          let rest := skip_ws rest in
          match head_is "," rest with
          | Some r =>
              match parse_elements fuel' r with
              | Some (vs, rest') => Some (v :: vs, rest')
              | None => None
              end
          | None =>
              match head_is "]" rest with
              | Some r => Some ([v], r)
              | None => None
              end
          end
      | None => None
      end
  end
with parse_members (fuel : nat) (s : list ascii)
  : option (list (string * PyVal) * list ascii) :=
  match fuel with
  | O => None
  | S fuel' =>
      match head_is "034" (skip_ws s) with
      | Some r =>
          match parse_string r with
          | Some (key, rest) =>
              match head_is ":" (skip_ws rest) with
              | Some r2 =>
                  match parse_value fuel' r2 with
                  | Some (v, rest2) =>
                      let rest2 := skip_ws rest2 in
                      match head_is "," rest2 with
                      | Some r3 =>
                          match parse_members fuel' r3 with
                          | Some (ms, rest') => Some ((key, v) :: ms, rest')
                          | None => None
                          end
                      | None =>
                          match head_is "}" rest2 with
                          | Some r3 => Some ([(key, v)], r3)
                          | None => None
                          end
                      end
                  | None => None
                  end
              | None => None
              end
          | None => None
          end
      | None => None
      end
  end.

Definition loads (text : string) : option PyVal :=
  let s := list_ascii_of_string text in
  match parse_value (2 * List.length s + 2) s with
  | Some (v, rest) =>
      match skip_ws rest with
      | [] => Some v
      | _ :: _ => None
      end
  | None => None
  end.

(** [str]: exact on [None], booleans, integers and strings. Lists and
    dictionaries are shown in Python's layout, their strings quoted
    without escapes and their keys in the order of the map. *)
Fixpoint repr (v : PyVal) : string :=
  match v with
  | VNone => "None"
  | VBool b => if b then "True" else "False"
  | VInt z => pretty z
  | VStr s => "'" +:+ s +:+ "'"
  | VList l => "[" +:+ String.concat ", " (map repr l) +:+ "]"
  | VDict d =>
      "{" +:+ String.concat ", "
                (map_fold (fun k v' acc => ("'" +:+ k +:+ "': " +:+ repr v') :: acc) [] d)
          +:+ "}"
  end.

Definition str (v : PyVal) : string :=
  match v with
  | VStr s => s
  | _ => repr v
  end.

(** The decoder as [json.loads]. *)
Definition loaded (text : string) : Loaded :=
  match loads text with
  | Some v => Parsed v
  | None => JSONDecodeError
  end.

(** Whether bytes are UTF-8, as the decoder of [json.loads] takes it
    (encoded surrogates pass): [more] bytes of the current character
    are due, the next of them between [lo] and [hi]. *)
Fixpoint utf8_from (more lo hi : nat) (data : string) : bool :=
  match data with
  | EmptyString => (more =? 0)%nat
  | String c rest =>
      let n := nat_of_ascii c in
      match more with
      | O =>
          if (n <? 128)%nat then utf8_from 0 128 191 rest
          else if (194 <=? n)%nat && (n <=? 223)%nat then utf8_from 1 128 191 rest
          else if (n =? 224)%nat then utf8_from 2 160 191 rest
          else if (225 <=? n)%nat && (n <=? 239)%nat then utf8_from 2 128 191 rest
          else if (n =? 240)%nat then utf8_from 3 144 191 rest
          else if (241 <=? n)%nat && (n <=? 243)%nat then utf8_from 3 128 191 rest
          else if (n =? 244)%nat then utf8_from 3 128 143 rest
          else false
      | S more' => (lo <=? n)%nat && (n <=? hi)%nat && utf8_from more' 128 191 rest
      end
  end.

(** [json.loads] on bytes that start with no byte-order mark and hold
    no NUL: they are decoded as UTF-8, which raises when they are not,
    as when a capture ends in the middle of a character. *)
Definition loaded_bytes (data : string) : Loaded :=
  if utf8_from 0 128 191 data then loaded data else LoadsRaises UnicodeDecodeError.

#[export] Instance builtins : PyBuiltins :=
  {| json_loads := loaded; json_loads_bytes := loaded_bytes; py_str := str;
     json_loads_empty_list := eq_refl; json_loads_empty_text := eq_refl;
     py_str_of_str := fun s => eq_refl |}.

End Reference.

(** ** Concrete environments *)

Module Scenarios.
Import Worker View Reference.

Definition fresh_world : World := {| clock := 0; files := ∅; trace := [] |}.

(** A machine that is not Windows, on which [ps] finds the daemon or
    does not, every pm2 command ends in [answer], and temporary files
    get the name [/tmp/eco.json]. *)
Definition machine (alive : bool) (answer : ExecOutcome) : Env :=
  {| os_name_nt := false;
     process_listing := fun _ =>
       if alive then Completed "root 4242 1 0 10:00 ? 00:00:01 PM2 v5.3.0: God Daemon"
       else CalledProcessError EmptyString;
     check_output := fun _ _ => answer;
     named_temporary_file := fun _ => TempCreated "/tmp/eco.json" true |}.

(** The daemon runs and every command exits with a non-zero status
    after printing [output]. *)
Definition failing (output : string) : Env := machine true (CalledProcessError output).

(** The daemon runs and the [pm2] tool is missing: the shell that
    every command is handed to reports it and exits with status 127. *)
Definition tool_missing : Env :=
  machine true (CalledProcessError ("/bin/sh: 1: pm2: not found" +:+ nl)).

(** The daemon runs and every command times out after [data] was read
    from it. *)
Definition stalling (data : string) : Env := machine true (TimeoutExpired (Some (OutBytes data))).

(** No daemon; commands succeed and print [output]. *)
Definition daemon_down (output : string) : Env := machine false (Completed output).

(** The daemon runs and answers every command with [output]. *)
Definition answering (output : string) : Env := machine true (Completed output).

(** The daemon runs and every command times out with nothing captured. *)
Definition hanging : Env := machine true (TimeoutExpired None).

Definition crlf : string := String "013"%char (String "010"%char EmptyString).

(** The configuration of the scenarios of the specification. *)
Definition svc : Dict :=
  {[ "name" := VStr "svc"; "path" := VStr "/app"; "script" := VStr "main" ]}.

Definition no_views : nat -> list Dict -> Result unit := fun _ _ => Ok tt.

(** Two declared configurations, of which only the first is live. *)
Definition declared (name : string) : DeclaredProcessConfig :=
  {| cfg_name := name; cfg_fields := {[ "script" := VStr "main" ]} |}.

Definition live (name status : string) : Dict :=
  {[ "name" := VStr name; "pm_id" := VInt 0;
     "pm2_env" := VDict {[ "status" := VStr status ]} ]}.

Definition quoted (text : string) : string := dquote +:+ text +:+ dquote.

(** The text of a list with the one record [live name status]. *)
Definition jlist (name status : string) : string :=
  "[{" +:+ quoted "name" +:+ ": " +:+ quoted name +:+ ", " +:+
  quoted "pm_id" +:+ ": 0, " +:+
  quoted "pm2_env" +:+ ": {" +:+ quoted "status" +:+ ": " +:+ quoted status +:+ "}}]".

(** The window after its first population with [a] and [b] declared,
    and the same window once the store holds [b] and [c] instead. *)
Definition shown_ab : PM2GUI :=
  slot (update_ui no_views (jlist "a" "online")) (new_window [declared "a"; declared "b"]).

Definition with_projects (known_projects : list DeclaredProcessConfig) (g : PM2GUI) : PM2GUI :=
  {| projects := known_projects; daemon_state := daemon_state g;
     all_projects_data := all_projects_data g;
     project_list_widget := project_list_widget g; list_calls := list_calls g;
     controls := controls g; status_bar := status_bar g;
     error_dialogs := error_dialogs g; updates := updates g |}.

Definition edited_bc : PM2GUI := with_projects [declared "c"; declared "b"] shown_ab.

Definition shown_bc : PM2GUI := slot (update_ui no_views (jlist "a" "online")) edited_bc.

(** Deliver to the window, in order, the signals a worker run emitted. *)
Definition delivered (refresh_views : nat -> list Dict -> Result unit)
    (c : M World unit) (w : World) (g : PM2GUI) : PM2GUI :=
  foldl (fun g' sig => slot (deliver refresh_views sig) g') g (signals (events_of c w)).

End Scenarios.

(** ** Start-up and the widgets of the daemon state: [entry.py], [view/main.py] *)

Module Window.
Import Worker View.

(** The toolbar, the overlay and the timer are those of the state the
    window is in. *)
Definition controls_agree (g : PM2GUI) : Prop :=
  forall st, daemon_state g = Some st -> controls g = controls_for st (controls g).

(** An event that is not a signal, or is an error or a report of an
    action: what a request gives rise to before its refresh. *)
Definition is_report (e : Event) : Prop :=
  forall sig, e = EvEmit sig ->
    (exists message, sig = error message) \/
    (exists title message, sig = action_finished title message).

Section WithViews.
Context `{!PyBuiltins} (refresh_views : nat -> list Dict -> Result unit).

(** [init_ui] builds the widgets and enters [PENDING]. *)
Definition init_ui : M PM2GUI unit :=
  update_daemon_status refresh_views (PyState PENDING).

Definition post_init_setup (initial_json_data : string) (initial_daemon_status : bool)
  : M PM2GUI unit :=
  update_daemon_status refresh_views (PyBool initial_daemon_status) ;;
  update_ui refresh_views initial_json_data.

(** [Preloader.run]: the initial state comes from a worker of its
    own and leaves through [finished], declared
    [Signal(object, str, bool)]. When [get_initial_state] raises, the
    thread ends there and nothing is emitted. *)
Definition preloaded (env : Env) (w : World) : Result (string * bool) :=
  match (get_initial_state env w).1 with
  | Ok (initial_json_data, is_running) =>
      Ok (str_argument (Some initial_json_data), is_running)
  | Raise e => Raise e
  end.

(** [on_preload_finished]: the window is built and populated. *)
Definition on_preload_finished (known_projects : list DeclaredProcessConfig)
    (initial_json_data : string) (is_running : bool) : Result unit * PM2GUI :=
  (init_ui ;; post_init_setup initial_json_data is_running) (new_window known_projects).

(** The window after the signals [sigs] reached their slots, in order. *)
Definition received (sigs : list Signal) (g : PM2GUI) : PM2GUI :=
  foldl (fun g' sig => slot (deliver refresh_views sig) g') g sigs.

(** What changes the daemon state of the window: a state it sets
    itself ([init_ui], [handle_start_daemon_request], [kill_daemon]) or
    a signal of the worker. *)
Inductive Input :=
| Entered (st : DaemonState)
| Received (sig : Signal).

Definition handle (i : Input) : M PM2GUI unit :=
  match i with
  | Entered st => update_daemon_status refresh_views (PyState st)
  | Received sig => deliver refresh_views sig
  end.

Definition after (inputs : list Input) (g : PM2GUI) : PM2GUI :=
  foldl (fun g' i => slot (handle i) g') g inputs.

End WithViews.
End Window.

(** ** The project store: [core/project_manager.py] *)

Module Manager.
Import View.

(** [a == b] on the values of JSON: a boolean equals the integer it
    counts as, lists are compared element by element and dictionaries
    key by key. *)
Fixpoint py_eq (a b : PyVal) : bool :=
  match a, b with
  | VNone, VNone => true
  | VBool x, VBool y => Bool.eqb x y
  | VBool x, VInt z | VInt z, VBool x => (z =? (if x then 1 else 0))%Z
  | VInt x, VInt y => (x =? y)%Z
  | VStr x, VStr y => String.eqb x y
  | VList l, VList l' =>
      (fix all_eq (l : list PyVal) (l' : list PyVal) : bool :=
         match l, l' with
         | [], [] => true
         | x :: l, y :: l' => py_eq x y && all_eq l l'
         | _, _ => false
         end) l l'
  | VDict d, VDict d' =>
      (size d =? size d')%nat &&
      map_fold (fun k v acc =>
                  acc && match d' !! k with
                         | Some v' => py_eq v v'
                         | None => false
                         end) true d
  | _, _ => false
  end.

(** [bool(v)] *)
Definition py_bool (v : PyVal) : bool :=
  match v with
  | VNone => false
  | VBool b => b
  | VInt z => negb (z =? 0)%Z
  | VStr s => negb (String.eqb s EmptyString)
  | VList l => negb (is_empty l)
  | VDict d => negb (bool_decide (d = ∅))
  end.

(** [p['name']]: only a dictionary can be indexed by a string. *)
Definition name_of (p : PyVal) : Result PyVal :=
  match p with
  | VDict d =>
      match d !! "name" with
      | Some v => Ok v
      | None => Raise (KeyError "name")
      end
  | _ => Raise TypeError
  end.

Record ProjectManager := {
  projects : PyVal;          (* self.projects: what json.load returned, then a list *)
  dumped : list PyVal        (* the values handed to json.dump, oldest first *)
}.

Definition set_projects (v : PyVal) (m : ProjectManager) : ProjectManager :=
  {| projects := v; dumped := dumped m |}.

(** [save_projects]: the list goes to [json.dump]; an [IOError] is
    printed and swallowed, so the call returns either way. *)
Definition save_projects : M ProjectManager unit :=
  modify (fun m => {| projects := projects m; dumped := dumped m ++ [projects m] |}).

Definition get_projects : M ProjectManager PyVal := gets projects.

(** [any(p['name'] == name for p in ...)]: stops at the first match. *)
Fixpoint any_named (name : PyVal) (elems : list PyVal) : Result bool :=
  match elems with
  | [] => Ok false
  | p :: rest =>
      match name_of p with
      | Raise e => Raise e
      | Ok v => if py_eq v name then Ok true else any_named name rest
      end
  end.

(** [next((p for p in ... if p['name'] == name), None)] *)
Fixpoint first_named (name : PyVal) (elems : list PyVal) : Result (option Dict) :=
  match elems with
  | [] => Ok None
  | VDict d :: rest =>
      match d !! "name" with
      | Some v => if py_eq v name then Ok (Some d) else first_named name rest
      | None => Raise (KeyError "name")
      end
  | _ :: _ => Raise TypeError
  end.

(** [[p for p in ... if p['name'] != name]] *)
Fixpoint others (name : PyVal) (elems : list PyVal) : Result (list PyVal) :=
  match elems with
  | [] => Ok []
  | p :: rest =>
      match name_of p with
      | Raise e => Raise e
      | Ok v =>
          match others name rest with
          | Raise e => Raise e
          | Ok kept => Ok (if py_eq v name then kept else p :: kept)
          end
      end
  end.

(** The list after [clear()] and [update(new_data)] on the dictionary
    that [find_project] returned, which is the first of that name. *)
Fixpoint rewrite_first (name : PyVal) (new_data : Dict) (elems : list PyVal) : list PyVal :=
  match elems with
  | VDict d :: rest =>
      match d !! "name" with
      | Some v => if py_eq v name then VDict new_data :: rest
                  else VDict d :: rewrite_first name new_data rest
      | None => elems
      end
  | _ => elems
  end.

(** A dictionary that was found is an element of a list. *)
Definition rewritten (name : PyVal) (new_data : Dict) (ps : PyVal) : PyVal :=
  match ps with
  | VList l => VList (rewrite_first name new_data l)
  | _ => ps
  end.

Definition new_project (name path script : string) : Dict :=
  {[ "name" := VStr name; "path" := VStr path; "script" := VStr script;
     "autorestart" := VBool true; "watch" := VBool false ]}.

Definition add_project (name path script : string) : M ProjectManager bool :=
  ps <- gets projects ;;
  elems <- lift (py_iter ps) ;;
  taken <- lift (any_named (VStr name) elems) ;;
  if taken then ret false
  else
    match ps with
    | VList l =>
        modify (set_projects (VList (l ++ [VDict (new_project name path script)]))) ;;
        save_projects ;;
        ret true
    | _ => raise AttributeError
    end.

Definition remove_project (project_name : string) : M ProjectManager bool :=
  ps <- gets projects ;;
  elems <- lift (py_iter ps) ;;
  kept <- lift (others (VStr project_name) elems) ;;
  modify (set_projects (VList kept)) ;;
  if (List.length kept <? List.length elems)%nat then save_projects ;; ret true
  else ret false.

Definition find_project (project_name : string) : M ProjectManager (option Dict) :=
  ps <- gets projects ;;
  elems <- lift (py_iter ps) ;;
  lift (first_named (VStr project_name) elems).

Definition update_project (old_name : string) (new_data : Dict) : M ProjectManager bool :=
  let new_name := default VNone (new_data !! "name") in
  if negb (py_bool new_name) then ret false
  else
    ps <- gets projects ;;
    taken <- (if py_eq (VStr old_name) new_name then ret false
              else elems <- lift (py_iter ps) ;; lift (any_named new_name elems)) ;;
    if taken then ret false
    else
      project_to_update <- find_project old_name ;;
      match project_to_update with
      | Some d =>
          if py_bool (VDict d) then
            modify (set_projects (rewritten (VStr old_name) new_data ps)) ;;
            save_projects ;;
            ret true
          else ret false
      | None => ret false
      end.

(** The calls the window makes on the store. *)
Inductive Call :=
| AddProject (name path script : string)
| RemoveProject (project_name : string)
| UpdateProject (old_name : string) (new_data : Dict).

Definition call (c : Call) : M ProjectManager bool :=
  match c with
  | AddProject name path script => add_project name path script
  | RemoveProject project_name => remove_project project_name
  | UpdateProject old_name new_data => update_project old_name new_data
  end.

(** The calls in turn, with what each returned. *)
Fixpoint calls (cs : list Call) (m : ProjectManager) : list (Result bool) * ProjectManager :=
  match cs with
  | [] => ([], m)
  | c :: rest =>
      let '(r, m') := call c m in
      let '(rs, m'') := calls rest m' in
      (r :: rs, m'')
  end.

(** A store as the application writes it: a list of the dictionaries
    [ds], whose names are the strings [names]. *)
Definition holds (m : ProjectManager) (ds : list Dict) (names : list string) : Prop :=
  projects m = VList (VDict <$> ds) /\
  Forall2 (fun d n => d !! "name" = Some (VStr n)) ds names.

(** The settings dialog hands [update_project] a name that is text. *)
Definition text_name (c : Call) : Prop :=
  match c with
  | UpdateProject _ new_data =>
      match new_data !! "name" with
      | Some (VStr _) | None => True
      | Some _ => False
      end
  | _ => True
  end.

End Manager.

(** ** The gauge: [view/widgets/custom_gauge.py] *)

Module Gauge.

(** Readings are whole numbers here, as the numbers of [PyVal] are. *)
Record HalfCircleGauge := {
  _title : string;
  _unit : string;
  _value : Z;
  _max_value : Z;
  _text : string
}.

Definition new_HalfCircleGauge (title unit : string) : HalfCircleGauge :=
  {| _title := title; _unit := unit; _value := 0; _max_value := 100; _text := "N/A" |}.

Definition setValue (value : Z) (g : HalfCircleGauge) : HalfCircleGauge :=
  let clamped := Z.max 0 (Z.min value (_max_value g)) in
  {| _title := _title g; _unit := _unit g;
     _value := clamped;
     _max_value := _max_value g;
     _text := if (value <? 0)%Z then "N/A" else pretty clamped +:+ _unit g |}.

Definition setMaxValue (max_value : Z) (g : HalfCircleGauge) : HalfCircleGauge :=
  setValue (_value g)
    {| _title := _title g; _unit := _unit g; _value := _value g;
       _max_value := if (0 <? max_value)%Z then max_value else 100;
       _text := _text g |}.

Definition setText (text : string) (g : HalfCircleGauge) : HalfCircleGauge :=
  {| _title := _title g; _unit := _unit g; _value := _value g;
     _max_value := _max_value g; _text := text |}.

Definition setTitle (title : string) (g : HalfCircleGauge) : HalfCircleGauge :=
  {| _title := title; _unit := _unit g; _value := _value g;
     _max_value := _max_value g; _text := _text g |}.

(** The setters, as the dashboard and the detail pane call them. *)
Inductive Setter :=
| SetValue (value : Z)
| SetMaxValue (max_value : Z)
| SetText (text : string)
| SetTitle (title : string).

Definition set (s : Setter) : HalfCircleGauge -> HalfCircleGauge :=
  match s with
  | SetValue value => setValue value
  | SetMaxValue max_value => setMaxValue max_value
  | SetText text => setText text
  | SetTitle title => setTitle title
  end.

Definition after (setters : list Setter) (g : HalfCircleGauge) : HalfCircleGauge :=
  foldl (fun g' s => set s g') g setters.

(** [paintEvent] places the indicator at the fraction
    [_value / _max_value] of the arc. *)
Definition on_the_arc (g : HalfCircleGauge) : Prop :=
  (0 < _max_value g /\ 0 <= _value g <= _max_value g)%Z.

End Gauge.

(** ** The performance graphs: [view/widgets/custom_graph.py] *)

Module Graph.

(** [collections.deque(maxlen=...)]: appending to a full deque drops
    the element at its left end. *)
Definition deque_append {A} (maxlen : nat) (x : A) (d : list A) : list A :=
  let l := (d ++ [x])%list in
  drop (List.length l - maxlen) l.

Definition deque_extend {A} (maxlen : nat) (xs : list A) (d : list A) : list A :=
  foldl (fun d' x => deque_append maxlen x d') d xs.

(** A curve holds the data last given to [setData]. *)
Record PerformanceGraphWidget := {
  max_points : nat;
  time_data : list nat;
  cpu_data : list Z;
  mem_data : list Z;
  cpu_curve : list nat * list Z;
  mem_curve : list nat * list Z;
  combined_cpu_curve : list nat * list Z;
  combined_mem_curve : list nat * list Z
}.

Definition update_data (cpu_val mem_val : Z) (p : PerformanceGraphWidget)
  : PerformanceGraphWidget :=
  let cpu := deque_append (max_points p) cpu_val (cpu_data p) in
  let mem := deque_append (max_points p) mem_val (mem_data p) in
  {| max_points := max_points p; time_data := time_data p;
     cpu_data := cpu; mem_data := mem;
     cpu_curve := (time_data p, cpu);
     mem_curve := (time_data p, mem);
     combined_cpu_curve := (time_data p, cpu);
     combined_mem_curve := (time_data p, mem) |}.

Definition clear (p : PerformanceGraphWidget) : PerformanceGraphWidget :=
  let zeros := replicate (max_points p) 0%Z in
  update_data 0 0
    {| max_points := max_points p; time_data := time_data p;
       cpu_data := deque_extend (max_points p) zeros [];
       mem_data := deque_extend (max_points p) zeros [];
       cpu_curve := cpu_curve p; mem_curve := mem_curve p;
       combined_cpu_curve := combined_cpu_curve p;
       combined_mem_curve := combined_mem_curve p |}.

(** [__init__]: sixty points; the curves are created on the zeroed
    data, then [clear] is called. *)
Definition new_PerformanceGraphWidget : PerformanceGraphWidget :=
  let zeros := replicate 60 0%Z in
  clear {| max_points := 60; time_data := seq 0 60;
           cpu_data := zeros; mem_data := zeros;
           cpu_curve := (seq 0 60, zeros); mem_curve := (seq 0 60, zeros);
           combined_cpu_curve := ([], []); combined_mem_curve := ([], []) |}.

(** The readings [(cpu, mem)] in turn. *)
Definition fed (readings : list (Z * Z)) (p : PerformanceGraphWidget) : PerformanceGraphWidget :=
  foldl (fun p' r => update_data r.1 r.2 p') p readings.

End Graph.

(** ** The dashboard: [view/dashboard.py] *)

(** ** Floating point: what [view/dashboard.py] computes with *)

Module Binary64.
Local Open Scope Z_scope.

(** The least whole number not below [a / b], for [b] positive. *)
Definition ceil_div (a b : Z) : Z := - ((- a) / b).

(** The whole number nearest to [a / b], the even one of two that
    are as near; [a] is not negative and [b] is positive. *)
Definition round_half_even (a b : Z) : Z :=
  let q := a / b in
  let r := a mod b in
  if 2 * r <? b then q
  else if b <? 2 * r then q + 1
  else if Z.even q then q else q + 1.

(** A positive [float]: [mantissa * 2 ^ exponent]. One that is not
    [finite] stands for [inf]. *)
Record float := { mantissa : Z; exponent : Z }.

(** [a * 2 ^ s] for [s] positive, and [a] otherwise. *)
Definition shifted (a s : Z) : Z := a * 2 ^ Z.max 0 s.

(** The [float] nearest to [a / b] for positive whole numbers, ties
    to even: the scale [2 ^ - s] is the one that gives the mantissa 53
    bits, cut off at the scale of the subnormal numbers. *)
Definition nearest (a b : Z) : float :=
  let s0 := 52 - Z.log2 a + Z.log2 b in
  let s1 := if 2 ^ 52 * shifted b (- s0) <=? shifted a s0 then s0 else s0 + 1 in
  let s := Z.min s1 1074 in
  {| mantissa := round_half_even (shifted a s) (shifted b (- s)); exponent := - s |}.

(** Below [2 ^ 1024]. *)
Definition finite (x : float) : bool :=
  shifted (mantissa x) (exponent x) <? shifted (2 ^ 1024) (- exponent x).

Definition ceil (x : float) : Z :=
  ceil_div (shifted (mantissa x) (exponent x)) (shifted 1 (- exponent x)).

(** [a / b] for positive [int]s: the quotient correctly rounded, or
    [OverflowError]. *)
Definition truediv (a b : Z) : Result float :=
  let x := nearest a b in
  if finite x then Ok x else Raise OverflowError.

(** [float(n)], as [n * 1.2] converts a positive [int]. *)
Definition of_int (n : Z) : Result float :=
  let x := nearest n 1 in
  if finite x then Ok x else Raise OverflowError.

(** [x * y]; the product can be [inf]. *)
Definition mul (x y : float) : float :=
  let e := exponent x + exponent y in
  nearest (shifted (mantissa x * mantissa y) e) (shifted 1 (- e)).

(** [math.ceil(x)] *)
Definition math_ceil (x : float) : Result Z :=
  if finite x then Ok (ceil x) else Raise OverflowError.

(** The literal [1.2] *)
Definition twelve_tenths : float := nearest 12 10.

End Binary64.

Module Dashboard.
Import View Gauge Binary64.

Record DashboardWidget := {
  daemon_status_label : string;
  total_val : string;
  online_val : string;
  stopped_val : string;
  errored_val : string;
  undeployed_val : string;
  cpu_gauge : HalfCircleGauge;
  mem_gauge : HalfCircleGauge;
  start_daemon_button : bool;      (* enabled *)
  kill_daemon_button : bool;
  restart_all_button : bool;
  stop_all_button : bool
}.

(** The counters of [update_stats]. *)
Record Tally := {
  online_count : nat;
  stopped_count : nat;
  errored_count : nat;
  undeployed_count : nat;
  total_cpu : Z;
  total_mem_bytes : Z
}.

(** [proc.get('monit', {}).get(key, 0)] *)
Definition monit_get (key : string) (proc : Dict) : Result PyVal :=
  match proc !! "monit" with
  | None => Ok (VInt 0)
  | Some (VDict monit) => Ok (default (VInt 0) (monit !! key))
  | Some _ => Raise AttributeError
  end.

(** [total += reading] for an integer total. *)
Definition py_add (total : Z) (reading : PyVal) : Result Z :=
  match reading with
  | VInt z => Ok (total + z)%Z
  | VBool b => Ok (total + (if b then 1 else 0))%Z
  | _ => Raise TypeError
  end.

(** The body of the loop over [all_processes_data]. *)
Definition count (t : Tally) (proc : Dict) : Result Tally :=
  match status_of proc with
  | Raise e => Raise e
  | Ok status =>
      if str_is "online" status then
        match monit_get "cpu" proc with
        | Raise e => Raise e
        | Ok cpu =>
            match py_add (total_cpu t) cpu with
            | Raise e => Raise e
            | Ok cpu_sum =>
                match monit_get "memory" proc with
                | Raise e => Raise e
                | Ok memory =>
                    match py_add (total_mem_bytes t) memory with
                    | Raise e => Raise e
                    | Ok mem_sum =>
                        Ok {| online_count := S (online_count t);
                              stopped_count := stopped_count t;
                              errored_count := errored_count t;
                              undeployed_count := undeployed_count t;
                              total_cpu := cpu_sum; total_mem_bytes := mem_sum |}
                    end
                end
            end
        end
      else if str_is "stopped" status || str_is "stopping" status then
        Ok {| online_count := online_count t; stopped_count := S (stopped_count t);
              errored_count := errored_count t; undeployed_count := undeployed_count t;
              total_cpu := total_cpu t; total_mem_bytes := total_mem_bytes t |}
      else if str_is "errored" status then
        Ok {| online_count := online_count t; stopped_count := stopped_count t;
              errored_count := S (errored_count t); undeployed_count := undeployed_count t;
              total_cpu := total_cpu t; total_mem_bytes := total_mem_bytes t |}
      else
        Ok {| online_count := online_count t; stopped_count := stopped_count t;
              errored_count := errored_count t; undeployed_count := S (undeployed_count t);
              total_cpu := total_cpu t; total_mem_bytes := total_mem_bytes t |}
  end.

Fixpoint tally (t : Tally) (all_processes_data : list Dict) : Result Tally :=
  match all_processes_data with
  | [] => Ok t
  | proc :: rest =>
      match count t proc with
      | Raise e => Raise e
      | Ok t' => tally t' rest
      end
  end.

Definition zero : Tally :=
  {| online_count := 0; stopped_count := 0; errored_count := 0; undeployed_count := 0;
     total_cpu := 0; total_mem_bytes := 0 |}.

(** [math.ceil(total_mem_bytes / (1024 * 1024)) if total_mem_bytes > 0 else 0] *)
Definition total_mem_mb (t : Tally) : Result Z :=
  if (0 <? total_mem_bytes t)%Z then
    match truediv (total_mem_bytes t) (1024 * 1024) with
    | Ok x => math_ceil x
    | Raise e => Raise e
    end
  else Ok 0%Z.

(** [max(100, math.ceil(total_cpu / 100) * 100 if total_cpu > 0 else 100)] *)
Definition cpu_max (t : Tally) : Result Z :=
  if (0 <? total_cpu t)%Z then
    match truediv (total_cpu t) 100 with
    | Ok x =>
        match math_ceil x with
        | Ok hundreds => Ok (Z.max 100 (hundreds * 100))
        | Raise e => Raise e
        end
    | Raise e => Raise e
    end
  else Ok (Z.max 100 100).

Definition mem_tiers_mb : list Z := [256; 512; 1024; 2048; 4096; 8192; 16384; 32768]%Z.

(** The [for ... else] over the tiers: the first tier above the usage,
    and [math.ceil(total_mem_mb * 1.2)] when it is above them all. *)
Definition mem_max (total_mb : Z) : Result Z :=
  match find (fun tier => (total_mb <? tier)%Z) mem_tiers_mb with
  | Some tier => Ok tier
  | None =>
      match of_int total_mb with
      | Ok x => math_ceil (mul x twelve_tenths)
      | Raise e => Raise e
      end
  end.

(** The memory in whole megabytes, rounded up, and the next hundred
    at or above the processor total: what [update_stats] is after. *)
Definition whole_mb (bytes : Z) : Z :=
  if (0 <? bytes)%Z then ceil_div bytes (1024 * 1024) else 0%Z.

Definition next_hundred (percent : Z) : Z :=
  Z.max 100 (if (0 <? percent)%Z then (ceil_div percent 100 * 100)%Z else 100%Z).

(** [Raise]: the call raised, in the loop before any widget was
    touched or later, at a total too large for a [float]; what the
    widgets show then is not kept here. *)
Definition update_stats (all_processes_data : list Dict) (d : DashboardWidget)
  : Result DashboardWidget :=
  match tally zero all_processes_data with
  | Raise e => Raise e
  | Ok t =>
      match total_mem_mb t with
      | Raise e => Raise e
      | Ok mem_mb =>
          match cpu_max t with
          | Raise e => Raise e
          | Ok cpu_max_value =>
              match mem_max mem_mb with
              | Raise e => Raise e
              | Ok mem_max_value =>
                  Ok {| daemon_status_label := daemon_status_label d;
                        total_val := "Total Projects: " +:+ pretty (List.length all_processes_data);
                        online_val := "Online: " +:+ pretty (online_count t);
                        stopped_val := "Stopped: " +:+ pretty (stopped_count t);
                        errored_val := "Errored: " +:+ pretty (errored_count t);
                        undeployed_val := "Undeployed: " +:+ pretty (undeployed_count t);
                        cpu_gauge := setValue (total_cpu t)
                                       (setMaxValue cpu_max_value (cpu_gauge d));
                        mem_gauge := setValue mem_mb
                                       (setMaxValue mem_max_value (mem_gauge d));
                        start_daemon_button := start_daemon_button d;
                        kill_daemon_button := kill_daemon_button d;
                        restart_all_button :=
                          (0 <? online_count t)%nat || (0 <? stopped_count t)%nat
                          || (0 <? errored_count t)%nat;
                        stop_all_button := (0 <? online_count t)%nat |}
              end
          end
      end
  end.

Definition set_daemon_status (is_running : bool) (d : DashboardWidget) : DashboardWidget :=
  let d1 :=
    {| daemon_status_label :=
         if is_running then "<p style='color: #4CAF50;'>PM2 Daemon is Running</p>"
         else "<p style='color: #F44336;'>PM2 Daemon is Stopped. Start it to manage processes.</p>";
       total_val := total_val d; online_val := online_val d;
       stopped_val := stopped_val d; errored_val := errored_val d;
       undeployed_val := undeployed_val d;
       cpu_gauge := cpu_gauge d; mem_gauge := mem_gauge d;
       start_daemon_button := negb is_running;
       kill_daemon_button := is_running;
       restart_all_button := restart_all_button d;
       stop_all_button := stop_all_button d |} in
  if is_running then d1
  else
    match update_stats [] d1 with
    | Ok d2 =>
        {| daemon_status_label := daemon_status_label d2;
           total_val := total_val d2; online_val := online_val d2;
           stopped_val := stopped_val d2; errored_val := errored_val d2;
           undeployed_val := undeployed_val d2;
           cpu_gauge := setValue (-1) (cpu_gauge d2);
           mem_gauge := setValue (-1) (mem_gauge d2);
           start_daemon_button := start_daemon_button d2;
           kill_daemon_button := kill_daemon_button d2;
           restart_all_button := restart_all_button d2;
           stop_all_button := stop_all_button d2 |}
    | Raise _ => d1
    end.

(** [init_ui] *)
Definition new_DashboardWidget : DashboardWidget :=
  {| daemon_status_label := EmptyString;
     total_val := "Total Projects: 0"; online_val := "Online: 0";
     stopped_val := "Stopped: 0"; errored_val := "Errored: 0";
     undeployed_val := "Undeployed: 0";
     cpu_gauge := new_HalfCircleGauge "Total CPU" "%";
     mem_gauge := new_HalfCircleGauge "Total Memory" " MB";
     start_daemon_button := true; kill_daemon_button := true;
     restart_all_button := true; stop_all_button := true |}.

(** The icon [ProjectListItemWidget] gives the row of a project. *)
Definition row_icon (proc : Dict) : option string :=
  match new_ProjectListItemWidget proc with
  | Ok w => Some (icon w)
  | Raise _ => None
  end.

(** The icon [update_status] chooses for a status. *)
Definition icon_for (status : PyVal) : string :=
  if str_is "online" status then "presence-online"
  else if str_is "stopped" status || str_is "stopping" status then "presence-offline"
  else if str_is "errored" status then "presence-busy"
  else "presence-unknown".

(** Whether the row of [proc] shows the icon: one or none. *)
Definition shown (icon_theme : string) (proc : Dict) : nat :=
  if bool_decide (row_icon proc = Some icon_theme) then 1 else 0.

Definition rows_with (icon_theme : string) (all_processes_data : list Dict) : nat :=
  List.length (List.filter (fun proc => bool_decide (row_icon proc = Some icon_theme))
                 all_processes_data).

End Dashboard.

(** ** The detail pane: [view/project_detail.py] *)

Module Detail.

(** [format_uptime] on a whole number of seconds. (A fraction of a
    second never shows: every part is printed through [int].) *)
Definition format_uptime (seconds : Z) : string :=
  if (seconds <=? 0)%Z then "0s"
  else
    let days := (seconds / 86400)%Z in
    let rem := (seconds mod 86400)%Z in
    let hours := (rem / 3600)%Z in
    let rem := (rem mod 3600)%Z in
    let minutes := (rem / 60)%Z in
    let secs := (rem mod 60)%Z in
    let parts :=
      ((if (0 <? days)%Z then [pretty days +:+ "d"] else []) ++
       (if (0 <? hours)%Z then [pretty hours +:+ "h"] else []) ++
       (if (0 <? minutes)%Z then [pretty minutes +:+ "m"] else []))%list in
    let parts :=
      (parts ++ (if View.is_empty parts && (0 <? seconds)%Z
                 then [pretty secs +:+ "s"] else []))%list in
    if View.is_empty parts then "0s" else String.concat " " parts.

End Detail.


(** * The settings dialog *)

(** [ProjectSettingsDialog.get_data] and the environment text of
    [ProjectSettingsDialog._populate_fields] from
    [view/settings_dialog.py]: what the dialog hands to
    [ProjectManager.update_project] and, from there, to
    [Pm2Worker.start_process]. *)

Module Settings.
Import Worker Manager.

(** ** Text *)

Fixpoint all_chars (p : ascii -> bool) (s : string) : bool :=
  match s with
  | EmptyString => true
  | String c s' => p c && all_chars p s'
  end.

Definition is_ascii (s : string) : bool :=
  all_chars (fun c => (nat_of_ascii c <? 128)%nat) s.

(** The ASCII characters [str.isspace] holds of: tab to carriage
    return, the four separators and the space. *)
Definition is_space (c : ascii) : bool :=
  let n := nat_of_ascii c in
  ((9 <=? n) && (n <=? 13) || (28 <=? n) && (n <=? 32))%nat.

(** The ASCII characters [str.splitlines] breaks a line at. *)
Definition is_break (c : ascii) : bool :=
  let n := nat_of_ascii c in
  ((10 <=? n) && (n <=? 13) || (28 <=? n) && (n <=? 30))%nat.

Fixpoint lstrip (s : string) : string :=
  match s with
  | EmptyString => EmptyString
  | String c s' => if is_space c then lstrip s' else s
  end.

Fixpoint rstrip (s : string) : string :=
  match s with
  | EmptyString => EmptyString
  | String c s' =>
      match rstrip s' with
      | EmptyString => if is_space c then EmptyString else String c EmptyString
      | r => String c r
      end
  end.

(** [s.strip()] on ASCII text. *)
Definition trim (s : string) : string := rstrip (lstrip s).

(** [s.splitlines()] on ASCII text, [line] being the part of the
    current line already read: a carriage return followed by a line
    feed is one break, and the text after the last break is a line
    only if it is not empty. *)
Fixpoint lines_from (line : string) (s : string) : list string :=
  match s with
  | EmptyString => if String.eqb line EmptyString then [] else [line]
  | String c s' =>
      if is_break c then
        line :: (if Ascii.eqb c "013" then
                   match s' with
                   | String c' s'' =>
                       if Ascii.eqb c' "010" then lines_from EmptyString s''
                       else lines_from EmptyString s'
                   | EmptyString => lines_from EmptyString s'
                   end
                 else lines_from EmptyString s')
      else lines_from (line +:+ String c EmptyString) s'
  end.

Definition lines (s : string) : list string := lines_from EmptyString s.

(** The two methods of [str] the dialog calls, with what is known of
    them here: their results on ASCII text. Beyond it they also take
    the blanks and line separators of Unicode. *)
Class PyText := {
  strip : string -> string;
  splitlines : string -> list string;
  strip_ascii : forall s, is_ascii s = true -> strip s = trim s;
  splitlines_ascii : forall s, is_ascii s = true -> splitlines s = lines s
}.

(** [line.split('=', 1)] for a line with ['=' in line]: what stands
    before the first ['='] and what stands after it. [None]: the line
    holds no ['=']. *)
Fixpoint split_eq (line : string) : option (string * string) :=
  match line with
  | EmptyString => None
  | String c s =>
      if Ascii.eqb c "=" then Some (EmptyString, s)
      else match split_eq s with
           | Some (key, value) => Some (String c key, value)
           | None => None
           end
  end.

(** ** The dialog *)

(** The items of [exec_mode_combo]. *)
Inductive ExecMode := fork | cluster.

Definition currentText (mode : ExecMode) : string :=
  match mode with
  | fork => "fork"
  | cluster => "cluster"
  end.

(** The contents of the fields. *)
Record ProjectSettingsDialog := {
  name_edit : string;
  script_path_edit : string;
  exec_mode_combo : ExecMode;
  instances_edit : string;
  interpreter_edit : string;
  node_args_edit : string;
  args_edit : string;
  watch_checkbox : bool;
  autorestart_checkbox : bool;
  max_mem_edit : string;
  cron_restart_edit : string;
  merge_logs_checkbox : bool;
  log_date_format_edit : string;
  out_file_edit : string;
  error_file_edit : string;
  env_vars_edit : string
}.

(** [os.path], on the machine the dialog runs on. *)
Record OsPath := {
  path_exists : string -> bool;
  dirname : string -> string;
  basename : string -> string
}.

(** [v != '' or isinstance(v, (bool, dict))] *)
Definition kept (v : PyVal) : bool :=
  negb (py_eq v (VStr EmptyString)) ||
  match v with
  | VBool _ | VDict _ => true
  | _ => false
  end.

Section WithText.
Context `{!PyBuiltins} `{!PyText} (os_path : OsPath).

(** The text [_populate_fields] puts in [env_vars_edit]:
    ["\n".join([f"{k}={v}" for k, v in env_dict.items()])], for the
    items of the dictionary in its order. *)
Definition env_text (items : list (string * PyVal)) : string :=
  String.concat nl ((fun kv => kv.1 +:+ "=" +:+ py_str kv.2) <$> items).

(** The loop of [get_data] over the lines of [env_vars_edit]. Nothing
    in it raises: [split('=', 1)] of a line that holds ['='] has two
    parts. *)
Definition parse_env (text : string) : Dict :=
  foldl (fun (env_dict : Dict) line =>
           let line := strip line in
           if negb (String.eqb line EmptyString) then
             match split_eq line with
             | Some (key, value) => <[strip key := VStr (strip value)]> env_dict
             | None => env_dict
             end
           else env_dict)
        (∅ : Dict) (splitlines text).

(** [get_data]. [None]: the warning 'Invalid Input' was shown. *)
Definition get_data (dlg : ProjectSettingsDialog) : option Dict :=
  let full_path := strip (script_path_edit dlg) in
  let name := strip (name_edit dlg) in
  if String.eqb full_path EmptyString || negb (path_exists os_path full_path)
     || String.eqb name EmptyString
  then None
  else
    let env_dict := parse_env (env_vars_edit dlg) in
    let data : Dict :=
      list_to_map
        [ ("name", VStr name);
          ("path", VStr (dirname os_path full_path));
          ("script", VStr (basename os_path full_path));
          ("env", VDict env_dict);
          ("watch", VBool (watch_checkbox dlg));
          ("autorestart", VBool (autorestart_checkbox dlg));
          ("merge_logs", VBool (merge_logs_checkbox dlg));
          ("interpreter", VStr (strip (interpreter_edit dlg)));
          ("node_args", VStr (strip (node_args_edit dlg)));
          ("args", VStr (strip (args_edit dlg)));
          ("max_memory_restart", VStr (strip (max_mem_edit dlg)));
          ("cron_restart", VStr (strip (cron_restart_edit dlg)));
          ("log_date_format", VStr (strip (log_date_format_edit dlg)));
          ("out_file", VStr (strip (out_file_edit dlg)));
          ("error_file", VStr (strip (error_file_edit dlg)));
          ("exec_mode", VStr (currentText (exec_mode_combo dlg)));
          ("instances", VStr (strip (instances_edit dlg))) ] in
    let final_data : Dict := filter (fun kv => kept kv.2 = true) data in
    Some (if match final_data !! "exec_mode" with
             | Some v => py_eq v (VStr "fork")
             | None => false
             end && bool_decide (is_Some (final_data !! "instances"))
          then delete "instances" final_data
          else final_data).

End WithText.

(** ** What the text must be like to come back from the dialog *)

Fixpoint ends_blank (s : string) : bool :=
  match s with
  | EmptyString => false
  | String c EmptyString => is_space c
  | String _ s' => ends_blank s'
  end.

Definition starts_blank (s : string) : bool :=
  match s with
  | EmptyString => false
  | String c _ => is_space c
  end.

Definition no_break (s : string) : bool :=
  all_chars (fun c => negb (is_break c)) s.

Definition no_eq (s : string) : bool :=
  all_chars (fun c => negb (Ascii.eqb c "=")) s.

(** ASCII text on one line, without a blank at either end. *)
Definition plain (s : string) : bool :=
  is_ascii s && no_break s && negb (starts_blank s) && negb (ends_blank s).

(** A variable whose name and value are such text, the name without
    ['=']. *)
Definition plain_item (kv : string * PyVal) : bool :=
  match kv.2 with
  | VStr value =>
      plain kv.1 && no_eq kv.1 && plain value
  | _ => false
  end.

(** [strip] and [splitlines] as they are on ASCII text. *)
#[export] Instance ascii_text : PyText :=
  {| strip := trim; splitlines := lines;
     strip_ascii := fun _ _ => eq_refl;
     splitlines_ascii := fun _ _ => eq_refl |}.

End Settings.

(** ** Concrete stores, fleets and inputs *)

Module Cases.
Import View Window Manager Gauge Dashboard Scenarios.

Definition project (name : string) : Dict := new_project name "/srv" "main.js".

(** The store with the projects [api] and [web], nothing written yet. *)
Definition store : ProjectManager :=
  {| projects := VList [VDict (project "api"); VDict (project "web")]; dumped := [] |}.

(** What the settings dialog hands over when [web] is renamed [site]. *)
Definition renamed : Dict := <["name" := VStr "site"]> (project "web").

(** The store after an edit by hand that left an entry without name. *)
Definition edited_store : ProjectManager :=
  {| projects := VList [VDict (project "api"); VDict {[ "script" := VStr "main.js" ]}];
     dumped := [] |}.

(** A merged list: [api] online with its readings, [web] undeployed. *)
Definition fleet : list Dict :=
  [ <["monit" := VDict {[ "cpu" := VInt 30; "memory" := VInt 52428800 ]}]>
      (live "api" "online");
    as_dict (declared "web") ].

Definition fleet_tally : Tally := {|
  online_count := 1; stopped_count := 0; errored_count := 0; undeployed_count := 1;
  total_cpu := 30; total_mem_bytes := 52428800 |}.

(** The dashboard once it has been shown the fleet. *)
Definition fleet_shown : DashboardWidget :=
  match update_stats fleet new_DashboardWidget with
  | Ok d => d
  | Raise _ => new_DashboardWidget
  end.

(** A request to start the daemon, answered by a refresh that finds it. *)
Definition started : list Input :=
  [ Entered PENDING;
    Received (Worker.daemon_status_ready true);
    Received (Worker.list_ready "[]") ].

(** The variables typed in the dialog of [web]: one is set twice, one
    line is no variable. *)
Definition typed : string :=
  "PORT = 3000" +:+ nl +:+ "# no variable here" +:+ nl +:+
  "NODE_ENV=production" +:+ nl +:+ "PORT=8080".

Definition variables : Dict :=
  {[ "PORT" := VStr "8080"; "NODE_ENV" := VStr "production" ]}.

(** [os.path] on a machine that holds the script of [web], as it
    answers for that script. *)
Definition disk : Settings.OsPath := {|
  Settings.path_exists := fun p => String.eqb p "/srv/web/server.js";
  Settings.dirname := fun _ => "/srv/web";
  Settings.basename := fun _ => "server.js" |}.

(** The dialog of [web] as the user leaves it. *)
Definition dialog : Settings.ProjectSettingsDialog := {|
  Settings.name_edit := " web ";
  Settings.script_path_edit := "/srv/web/server.js";
  Settings.exec_mode_combo := Settings.fork;
  Settings.instances_edit := "1";
  Settings.interpreter_edit := EmptyString;
  Settings.node_args_edit := EmptyString;
  Settings.args_edit := "--port 8080";
  Settings.watch_checkbox := false;
  Settings.autorestart_checkbox := true;
  Settings.max_mem_edit := "200M";
  Settings.cron_restart_edit := EmptyString;
  Settings.merge_logs_checkbox := false;
  Settings.log_date_format_edit := EmptyString;
  Settings.out_file_edit := EmptyString;
  Settings.error_file_edit := EmptyString;
  Settings.env_vars_edit := typed |}.

(** What [get_data] returns for it. *)
Definition saved : Dict :=
  list_to_map
    [ ("name", VStr "web"); ("path", VStr "/srv/web"); ("script", VStr "server.js");
      ("env", VDict variables);
      ("watch", VBool false); ("autorestart", VBool true); ("merge_logs", VBool false);
      ("args", VStr "--port 8080"); ("max_memory_restart", VStr "200M");
      ("exec_mode", VStr "fork") ].

End Cases.

(** * Properties of the monad *)

Module MonadFacts.

Section Preserves.
Context {St : Type} (P : St -> Prop).

Lemma preserves_ret {A} (a : A) : preserves P (ret a).
Proof. intros s Hs. exact Hs. Qed.

Lemma preserves_raise {A} (e : Exn) : preserves P (raise (A := A) e).
Proof. intros s Hs. exact Hs. Qed.

Lemma preserves_lift {A} (r : Result A) : preserves P (lift r).
Proof. intros s Hs. exact Hs. Qed.

Lemma preserves_gets {A} (f : St -> A) : preserves P (gets f).
Proof. intros s Hs. exact Hs. Qed.

Lemma preserves_modify (f : St -> St) :
  (forall s, P s -> P (f s)) -> preserves P (modify f).
Proof. intros Hf s Hs. apply Hf, Hs. Qed.

Lemma preserves_bind {A B} (c : M St A) (k : A -> M St B) :
  preserves P c -> (forall a, preserves P (k a)) -> preserves P (bind c k).
Proof.
  intros Hc Hk s Hs. unfold bind.
  specialize (Hc s Hs). destruct (c s) as [[a|e] s']; cbn in *.
  - apply Hk, Hc.
  - exact Hc.
Qed.

Lemma preserves_when (b : bool) (c : M St unit) :
  preserves P c -> preserves P (when b c).
Proof. intros Hc. destruct b; [exact Hc|apply preserves_ret]. Qed.

Lemma preserves_for_each {A} (l : list A) (body : A -> M St unit) :
  (forall a, preserves P (body a)) -> preserves P (for_each l body).
Proof.
  intros Hbody. induction l as [|a l IH]; cbn.
  - apply preserves_ret.
  - apply preserves_bind; [apply Hbody|intros _; exact IH].
Qed.

End Preserves.

Lemma bind_gets {St A B} (f : St -> A) (k : A -> M St B) (s : St) :
  bind (gets f) k s = k (f s) s.
Proof. reflexivity. Qed.

Lemma bind_modify {St B} (f : St -> St) (k : unit -> M St B) (s : St) :
  bind (modify f) k s = k tt (f s).
Proof. reflexivity. Qed.

Lemma bind_ret {St A B} (a : A) (k : A -> M St B) (s : St) :
  bind (ret a) k s = k a s.
Proof. reflexivity. Qed.

Lemma bind_lift_ok {St A B} (a : A) (k : A -> M St B) (s : St) :
  bind (lift (Ok a)) k s = k a s.
Proof. reflexivity. Qed.

Lemma bind_lift_raise {St A B} (e : Exn) (k : A -> M St B) (s : St) :
  bind (lift (Raise e)) k s = (Raise e, s).
Proof. reflexivity. Qed.

Lemma preserves_for_each_in {St A} (P : St -> Prop) (l : list A) (body : A -> M St unit) :
  (forall a, a ∈ l -> preserves P (body a)) -> preserves P (for_each l body).
Proof.
  induction l as [|a l IH]; intros Hbody; cbn.
  - apply preserves_ret.
  - apply preserves_bind.
    + apply Hbody. left.
    + intros _. apply IH. intros b Hb. apply Hbody. right. exact Hb.
Qed.

(** A computation that returns took every step of its first part. *)
Lemma bind_ok {St A B} (c : M St A) (k : A -> M St B) (s s' : St) (b : B) :
  bind c k s = (Ok b, s') ->
  exists a s1, c s = (Ok a, s1) /\ k a s1 = (Ok b, s').
Proof.
  unfold bind. destruct (c s) as [[a|e] s1]; [eauto|discriminate].
Qed.

End MonadFacts.

(** * Properties of the worker *)

Module WorkerFacts.
Import Worker Scenarios.
Local Open Scope list_scope.

Lemma events_of_app {A} (c : M World A) (w : World) (evs : list Event) :
  trace (c w).2 = trace w ++ evs -> events_of c w = evs.
Proof. intros E. unfold events_of. rewrite E. apply drop_app_length. Qed.

Ltac unfold_worker :=
  unfold get_process_list, get_initial_state, get_logs, start_daemon, kill_daemon,
    simple_action, _run_command, _is_daemon_running, subprocess_check_output,
    emit, when, bind, ret, modify, raise, log, tick in *.

(** Go through the ways [json.loads] ends. *)
Ltac case_loads :=
  repeat match goal with
         | |- context [match json_loads ?t with _ => _ end] =>
             destruct (json_loads t) as [?| |?]
         | |- context [match json_loads_bytes ?t with _ => _ end] =>
             destruct (json_loads_bytes t) as [?| |?]
         | |- context [if handled ?e then _ else _] => destruct (handled e)
         end.

Section Facts.
Context `{!PyBuiltins} (env : Env).

(** [_run_command] always returns: the captured output, after one
    invocation and the errors it surfaces. *)
Lemma run_command_spec (command : string) (can_fail : bool) (w : World) :
  _run_command env command can_fail w =
    (Ok (captured (check_output env (clock w) command)),
     {| clock := S (clock w); files := files w;
        trace := trace w ++ EvRun command ::
                 surfaced command can_fail (check_output env (clock w) command) |}).
Proof.
  unfold_worker. cbn.
  destruct (check_output env (clock w) command) as [out| |out|out]; cbn;
    try destruct can_fail; cbn; rewrite <- ?app_assoc; reflexivity.
Qed.

(** All that [get_process_list] does, and how it ends. *)
Lemma get_process_list_spec (w : World) :
  get_process_list env w = (refresh_result env w, refreshed env w).
Proof.
  unfold get_process_list, bind at 1. unfold _is_daemon_running.
  unfold bind at 1. unfold emit, modify, refreshed, refresh_events, refresh_result. cbn.
  destruct (daemon_running env w); cbn.
  - unfold bind. rewrite run_command_spec. cbn.
    unfold payload_for, checked.
    destruct (check_output env (S (clock w)) "pm2 jlist") as [out| |out|[[out|out]|]]; cbn;
      case_loads; unfold log, raise; cbn; rewrite <- ?app_assoc, ?app_nil_r; reflexivity.
  - unfold log; cbn. rewrite <- ?app_assoc. reflexivity.
Qed.

Lemma get_process_list_events (w : World) :
  events_of (get_process_list env) w = refresh_events env w.
Proof. apply events_of_app. rewrite get_process_list_spec. reflexivity. Qed.

Lemma surfaced_no_list (command : string) (can_fail : bool) (r : ExecOutcome) (p : string) :
  EvEmit (list_ready p) ∉ surfaced command can_fail r.
Proof.
  destruct r as [out| |out|out]; cbn; try destruct can_fail; cbn; intros Hin;
    repeat (apply elem_of_cons in Hin as [Hin|Hin]; [discriminate|]);
    apply elem_of_nil in Hin; exact Hin.
Qed.

(** With [can_fail] the one error surfaced is that of
    [FileNotFoundError]. *)
Lemma surfaced_tolerated (command : string) (r : ExecOutcome) :
  signals (surfaced command true r) =
    if r is FileNotFoundError
    then [error "Error: 'pm2' command not found. Is PM2 installed and in your system's PATH?"]
    else [].
Proof. destruct r; reflexivity. Qed.

(** A payload of a refresh is the literal, text that [json.loads]
    accepted, or what the slots receive for bytes that it accepted. *)
Lemma payload_for_cases (output : option Output) (payload : string) :
  payload_for output = Ok payload ->
  payload = "[]" \/
  (exists v, output = Some (OutText payload) /\ json_loads payload = Parsed v) \/
  (exists data v, output = Some (OutBytes data) /\ json_loads_bytes data = Parsed v /\
                  payload = EmptyString).
Proof.
  unfold payload_for, checked. destruct output as [[text|data]|]; cbn [loads].
  - destruct (json_loads text) as [v| |e] eqn:E; [| |destruct (handled e)];
      cbn; intros [= <-]; eauto.
  - destruct (json_loads_bytes data) as [v| |e] eqn:E; [| |destruct (handled e)];
      cbn; intros [= <-]; eauto 10.
  - cbn. intros [= <-]. auto.
Qed.

Lemma refresh_payload_cases (w : World) (p : string) :
  EvEmit (list_ready p) ∈ refresh_events env w ->
  p = "[]" \/
  daemon_running env w = true /\
  payload_for (captured (check_output env (S (clock w)) "pm2 jlist")) = Ok p.
Proof.
  unfold refresh_events. intros Hin.
  do 2 (apply elem_of_cons in Hin as [Hin|Hin]; [discriminate|]).
  destruct (daemon_running env w).
  - apply elem_of_cons in Hin as [Hin|Hin]; [discriminate|].
    apply elem_of_app in Hin as [Hin|Hin].
    + exfalso. eapply surfaced_no_list; eauto.
    + destruct (payload_for _) as [payload|e]; [|by apply elem_of_nil in Hin].
      apply list_elem_of_singleton in Hin. injection Hin as ->. auto.
  - apply list_elem_of_singleton in Hin. injection Hin as ->. auto.
Qed.

(** The signals and commands of a refresh, case by case. *)
Lemma refresh_signals (w : World) :
  signals (refresh_events env w) =
    daemon_status_ready (daemon_running env w) ::
    (if daemon_running env w then
       let query := check_output env (S (clock w)) "pm2 jlist" in
       signals (surfaced "pm2 jlist" true query) ++
       match payload_for (captured query) with
       | Ok payload => [list_ready payload]
       | Raise _ => []
       end
     else [list_ready "[]"]).
Proof.
  unfold refresh_events, signals. cbn.
  destruct (daemon_running env w); cbn; [|reflexivity].
  rewrite omap_app. by destruct (payload_for _).
Qed.

Lemma refresh_commands (w : World) :
  commands (refresh_events env w) =
    if daemon_running env w then ["pm2 jlist"] else [].
Proof.
  unfold refresh_events, commands. cbn.
  destruct (daemon_running env w); cbn; [|reflexivity].
  rewrite omap_app.
  assert (omap (fun e => match e with EvRun command => Some command | _ => None end)
            (surfaced "pm2 jlist" true (check_output env (S (clock w)) "pm2 jlist")) = []) as ->.
  { destruct (check_output env (S (clock w)) "pm2 jlist") as [out| |out|out]; reflexivity. }
  by destruct (payload_for _).
Qed.

(** C4, as amended. A refresh emits the liveness result first. Without
    a running daemon it then emits the empty list and runs no command.
    With one it runs the query once and surfaces no error for a query
    that exits with a non-zero status, times out or prints what is no
    JSON: the one error it can surface is that of [FileNotFoundError].
    Then, unless [json.loads] raises what the handler does not take,
    one list is emitted, last: the empty list when the query handed
    back nothing or something that is no JSON, and otherwise what the
    slots receive for what it handed back, which for text is the text,
    also after a non-zero status. *)
Theorem refresh_emits_liveness_then_list (w : World) :
  let is_running := daemon_running env w in
  let query := check_output env (S (clock w)) "pm2 jlist" in
  let emitted := signals (events_of (get_process_list env) w) in
  head emitted = Some (daemon_status_ready is_running) /\
  (if is_running then
     commands (events_of (get_process_list env) w) = ["pm2 jlist"] /\
     let errors :=
       if query is FileNotFoundError
       then [error "Error: 'pm2' command not found. Is PM2 installed and in your system's PATH?"]
       else [] in
     match captured query with
     | None =>
         (get_process_list env w).1 = Ok tt /\
         emitted = daemon_status_ready true :: errors ++ [list_ready "[]"]
     | Some output =>
         match loads output with
         | Parsed _ =>
             (get_process_list env w).1 = Ok tt /\
             emitted = daemon_status_ready true :: errors ++
                       [list_ready (str_argument (Some output))]
         | JSONDecodeError =>
             (get_process_list env w).1 = Ok tt /\
             emitted = daemon_status_ready true :: errors ++ [list_ready "[]"]
         | LoadsRaises e =>
             if handled e then
               (get_process_list env w).1 = Ok tt /\
               emitted = daemon_status_ready true :: errors ++ [list_ready "[]"]
             else
               (get_process_list env w).1 = Raise e /\
               emitted = daemon_status_ready true :: errors
         end
     end
   else
     (get_process_list env w).1 = Ok tt /\
     commands (events_of (get_process_list env) w) = [] /\
     emitted = [daemon_status_ready false; list_ready "[]"]).
Proof.
  cbn zeta. rewrite get_process_list_events, refresh_signals, refresh_commands.
  rewrite get_process_list_spec. unfold refresh_result. cbn [fst].
  split; [reflexivity|].
  destruct (daemon_running env w); [|repeat split; reflexivity].
  split; [reflexivity|]. cbn zeta. rewrite surfaced_tolerated.
  unfold payload_for, checked.
  destruct (captured (check_output env (S (clock w)) "pm2 jlist")) as [output|];
    [|split; reflexivity].
  destruct (loads output) as [v| |e]; [| |destruct (handled e)];
    cbn; rewrite ?app_nil_r; split; reflexivity.
Qed.

(** All that [get_initial_state] does: it runs the query exactly when
    the probe finds the daemon. *)
Lemma get_initial_state_spec (w : World) :
  get_initial_state env w =
    if daemon_running env w then
      let query := check_output env (S (clock w)) "pm2 jlist" in
      (match checked (captured query) with
       | Ok output => Ok (output, true)
       | Raise e => Raise e
       end,
       {| clock := S (S (clock w)); files := files w;
          trace := trace w ++ EvProbe true :: EvRun "pm2 jlist" ::
                   surfaced "pm2 jlist" true query |})
    else
      (Ok (OutText "[]", false),
       {| clock := S (clock w); files := files w;
          trace := trace w ++ [EvProbe false] |}).
Proof.
  unfold get_initial_state, bind at 1. unfold _is_daemon_running. cbn.
  destruct (daemon_running env w); cbn; [|reflexivity].
  unfold bind. rewrite run_command_spec. cbn. unfold checked.
  destruct (check_output env (S (clock w)) "pm2 jlist") as [out| |out|[[out|out]|]]; cbn;
    case_loads; unfold raise; cbn; rewrite <- ?app_assoc; reflexivity.
Qed.

(** C3, as amended. Without a running daemon the result is the empty
    list and [false], and no command is run. With one the query is run
    once and, unless [json.loads] raises what the handler does not
    take, the flag is [true]; the list is empty when the query handed
    back nothing or something that is no JSON, and otherwise it is
    what the query handed back, also after a non-zero status. *)
Theorem initial_state_result (w : World) :
  let query := check_output env (S (clock w)) "pm2 jlist" in
  if daemon_running env w then
    commands (events_of (get_initial_state env) w) = ["pm2 jlist"] /\
    (get_initial_state env w).1 =
      match captured query with
      | None => Ok (OutText "[]", true)
      | Some output =>
          match loads output with
          | Parsed _ => Ok (output, true)
          | JSONDecodeError => Ok (OutText "[]", true)
          | LoadsRaises e => if handled e then Ok (OutText "[]", true) else Raise e
          end
      end
  else
    (get_initial_state env w).1 = Ok (OutText "[]", false) /\
    commands (events_of (get_initial_state env) w) = [].
Proof.
  cbn zeta. unfold events_of. rewrite get_initial_state_spec.
  destruct (daemon_running env w); cbn [fst snd trace].
  - split.
    + rewrite drop_app_length. unfold commands. cbn.
      destruct (check_output env (S (clock w)) "pm2 jlist") as [out| |out|out]; reflexivity.
    + unfold checked.
      destruct (captured (check_output env (S (clock w)) "pm2 jlist")) as [output|];
        [|reflexivity].
      destruct (loads output) as [v| |e]; [| |destruct (handled e)]; reflexivity.
  - split; [reflexivity|]. rewrite drop_app_length. reflexivity.
Qed.

Lemma get_logs_events (proc_id_or_name : string) (w : World) :
  events_of (get_logs env proc_id_or_name) w =
    let r := check_output env (clock w) (logs_command proc_id_or_name) in
    EvRun (logs_command proc_id_or_name) ::
    surfaced (logs_command proc_id_or_name) false r ++
    (if truthy (captured r)
     then [EvEmit (logs_ready proc_id_or_name (str_argument (captured r)))]
     else []).
Proof.
  apply events_of_app. unfold get_logs, bind. rewrite run_command_spec.
  unfold when. cbn zeta.
  destruct (truthy _); unfold emit, modify, ret, log; cbn.
  - rewrite <- app_assoc. reflexivity.
  - rewrite app_nil_r. reflexivity.
Qed.

(** C5, as amended. A failed log fetch surfaces exactly one error:
    after a non-zero status the command with the output it printed,
    after a timeout the command with what an f-string shows of what
    the timeout carries, after [FileNotFoundError] the message of that
    handler. A log update follows exactly when the call handed back
    something that is not empty, and it holds what the slots receive
    for it: after a non-zero status, the output printed. *)
Theorem failed_logs_surface_an_error (proc_id_or_name : string) (w : World) :
  let command := logs_command proc_id_or_name in
  let failure text :=
    error ("Command failed: " +:+ command +:+ nl +:+ nl +:+ "Output:" +:+ nl +:+ text) in
  failed (check_output env (clock w) command) = true ->
  (get_logs env proc_id_or_name w).1 = Ok tt /\
  signals (events_of (get_logs env proc_id_or_name) w) =
    match check_output env (clock w) command with
    | Completed _ => []
    | FileNotFoundError =>
        [error "Error: 'pm2' command not found. Is PM2 installed and in your system's PATH?"]
    | CalledProcessError output =>
        failure output ::
        (if String.eqb output EmptyString then [] else [logs_ready proc_id_or_name output])
    | TimeoutExpired output =>
        failure (fmt_output output) ::
        (if truthy output then [logs_ready proc_id_or_name (str_argument output)] else [])
    end.
Proof.
  cbn zeta. intros Hfail. split.
  - unfold get_logs, bind. rewrite run_command_spec. unfold when.
    by destruct (truthy _).
  - rewrite get_logs_events. cbn zeta.
    destruct (check_output env (clock w) (logs_command proc_id_or_name))
      as [out| |out|out]; try discriminate Hfail; cbn.
    + reflexivity.
    + by destruct (String.eqb out EmptyString).
    + by destruct (truthy out).
Qed.

Lemma refreshed_files (w : World) : files (refreshed env w) = files w.
Proof. reflexivity. Qed.

Lemma refreshed_trace (w : World) :
  trace (refreshed env w) = trace w ++ refresh_events env w.
Proof. reflexivity. Qed.

Lemma surfaced_signals (command : string) (can_fail : bool) (r : ExecOutcome) :
  Forall is_signal (surfaced command can_fail r).
Proof.
  destruct r as [out| |out|out]; cbn; try destruct can_fail;
    repeat constructor; eexists; reflexivity.
Qed.


Ltac close_start :=
  rewrite <- ?app_assoc; cbn; rewrite ?app_nil_r;
  split; [rewrite <- ?app_assoc; reflexivity | rewrite ?delete_insert_eq; reflexivity].

(** A start request up to its refresh, for whatever signal [mid] the
    outcome of the command leads to. *)
Lemma start_process_run (project_data : Dict) (w : World) :
  exists (mid : list Event) (w_mid : World),
    (mid = [] \/ mid = [] \/ exists title message, mid = [EvEmit (action_finished title message)]) /\
    (start_process env project_data w).2 = refreshed env w_mid /\
    trace w_mid = trace w ++ start_events env w mid /\
    files w_mid =
      match named_temporary_file env (clock w) with
      | TempFailed => files w
      | TempCreated path _ =>
          if String.eqb path EmptyString
          then <[path := ecosystem_of (build_app_config project_data)]> (files w)
          else delete path (files w)
      end.
Proof.
  unfold start_process, try_finally, temp_eco_file_at, start_events.
  unfold bind at 1. unfold write_descriptor.
  destruct (named_temporary_file env (clock w)) as [|path dumped].
  - unfold bind, os_remove_if_exists. cbv beta iota. rewrite get_process_list_spec.
    exists [], (tick w). destruct (refresh_result _ _); cbn; rewrite app_nil_r; auto.
  - assert (Hnew : forall v : PyVal, bool_decide (is_Some (<[path := v]> (files w) !! path)) = true).
    { intros v. apply bool_decide_eq_true. rewrite lookup_insert_eq. eauto. }
    destruct dumped.
    + unfold bind at 1. cbv beta iota. rewrite run_command_spec. unfold when.
      destruct (truthy _).
      * destruct (build_app_config project_data !! "name") as [name|].
        -- unfold bind, emit, modify, os_remove_if_exists, log, tick, set_files.
           cbn [clock files trace]. rewrite Hnew.
           destruct (String.eqb path EmptyString); cbn [negb andb];
             rewrite get_process_list_spec; destruct (refresh_result _ _); cbn [snd];
             (eexists [_], _; split; [right; right; eexists _, _; reflexivity|]);
             (split; [reflexivity|]); cbn [clock files trace];
             close_start.
        -- unfold bind, raise, os_remove_if_exists, log, tick, set_files.
           cbn [clock files trace]. rewrite Hnew.
           destruct (String.eqb path EmptyString); cbn [negb andb];
             rewrite get_process_list_spec; destruct (refresh_result _ _); cbn [snd];
             (eexists [], _; split; [left; reflexivity|]);
             (split; [reflexivity|]); cbn [clock files trace];
             close_start.
      * unfold bind, ret, os_remove_if_exists, log, tick, set_files.
        cbn [clock files trace]. rewrite Hnew.
        destruct (String.eqb path EmptyString); cbn [negb andb];
          rewrite get_process_list_spec; destruct (refresh_result _ _); cbn [snd];
          (eexists [], _; split; [left; reflexivity|]);
          (split; [reflexivity|]); cbn [clock files trace];
          close_start.
    + unfold bind, os_remove_if_exists, log, tick, set_files.
      cbn [clock files trace]. rewrite Hnew.
      destruct (String.eqb path EmptyString); cbn [negb andb];
        rewrite get_process_list_spec; destruct (refresh_result _ _); cbn [snd];
        (eexists [], _; split; [left; reflexivity|]);
        (split; [reflexivity|]); cbn [clock files trace];
        close_start.
Qed.

Ltac not_a_list_payload :=
  let Hin := fresh "Hin" in
  intros ? Hin;
  repeat first
    [ apply elem_of_nil in Hin; exact Hin
    | exact (surfaced_no_list _ _ _ _ Hin)
    | apply elem_of_cons in Hin as [Hin|Hin]; [discriminate Hin|]
    | apply elem_of_app in Hin as [Hin|Hin];
      [try exact (surfaced_no_list _ _ _ _ Hin)|] ].

(** Fix the intermediate world by the second conjunct, then the
    events that led to it by the first. *)
Ltac split_after_refresh :=
  split; [|split; [reflexivity|]];
  [cbn; rewrite <- ?app_assoc; reflexivity|split].

(** What a request does before its refresh: the world [w_mid] the
    refresh starts from, and the events [pre] that led there. *)
Lemma perform_spec (r : Request) (w : World) :
  exists (w_mid : World) (pre : list Event),
    trace w_mid = trace w ++ pre /\
    (perform env r w).2 = refreshed env w_mid /\
    match issued env r w with
    | Some command => EvRun command ∈ pre
    | None => True
    end /\
    forall p, EvEmit (list_ready p) ∉ pre.
Proof.
  destruct r; cbn [perform issued command_of].
  2-7: unfold stop_process, restart_process, reload_process, delete_process,
         stop_all, restart_all, simple_action, bind;
       rewrite run_command_spec; unfold when;
       destruct (truthy _); unfold emit, modify, ret; cbv beta iota;
       rewrite get_process_list_spec; cbn [snd];
       (eexists _, _; split_after_refresh;
        [left | not_a_list_payload]).
  - destruct (start_process_run project_data w) as (mid & w_mid & Hmid & Hrun & Htrace & _).
    exists w_mid, (start_events env w mid). split; [exact Htrace|].
    split; [exact Hrun|]. unfold start_events. split.
    + destruct (named_temporary_file env (clock w)) as [|path [|]]; [exact I| |exact I].
      right. left.
    + intros p Hin.
      destruct (named_temporary_file env (clock w)) as [|path dumped];
        [apply elem_of_nil in Hin; exact Hin|].
      apply elem_of_cons in Hin as [Hin|Hin]; [discriminate Hin|].
      apply elem_of_app in Hin as [Hin|Hin].
      * destruct dumped; [|apply elem_of_nil in Hin; exact Hin].
        apply elem_of_cons in Hin as [Hin|Hin]; [discriminate Hin|].
        apply elem_of_app in Hin as [Hin|Hin];
          [exact (surfaced_no_list _ _ _ _ Hin)|].
        destruct Hmid as [Hmid|[Hmid|(title & message & Hmid)]]; rewrite Hmid in Hin.
        -- apply elem_of_nil in Hin; exact Hin.
        -- apply elem_of_nil in Hin; exact Hin.
        -- apply list_elem_of_singleton in Hin. discriminate Hin.
      * destruct (negb _); [|apply elem_of_nil in Hin; exact Hin].
        apply list_elem_of_singleton in Hin. discriminate Hin.
  - unfold start_daemon, bind. rewrite run_command_spec.
    unfold emit, modify. cbv beta iota. rewrite get_process_list_spec. cbn [snd].
    eexists _, _; split_after_refresh; [left | not_a_list_payload].
  - unfold kill_daemon, bind. rewrite run_command_spec. unfold when.
    destruct (bool_decide _); unfold emit, modify, ret; cbv beta iota;
      rewrite get_process_list_spec; cbn [snd];
      (eexists _, _; split_after_refresh; [left | not_a_list_payload]).
Qed.

Lemma perform_events (r : Request) (w w_mid : World) (pre : list Event) :
  trace w_mid = trace w ++ pre ->
  (perform env r w).2 = refreshed env w_mid ->
  events_of (perform env r) w = pre ++ refresh_events env w_mid.
Proof.
  intros Htrace Hrun. apply events_of_app.
  rewrite Hrun, refreshed_trace, Htrace, <- app_assoc. reflexivity.
Qed.

(** C2. Every control operation ends with a complete refresh: what it
    does is some events [pre], among them the command it runs, followed
    by a full run of [get_process_list]. This holds for every answer of
    the environment, so for a command that succeeds, fails, times out
    or is not found, and for a start request that raises. *)
Theorem control_operations_refresh (r : Request) (w : World) :
  exists (w_mid : World) (pre : list Event),
    trace w_mid = trace w ++ pre /\
    match issued env r w with
    | Some command => EvRun command ∈ pre
    | None => True
    end /\
    (perform env r w).2 = (get_process_list env w_mid).2 /\
    events_of (perform env r) w = pre ++ events_of (get_process_list env) w_mid.
Proof.
  destruct (perform_spec r w) as (w_mid & pre & Htrace & Hrun & Hcmd & _).
  exists w_mid, pre. split; [exact Htrace|]. split; [exact Hcmd|].
  rewrite get_process_list_spec, get_process_list_events. split; [exact Hrun|].
  apply perform_events; assumption.
Qed.

(** C9. When the descriptor file is created under [path], it is created
    first, the start command naming it is run next if the descriptor
    could be written, and the file is removed before the refresh,
    whatever the command did and also when the body raised; after the
    call no file of that name exists. *)
Theorem descriptor_removed_after_start
    (project_data : Dict) (w : World) (path : string) (dumped : bool) :
  named_temporary_file env (clock w) = TempCreated path dumped ->
  path <> EmptyString ->
  files (start_process env project_data w).2 !! path = None /\
  exists (mid : list Event) (w_mid : World),
    Forall is_signal mid /\
    events_of (start_process env project_data) w =
      EvCreate path ::
      (if dumped then EvRun (start_command path) :: mid else []) ++
      EvRemove path :: events_of (get_process_list env) w_mid.
Proof.
  intros Htemp Hpath.
  destruct (start_process_run project_data w) as (mid & w_mid & Hmid & Hrun & Htrace & Hfiles).
  unfold start_events in Htrace. rewrite Htemp in Htrace, Hfiles.
  apply String.eqb_neq in Hpath. rewrite Hpath in Htrace, Hfiles. cbn [negb] in Htrace.
  split.
  - rewrite Hrun, refreshed_files, Hfiles. apply lookup_delete_eq.
  - exists (surfaced (start_command path) false
              (check_output env (S (clock w)) (start_command path)) ++ mid), w_mid.
    split.
    + apply Forall_app. split; [apply surfaced_signals|].
      destruct Hmid as [->|[->|(title & message & ->)]]; repeat constructor.
      eexists; reflexivity.
    + apply events_of_app. rewrite Hrun, refreshed_trace, Htrace, get_process_list_events.
      rewrite <- !app_assoc. cbn. destruct dumped; cbn; rewrite <- ?app_assoc; reflexivity.
Qed.

(** When the descriptor file cannot even be created, the start request
    raises, runs no command, leaves the files alone and still refreshes;
    what it raises is the exception of the refresh, if that raises. *)
Lemma start_without_descriptor (project_data : Dict) (w : World) :
  named_temporary_file env (clock w) = TempFailed ->
  start_process env project_data w =
    (match refresh_result env (tick w) with
     | Ok _ => Raise OSError
     | Raise e => Raise e
     end, refreshed env (tick w)).
Proof.
  intros Htemp. unfold start_process, try_finally, temp_eco_file_at.
  unfold bind at 1. unfold write_descriptor. rewrite Htemp.
  unfold bind, os_remove_if_exists. cbv beta iota.
  rewrite get_process_list_spec. by destruct (refresh_result _ _).
Qed.

(** A payload of the worker is text that [json.loads] accepts, unless
    it stands for bytes that [json.loads] accepted: then it is the
    empty text. Bytes are what a query that timed out hands back. *)
Lemma worker_payload_cases (payload : string) :
  worker_payload env payload ->
  (exists v, json_loads payload = Parsed v) \/
  payload = EmptyString /\
  exists clk data v,
    check_output env clk "pm2 jlist" = TimeoutExpired (Some (OutBytes data)) /\
    json_loads_bytes data = Parsed v.
Proof.
  assert (forall clk p,
            payload_for (captured (check_output env clk "pm2 jlist")) = Ok p ->
            (exists v, json_loads p = Parsed v) \/
            p = EmptyString /\
            exists clk data v,
              check_output env clk "pm2 jlist" = TimeoutExpired (Some (OutBytes data)) /\
              json_loads_bytes data = Parsed v) as Hquery.
  { intros clk p Hp.
    apply payload_for_cases in Hp as [->|[(v & _ & Hv)|(data & v & Hcap & Hv & ->)]].
    - left. rewrite json_loads_empty_list. eauto.
    - eauto.
    - right. split; [reflexivity|]. exists clk, data, v. split; [|exact Hv].
      destruct (check_output env clk "pm2 jlist") as [out| |out|out]; try discriminate Hcap.
      cbn in Hcap. by rewrite Hcap. }
  assert (forall w p,
            EvEmit (list_ready p) ∈ refresh_events env w ->
            (exists v, json_loads p = Parsed v) \/
            p = EmptyString /\
            exists clk data v,
              check_output env clk "pm2 jlist" = TimeoutExpired (Some (OutBytes data)) /\
              json_loads_bytes data = Parsed v) as Hrefresh.
  { intros w p [->|[_ Hp]]%refresh_payload_cases; [|by eapply Hquery].
    left. rewrite json_loads_empty_list. eauto. }
  intros [w Hin|r w Hin|w output is_running Hret ->].
  - rewrite get_process_list_events in Hin. by eapply Hrefresh.
  - destruct (perform_spec r w) as (w_mid & pre & Htrace & Hrun & _ & Hpre).
    rewrite (perform_events r w w_mid pre Htrace Hrun) in Hin.
    apply elem_of_app in Hin as [Hin|Hin]; [destruct (Hpre _ Hin)|].
    by eapply Hrefresh.
  - rewrite get_initial_state_spec in Hret.
    destruct (daemon_running env w); cbn [fst] in Hret.
    + apply (Hquery (S (clock w))). unfold payload_for.
      destruct (checked _) as [o|e]; [|discriminate Hret]. by injection Hret as -> _.
    + injection Hret as <- _. left. cbn. rewrite json_loads_empty_list. eauto.
Qed.

End Facts.

Import Reference.

(** C4 as worded fails: with the daemon running, a query that exits
    with a non-zero status after printing a JSON list has that list
    emitted, not the empty one. *)
Lemma refresh_claim_fails :
  signals (events_of (get_process_list (failing "[1]")) fresh_world) =
    [daemon_status_ready true; list_ready "[1]"] /\
  ~ refresh_claim.
Proof.
  split; [vm_compute; reflexivity|].
  intros Hclaim.
  destruct (Hclaim Reference.builtins (failing "[1]") fresh_world) as (_ & Hrun & _).
  specialize (Hrun eq_refl (or_introl eq_refl)).
  vm_compute in Hrun. discriminate Hrun.
Qed.

(** The scenario of the specification: whether the start command fails
    or not, the descriptor is gone after the call. *)
Lemma descriptor_removed_witness :
  files (start_process (failing "boom") svc fresh_world).2 !! "/tmp/eco.json" = None /\
  exists (mid : list Event) (w_mid : World),
    Forall is_signal mid /\
    events_of (start_process (failing "boom") svc) fresh_world =
      EvCreate "/tmp/eco.json" ::
      (EvRun (start_command "/tmp/eco.json") :: mid) ++
      EvRemove "/tmp/eco.json" :: events_of (get_process_list (failing "boom")) w_mid.
Proof.
  apply (descriptor_removed_after_start (failing "boom") svc fresh_world "/tmp/eco.json" true).
  - reflexivity.
  - discriminate.
Defined.

(** C3 as worded fails: a query that exits with a non-zero status after
    printing a JSON list has that list returned, not the empty one. *)
Lemma initial_state_claim_fails :
  (get_initial_state (failing "[1]") fresh_world).1 = Ok (OutText "[1]", true) /\
  ~ initial_state_claim.
Proof.
  split; [vm_compute; reflexivity|].
  intros Hclaim.
  destruct (Hclaim Reference.builtins (failing "[1]") fresh_world) as [_ Hrun].
  specialize (Hrun eq_refl (or_introl eq_refl)).
  vm_compute in Hrun. discriminate Hrun.
Qed.

(** C5 as worded fails: a log fetch that exits with a non-zero status
    surfaces an error and emits what the command printed as the logs. *)
Lemma silent_logs_claim_fails :
  (exists message,
     signals (events_of (get_logs (failing "boom") "svc") fresh_world) =
       [error message; logs_ready "svc" "boom"]) /\
  ~ silent_logs_claim.
Proof.
  split; [eexists; vm_compute; reflexivity|].
  intros Hclaim.
  specialize (Hclaim (failing "boom") fresh_world "svc" eq_refl).
  vm_compute in Hclaim. discriminate Hclaim.
Qed.

Lemma failed_logs_witness :
  (get_logs (failing "boom") "svc" fresh_world).1 = Ok tt /\
  signals (events_of (get_logs (failing "boom") "svc") fresh_world) =
    [ error ("Command failed: " +:+ logs_command "svc" +:+ nl +:+ nl +:+
             "Output:" +:+ nl +:+ "boom");
      logs_ready "svc" "boom" ].
Proof.
  apply (failed_logs_surface_an_error (failing "boom") "svc" fresh_world).
  reflexivity.
Defined.

End WorkerFacts.

(** * Properties of the window *)

Module ViewFacts.
Import View MonadFacts.
Local Open Scope list_scope.

(** Walk down a computation and leave the steps that change the state. *)
Ltac preserve_step :=
  lazymatch goal with
  | |- preserves _ (ret _) => apply preserves_ret
  | |- preserves _ (raise _) => apply preserves_raise
  | |- preserves _ (lift _) => apply preserves_lift
  | |- preserves _ (gets _) => apply preserves_gets
  | |- preserves _ (when _ _) => apply preserves_when
  | |- preserves _ (for_each _ _) => apply preserves_for_each; intros ?
  | |- preserves _ (bind _ _) => apply preserves_bind; [|intros ?]
  | |- preserves _ (modify _) => apply preserves_modify; intros ? ?
  end.

Ltac preserve := repeat preserve_step.

Section Facts.
Context `{!PyBuiltins} (refresh_views : nat -> list Dict -> Result unit).

(** [render] keeps what its branch for the list keeps, if the counter
    and the status bar do not matter. *)
Lemma render_branch (P : PM2GUI -> Prop) (is_first_load : bool) (pm2_processes : PyVal)
    (g : PM2GUI) (data : list Dict) :
  reconcile (projects g) pm2_processes = Ok data ->
  (forall g', P g' -> P (count_update g')) ->
  (forall msg g', P g' -> P (show_message msg g')) ->
  preserves P (if is_first_load then first_population data else diff_population data) ->
  P (set_all_projects_data data g) ->
  P (render refresh_views is_first_load pm2_processes g).2.
Proof.
  intros Hrec Hcount Hmsg Hbranch Hset. unfold render.
  rewrite bind_gets, Hrec, bind_lift_ok, bind_modify, bind_gets, bind_modify.
  match goal with |- P (?c ?s).2 =>
    enough (Hp : preserves P c) by (apply Hp, Hcount, Hset) end.
  apply preserves_bind; [apply preserves_lift|]. intros _.
  apply preserves_bind; [exact Hbranch|]. intros _. preserve. apply Hmsg. assumption.
Qed.

Section Frame.
Context (P : PM2GUI -> Prop) (HP : list_frame P).

Lemma add_item_preserves (proj_data : Dict) (at_row : option nat) :
  preserves P (_add_project_list_item proj_data at_row).
Proof.
  destruct HP as (_ & _ & Hcall).
  unfold _add_project_list_item. preserve.
  destruct at_row; apply Hcall; assumption.
Qed.

Lemma first_population_preserves (data : list Dict) :
  preserves P (first_population data).
Proof.
  pose proof HP as (_ & _ & Hcall).
  unfold first_population. preserve; try (apply Hcall; assumption).
  all: try apply add_item_preserves.
Qed.

Lemma update_or_add_preserves (existing : list string) (entry : nat * Dict) :
  preserves P (update_or_add existing entry).
Proof.
  pose proof HP as (_ & _ & Hcall).
  unfold update_or_add. apply preserves_bind; [apply preserves_lift|].
  intros name. destruct (bool_decide _).
  - intros g Hg. destruct (update_last _ _ _); cbn; [apply Hcall|]; exact Hg.
  - apply add_item_preserves.
Qed.

Lemma diff_population_preserves (data : list Dict) :
  preserves P (diff_population data).
Proof.
  pose proof HP as (_ & _ & Hcall).
  unfold diff_population, remove_stale. preserve; try (apply Hcall; assumption).
  all: try apply update_or_add_preserves.
Qed.

(** What [render] does to the merged data, and that it touches nothing
    else than the list, the status bar and the counter. *)
Lemma render_data (is_first_load : bool) (pm2_processes : PyVal) (g : PM2GUI)
    (data : list Dict) :
  reconcile (projects g) pm2_processes = Ok data ->
  P (set_all_projects_data data g) ->
  P (render refresh_views is_first_load pm2_processes g).2.
Proof.
  intros Hrec Hset. pose proof HP as (Hcount & Hmsg & Hcall).
  apply (render_branch P _ _ _ data Hrec Hcount Hmsg); [|exact Hset].
  destruct is_first_load; [apply first_population_preserves|apply diff_population_preserves].
Qed.

End Frame.

Lemma render_raise (is_first_load : bool) (pm2_processes : PyVal) (g : PM2GUI) (e : Exn) :
  reconcile (projects g) pm2_processes = Raise e ->
  render refresh_views is_first_load pm2_processes g = (Raise e, g).
Proof.
  intros Hrec. unfold render. rewrite bind_gets, Hrec, bind_lift_raise. reflexivity.
Qed.

Lemma render_keeps (P : PM2GUI -> Prop) (is_first_load : bool) (pm2_processes : PyVal) :
  list_frame P ->
  (forall d g, P g -> P (set_all_projects_data d g)) ->
  preserves P (render refresh_views is_first_load pm2_processes).
Proof.
  intros HP Hset g Hg.
  destruct (reconcile (projects g) pm2_processes) as [data|e] eqn:Hrec.
  - apply (render_data P HP _ _ _ data Hrec). apply Hset, Hg.
  - rewrite (render_raise _ _ _ e Hrec). exact Hg.
Qed.

Lemma bind_show_error {A B} (message : string) (a : A) (k : A -> M PM2GUI B) (g : PM2GUI) :
  bind (bind (show_error_message message) (fun _ => ret a)) k g =
    k a (critical message (show_message "An error occurred." g)).
Proof. reflexivity. Qed.

Lemma update_ui_keeps (P : PM2GUI -> Prop) (pm2_json_data : string) :
  list_frame P ->
  (forall d g, P g -> P (set_all_projects_data d g)) ->
  (forall msg g, P g -> P (critical msg g)) ->
  preserves P (update_ui refresh_views pm2_json_data).
Proof.
  intros HP Hset Hcrit g Hg. unfold update_ui. rewrite bind_gets.
  destruct (json_loads pm2_json_data) as [v| |e].
  - rewrite bind_ret. apply render_keeps; assumption.
  - rewrite bind_show_error. apply render_keeps; [assumption..|].
    apply Hcrit. destruct HP as (_ & Hmsg & _). apply Hmsg, Hg.
  - exact Hg.
Qed.

(** A payload opens the error dialog exactly when it is no JSON; a
    payload on which [json.loads] raises otherwise stops the slot
    before anything is shown. *)
Lemma update_ui_dialogs (pm2_json_data : string) (g : PM2GUI) :
  error_dialogs (slot (update_ui refresh_views pm2_json_data) g) =
    if json_loads pm2_json_data is JSONDecodeError
    then (error_dialogs g ++ ["Failed to parse PM2 data."])%list
    else error_dialogs g.
Proof.
  unfold slot, update_ui. rewrite bind_gets.
  destruct (json_loads pm2_json_data) as [v| |e].
  - rewrite bind_ret.
    apply (render_keeps (fun g' => error_dialogs g' = error_dialogs g)); [|auto|reflexivity].
    repeat split; auto.
  - rewrite bind_show_error.
    apply (render_keeps
             (fun g' => error_dialogs g' = (error_dialogs g ++ ["Failed to parse PM2 data."])%list));
      [|auto|reflexivity].
    repeat split; auto.
  - reflexivity.
Qed.

(** A payload that decodes opens no error dialog. *)
Lemma update_ui_no_dialog (pm2_json_data : string) (g : PM2GUI) :
  (exists v, json_loads pm2_json_data = Parsed v) ->
  error_dialogs (slot (update_ui refresh_views pm2_json_data) g) = error_dialogs g.
Proof. intros [v Hv]. by rewrite update_ui_dialogs, Hv. Qed.

Lemma same_state_true (current : option DaemonState) (new_state : DaemonState) :
  same_state current new_state = true -> current = Some new_state.
Proof. destruct current as [[]|], new_state; cbn; congruence. Qed.

(** Whatever it is given, [update_daemon_status] leaves the machine in
    the state it was given, also when clearing the list raises. *)
Lemma update_daemon_status_sets (i : StatusArg) (g : PM2GUI) :
  daemon_state (slot (update_daemon_status refresh_views i) g) = Some (to_state i).
Proof.
  unfold slot, update_daemon_status. rewrite bind_gets.
  destruct (same_state (daemon_state g) (to_state i)) eqn:Hsame.
  - apply same_state_true in Hsame. exact Hsame.
  - rewrite !bind_modify. destruct (to_state i); try reflexivity.
    apply (update_ui_keeps (fun g' => daemon_state g' = Some STOPPED)); auto.
    repeat split; auto.
Qed.

Lemma state_history_spec (inputs : list StatusArg) (g : PM2GUI) :
  state_history refresh_views inputs g = (fun i => Some (to_state i)) <$> inputs.
Proof.
  revert g. induction inputs as [|i inputs IH]; intros g; cbn; [reflexivity|].
  rewrite update_daemon_status_sets, IH. reflexivity.
Qed.

(** ** Reconciliation *)

Lemma find_live_dicts (name : string) (L : list Dict) :
  find_live name (VDict <$> L) = Ok (find (has_name name) L).
Proof.
  induction L as [|p L IH]; cbn; [reflexivity|].
  destruct (has_name name p); [reflexivity|exact IH].
Qed.

Lemma merge_known_dicts (L : list Dict) (known : list DeclaredProcessConfig) :
  merge_known (VList (VDict <$> L)) known =
    Ok ((fun c => merge c (find (has_name (cfg_name c)) L)) <$> known).
Proof.
  induction known as [|c known IH]; cbn; [reflexivity|].
  rewrite find_live_dicts. cbn in IH. rewrite IH. reflexivity.
Qed.

Lemma has_name_true (name : string) (p : Dict) :
  has_name name p = true -> p !! "name" = Some (VStr name).
Proof.
  unfold has_name. destruct (p !! "name") as [[| | |s| |]|]; try discriminate.
  intros Heq. apply String.eqb_eq in Heq. subst s. reflexivity.
Qed.

Lemma find_has_name (name : string) (L : list Dict) (p : Dict) :
  find (has_name name) L = Some p -> p !! "name" = Some (VStr name).
Proof.
  intros Hfind. apply find_some in Hfind as [_ Hname]. apply has_name_true, Hname.
Qed.

(** The merged view of a configuration carries its name. *)
Lemma merge_name (c : DeclaredProcessConfig) (L : list Dict) :
  merge c (find (has_name (cfg_name c)) L) !! "name" = Some (VStr (cfg_name c)).
Proof.
  unfold merge. destruct (find _ L) as [p|] eqn:Hfind; cbn.
  - apply lookup_union_Some_l, (find_has_name _ L), Hfind.
  - rewrite (left_id_L ∅ (∪)). apply lookup_insert_eq.
Qed.

Lemma with_keys_named (l : list Dict) (ks : list string) :
  Forall2 (fun p k => p !! "name" = Some (VStr k)) l ks ->
  with_keys l = Ok (zip ks l).
Proof.
  induction 1 as [|p k l ks Hp _ IH]; cbn; [reflexivity|].
  unfold name_key. rewrite Hp, IH. reflexivity.
Qed.

Lemma insert_sorted_perm (k : string) (p : Dict) (l : list (string * Dict)) :
  insert_sorted k p l ≡ₚ (k, p) :: l.
Proof.
  induction l as [|[k' p'] l IH]; cbn; [reflexivity|].
  destruct (String.leb k k'); [reflexivity|].
  rewrite IH. apply Permutation_swap.
Qed.

Lemma sort_keyed_perm (l : list (string * Dict)) : sort_keyed l ≡ₚ l.
Proof.
  induction l as [|[k p] l IH]; cbn; [reflexivity|].
  rewrite insert_sorted_perm, IH. reflexivity.
Qed.

Lemma leb_false_flip (a b : string) : String.leb a b = false -> name_le b a.
Proof.
  intros Hab. destruct (String.leb_total a b) as [Hle|Hle]; [congruence|exact Hle].
Qed.

Lemma insert_sorted_hd (k : string) (p : Dict) (l : list (string * Dict)) (k0 : string) :
  name_le k0 k -> HdRel name_le k0 l.*1 -> HdRel name_le k0 (insert_sorted k p l).*1.
Proof.
  intros Hk Hl. destruct l as [|[k' p'] l]; cbn; [constructor; exact Hk|].
  destruct (String.leb k k'); cbn; constructor; [exact Hk|].
  inversion Hl; assumption.
Qed.

Lemma insert_sorted_sorted (k : string) (p : Dict) (l : list (string * Dict)) :
  Sorted name_le l.*1 -> Sorted name_le (insert_sorted k p l).*1.
Proof.
  induction l as [|[k' p'] l IH]; cbn; intros Hs.
  - repeat constructor.
  - destruct (String.leb k k') eqn:Hle; cbn.
    + constructor; [exact Hs|constructor; exact Hle].
    + inversion Hs as [|? ? Hs' Hhd]; subst. constructor; [apply IH, Hs'|].
      apply insert_sorted_hd; [apply leb_false_flip, Hle|exact Hhd].
Qed.

Lemma sort_keyed_sorted (l : list (string * Dict)) : Sorted name_le (sort_keyed l).*1.
Proof.
  induction l as [|[k p] l IH]; cbn; [constructor|].
  apply insert_sorted_sorted, IH.
Qed.

(** Reconciling a list of live records never raises, and gives the
    merged views in the order of their names. *)
Lemma reconcile_dicts (known : list DeclaredProcessConfig) (L : list Dict) :
  reconcile known (VList (VDict <$> L)) =
    Ok (sort_keyed
          ((fun c => (cfg_name c, merge c (find (has_name (cfg_name c)) L))) <$> known)).*2.
Proof.
  unfold reconcile, sort_by_name. rewrite merge_known_dicts.
  rewrite (with_keys_named _ (cfg_name <$> known)).
  - f_equal. f_equal. f_equal. induction known as [|c known IH]; cbn; [reflexivity|].
    rewrite IH. reflexivity.
  - induction known as [|c known IH]; cbn; constructor; [apply merge_name|exact IH].
Qed.

Lemma update_ui_data (pm2_json_data : string) (g : PM2GUI) (v : PyVal) (data : list Dict) :
  decoded pm2_json_data = Some v ->
  reconcile (projects g) v = Ok data ->
  all_projects_data (slot (update_ui refresh_views pm2_json_data) g) = data.
Proof.
  intros Hdec Hrec. unfold slot, update_ui, decoded in *. rewrite bind_gets.
  assert (HP : list_frame (fun g' => all_projects_data g' = data))
    by (repeat split; auto).
  destruct (json_loads pm2_json_data) as [v'| |e]; [| |discriminate Hdec];
    injection Hdec as ->.
  - rewrite bind_ret. apply (render_data _ HP _ _ _ data Hrec). reflexivity.
  - rewrite bind_show_error.
    apply (render_data _ HP _ _ (critical _ (show_message _ g)) data Hrec). reflexivity.
Qed.

(** C6. For a payload that decodes to a list [L] of live records, the
    merged list [update_ui] stores is sorted by name, and its names are
    those of the declared configurations, each as often as it is
    declared: once when the declared names are distinct. A live record
    with an undeclared name leaves no entry. *)
Theorem merged_list_has_declared_names_sorted
    (pm2_json_data : string) (g : PM2GUI) (L : list Dict) :
  decoded pm2_json_data = Some (VList (VDict <$> L)) ->
  exists names : list string,
    Forall2 (fun p n => p !! "name" = Some (VStr n))
      (all_projects_data (slot (update_ui refresh_views pm2_json_data) g)) names /\
    Sorted name_le names /\
    names ≡ₚ cfg_name <$> projects g /\
    (NoDup (cfg_name <$> projects g) -> NoDup names).
Proof.
  intros Hdec.
  pose proof (reconcile_dicts (projects g) L) as Hrec.
  rewrite (update_ui_data _ _ _ _ Hdec Hrec).
  set (kv := (fun c => (cfg_name c, merge c (find (has_name (cfg_name c)) L))) <$> projects g).
  assert (Hperm : (sort_keyed kv).*1 ≡ₚ cfg_name <$> projects g).
  { rewrite sort_keyed_perm. unfold kv. rewrite <- list_fmap_compose. reflexivity. }
  exists (sort_keyed kv).*1. repeat split.
  - apply Forall2_fmap, Forall_Forall2_diag.
    rewrite sort_keyed_perm. unfold kv. apply Forall_fmap, Forall_forall.
    intros c _. apply merge_name.
  - apply sort_keyed_sorted.
  - exact Hperm.
  - intros Hnodup. rewrite Hperm. exact Hnodup.
Qed.

(** C7. For a payload that decodes to a list [L] of live records and a
    declared configuration [c], the merged list holds the view of [c].
    With a live record of that name (the first one in [L]), each field
    of the view is the live field when there is one and the declared
    field otherwise. Without one, the view is the declared dictionary
    alone, and, the declared fields having no ['pm2_env'] entry, its
    status reads ['undeployed'] and the list shows it as unknown. *)
Theorem merged_view_prefers_live_fields
    (pm2_json_data : string) (g : PM2GUI) (L : list Dict) (c : DeclaredProcessConfig) :
  decoded pm2_json_data = Some (VList (VDict <$> L)) ->
  c ∈ projects g ->
  let view := merge c (find (has_name (cfg_name c)) L) in
  view ∈ all_projects_data (slot (update_ui refresh_views pm2_json_data) g) /\
  view !! "name" = Some (VStr (cfg_name c)) /\
  match find (has_name (cfg_name c)) L with
  | Some live =>
      forall key, view !! key =
                    match live !! key with
                    | Some v => Some v
                    | None => as_dict c !! key
                    end
  | None =>
      view = as_dict c /\
      (cfg_fields c !! "pm2_env" = None ->
       status_of view = Ok (VStr "undeployed") /\
       forall w, exists w', update_status view w = Ok w' /\ icon w' = "presence-unknown")
  end.
Proof.
  intros Hdec Hc view.
  pose proof (reconcile_dicts (projects g) L) as Hrec.
  rewrite (update_ui_data _ _ _ _ Hdec Hrec). split; [|split; [apply merge_name|]].
  - apply (list_elem_of_fmap_2' snd _ (cfg_name c, view)); [|reflexivity].
    rewrite sort_keyed_perm.
    apply (list_elem_of_fmap_2' _ _ c); [exact Hc|reflexivity].
  - subst view. unfold merge. destruct (find _ L) as [live|]; cbn [default from_option].
    + change (id live) with live.
      intros key. rewrite lookup_union. destruct (live !! key), (as_dict c !! key); reflexivity.
    + rewrite (left_id_L ∅ (∪)). split; [reflexivity|].
      intros Hfields.
      assert (Hstatus : status_of (as_dict c) = Ok (VStr "undeployed")).
      { unfold status_of, as_dict. rewrite lookup_insert_ne by discriminate.
        rewrite Hfields. reflexivity. }
      split; [exact Hstatus|].
      intros w. unfold update_status. rewrite Hstatus. cbn. eexists. split; reflexivity.
Qed.

(** ** The list widget *)

Lemma item_names_app (l k : list Item) :
  item_names (l ++ k) = item_names l ++ item_names k.
Proof. apply omap_app. Qed.

Lemma elem_of_names_insert_at (row : nat) (k : string) (w : ProjectListItemWidget)
    (items : list Item) (n : string) :
  n ∈ item_names (insert_at row (ProjectItem k w) items) <->
  n = k \/ n ∈ item_names items.
Proof.
  unfold insert_at. rewrite <- (take_drop row items) at 3.
  rewrite !item_names_app. cbn. rewrite !elem_of_app, elem_of_cons. tauto.
Qed.

Lemma existsb_is_named (name : string) (items : list Item) :
  existsb (is_named name) items = true <-> name ∈ item_names items.
Proof.
  induction items as [|[|n w] items IH]; cbn.
  - split; [discriminate|]. intros Hin. apply elem_of_nil in Hin. destruct Hin.
  - exact IH.
  - rewrite elem_of_cons, orb_true_iff, IH, String.eqb_eq. split; intros [?|?]; auto.
Qed.

Lemma update_last_names (name : string) (proj : Dict) (items items' : list Item) :
  update_last name proj items = Ok items' -> item_names items' = item_names items.
Proof.
  revert items'. induction items as [|[|n w] items IH]; cbn; intros items' Hup.
  - injection Hup as <-. reflexivity.
  - destruct (update_last name proj items) as [rest'|]; [|discriminate Hup].
    injection Hup as <-. cbn. apply IH. reflexivity.
  - destruct (String.eqb n name && negb (existsb (is_named name) items)).
    + destruct (update_status proj w); [|discriminate Hup].
      injection Hup as <-. reflexivity.
    + destruct (update_last name proj items) as [rest'|]; [|discriminate Hup].
      injection Hup as <-. cbn. f_equal. apply IH. reflexivity.
Qed.

(** Taking the item of a name that shows once leaves the other names. *)
Lemma take_last_names (name : string) (items : list Item) :
  NoDup (item_names items) ->
  NoDup (item_names (take_last name items)) /\
  forall n, n ∈ item_names (take_last name items) <-> n ∈ item_names items /\ n <> name.
Proof.
  induction items as [|[|k w] items IH]; cbn; intros Hnd.
  - split; [constructor|]. intros n. split; [|tauto].
    intros Hin. apply elem_of_nil in Hin. destruct Hin.
  - exact (IH Hnd).
  - apply NoDup_cons in Hnd as [Hk Hnd]. specialize (IH Hnd) as [IHnd IHin].
    destruct (String.eqb k name) eqn:Hkn; cbn.
    + apply String.eqb_eq in Hkn. subst k.
      destruct (existsb (is_named name) items) eqn:Hex.
      { apply existsb_is_named in Hex. contradiction. }
      cbn. split; [exact Hnd|]. intros n. rewrite elem_of_cons. split.
      * intros Hin. split; [right; exact Hin|]. intros ->. contradiction.
      * intros [[->|Hin] Hne]; [contradiction|exact Hin].
    + apply String.eqb_neq in Hkn. split.
      * apply NoDup_cons. split; [|exact IHnd]. rewrite IHin. tauto.
      * intros n. rewrite !elem_of_cons, IHin. split.
        -- intros [->|[Hin Hne]]; [split; [left; reflexivity|exact Hkn]|tauto].
        -- intros [[->|Hin] Hne]; [left; reflexivity|right; tauto].
Qed.

Lemma elem_of_existing_keys (items : list Item) (n : string) :
  n ∈ existing_keys items <-> n ∈ item_names items.
Proof.
  unfold existing_keys. rewrite elem_of_reverse, elem_of_remove_dups, elem_of_reverse.
  reflexivity.
Qed.

Lemma with_keys_spec (data : list Dict) (keyed : list (string * Dict)) :
  with_keys data = Ok keyed ->
  Forall2 (fun p k => name_key p = Ok k) data keyed.*1.
Proof.
  revert keyed. induction data as [|p data IH]; cbn; intros keyed Hk.
  - injection Hk as <-. constructor.
  - destruct (name_key p) as [k|] eqn:Hp; [|discriminate Hk].
    destruct (with_keys data) as [rest|]; [|discriminate Hk].
    injection Hk as <-. cbn. constructor; [exact Hp|]. apply IH. reflexivity.
Qed.

Lemma imap_pair_snd {A} (l : list A) (f : nat -> nat) :
  (imap (fun i x => (f i, x)) l).*2 = l.
Proof.
  revert f. induction l as [|x l IH]; intros f; cbn; [reflexivity|].
  f_equal. apply (IH (f ∘ S)).
Qed.

(** ** A second run on the same data *)

Lemma keyed_elem (data : list Dict) (ks : list string) (p : Dict) (k : string) :
  Forall2 (fun p k => name_key p = Ok k) data ks ->
  p ∈ data -> name_key p = Ok k -> k ∈ ks.
Proof.
  induction 1 as [|p' k' data ks Hp' _ IH]; intros Hin Hp.
  - apply elem_of_nil in Hin. destruct Hin.
  - apply elem_of_cons in Hin as [->|Hin].
    + rewrite Hp in Hp'. injection Hp' as ->. left.
    + right. apply IH; assumption.
Qed.

Lemma keyed_elem_inv (data : list Dict) (ks : list string) (k : string) :
  Forall2 (fun p k => name_key p = Ok k) data ks ->
  k ∈ ks -> exists p, p ∈ data /\ name_key p = Ok k.
Proof.
  induction 1 as [|p' k' data ks Hp' _ IH]; intros Hin.
  - apply elem_of_nil in Hin. destruct Hin.
  - apply elem_of_cons in Hin as [->|Hin].
    + exists p'. split; [left|exact Hp'].
    + destruct (IH Hin) as (p & Hp & Hk). exists p. split; [right; exact Hp|exact Hk].
Qed.

Lemma elem_of_imap_pair (data : list Dict) (e : nat * Dict) :
  e ∈ imap pair data -> e.2 ∈ data.
Proof.
  intros He. apply elem_of_lookup_imap in He as (i & p & -> & Hp).
  cbn. apply list_elem_of_lookup. exists i. exact Hp.
Qed.

Lemma elem_of_imap_pair_inv (data : list Dict) (p : Dict) :
  p ∈ data -> exists e, e ∈ imap pair data /\ e.2 = p.
Proof.
  intros Hp. apply list_elem_of_lookup in Hp as [i Hi].
  exists (i, p). split; [|reflexivity].
  apply elem_of_lookup_imap. exists i, p. split; [reflexivity|exact Hi].
Qed.

Section Settled.
Context (Q : ListCall -> Prop) (W : list string) (C : list ListCall).

Lemma settled_call (c : ListCall) (items : list Item) (g : PM2GUI) :
  settled Q W C g -> Q c -> item_names items = W ->
  settled Q W C (list_call c items g).
Proof.
  intros [_ (new & Hcalls & Hnew)] Hc Hitems. split; [exact Hitems|].
  exists (new ++ [c]). cbn. rewrite Hcalls, app_assoc. split; [reflexivity|].
  apply Forall_app. split; [exact Hnew|]. repeat constructor. exact Hc.
Qed.

Lemma remove_stale_settled (existing new_names : list string) :
  (forall n, n ∈ existing -> n ∈ new_names) ->
  preserves (settled Q W C) (remove_stale existing new_names).
Proof.
  intros Hsub. unfold remove_stale. apply preserves_for_each_in. intros n Hn.
  rewrite (bool_decide_eq_true_2 _ (Hsub n Hn)). apply preserves_ret.
Qed.

Lemma update_or_add_settled (existing : list string) (entry : nat * Dict) :
  (forall name, Q (CallUpdateStatus name)) ->
  (forall k, name_key entry.2 = Ok k -> k ∈ existing) ->
  preserves (settled Q W C) (update_or_add existing entry).
Proof.
  intros HQ Hk g Hg. unfold update_or_add.
  destruct (name_key entry.2) as [k|e] eqn:Hname.
  - rewrite bind_lift_ok, (bool_decide_eq_true_2 _ (Hk k eq_refl)).
    destruct (update_last k entry.2 (project_list_widget g)) as [items|] eqn:Hup; cbn.
    + apply settled_call; [exact Hg|apply HQ|].
      rewrite (update_last_names _ _ _ _ Hup). apply Hg.
    + exact Hg.
  - rewrite bind_lift_raise. exact Hg.
Qed.

Lemma diff_population_settled (data : list Dict) (keyed : list (string * Dict)) :
  (forall name, Q (CallUpdateStatus name)) ->
  with_keys data = Ok keyed ->
  (forall n, n ∈ W <-> n ∈ keyed.*1) ->
  preserves (settled Q W C) (diff_population data).
Proof.
  intros HQ Hkeyed HW g Hg. unfold diff_population.
  rewrite bind_gets, Hkeyed, bind_lift_ok.
  assert (Hexisting : forall n, n ∈ existing_keys (project_list_widget g) <-> n ∈ keyed.*1).
  { intros n. rewrite elem_of_existing_keys. destruct Hg as [-> _]. apply HW. }
  revert g Hg Hexisting. intros g Hg Hexisting.
  refine (preserves_bind (settled Q W C) _ _ _ _ g Hg).
  - apply remove_stale_settled. intros n Hn. apply Hexisting, Hn.
  - intros _. apply preserves_for_each_in. intros e He.
    apply update_or_add_settled; [exact HQ|]. intros k Hk. apply Hexisting.
    apply (keyed_elem data _ e.2 k (with_keys_spec _ _ Hkeyed)); [|exact Hk].
    apply elem_of_imap_pair, He.
Qed.

Lemma first_population_settled_nil :
  Q CallClear -> Q CallAddDashboard ->
  W = [] -> preserves (settled Q W C) (first_population []).
Proof.
  intros Hclear Hdash Hnil g Hg. unfold first_population. rewrite !bind_modify. cbn.
  apply settled_call; [|exact Hdash|rewrite Hnil; reflexivity].
  apply settled_call; [exact Hg|exact Hclear|rewrite Hnil; reflexivity].
Qed.

Lemma render_settled (is_first_load : bool) (pm2_processes : PyVal) (g : PM2GUI)
    (data : list Dict) (keyed : list (string * Dict)) :
  (forall c, in_place data c -> Q c) ->
  reconcile (projects g) pm2_processes = Ok data ->
  with_keys data = Ok keyed ->
  (forall n, n ∈ W <-> n ∈ keyed.*1) ->
  is_first_load = is_empty data ->
  settled Q W C g ->
  settled Q W C (render refresh_views is_first_load pm2_processes g).2.
Proof.
  intros HQ Hrec Hkeyed HW -> Hg.
  apply (render_branch (settled Q W C) _ _ _ data Hrec); auto.
  destruct data as [|p data]; cbn [is_empty].
  - apply first_population_settled_nil; [apply HQ; left; reflexivity
                                        |apply HQ; right; reflexivity|].
    cbn in Hkeyed. injection Hkeyed as <-.
    apply elem_of_nil_inv. intros n Hn. apply (elem_of_nil n), HW, Hn.
  - apply (diff_population_settled _ keyed); [|assumption..].
    intros name. apply HQ. exists name. reflexivity.
Qed.

End Settled.

(** ** A run that returns *)

Lemma add_item_ok (proj_data : Dict) (at_row : option nat) (g g' : PM2GUI) :
  _add_project_list_item proj_data at_row g = (Ok tt, g') ->
  exists k w,
    name_key proj_data = Ok k /\
    project_list_widget g' =
      match at_row with
      | Some row => insert_at row (ProjectItem k w) (project_list_widget g)
      | None => project_list_widget g ++ [ProjectItem k w]
      end.
Proof.
  unfold _add_project_list_item.
  destruct (name_key proj_data) as [k|]; [|rewrite bind_lift_raise; discriminate].
  rewrite bind_lift_ok.
  destruct (new_ProjectListItemWidget proj_data) as [w|];
    [|rewrite bind_lift_raise; discriminate].
  rewrite bind_lift_ok. unfold modify. intros Hrun. injection Hrun as <-.
  exists k, w. split; [reflexivity|]. destruct at_row; reflexivity.
Qed.

Lemma add_items_ok (data : list Dict) (g g' : PM2GUI) :
  for_each data (fun proj => _add_project_list_item proj None) g = (Ok tt, g') ->
  exists keyed,
    with_keys data = Ok keyed /\
    item_names (project_list_widget g') = item_names (project_list_widget g) ++ keyed.*1.
Proof.
  revert g. induction data as [|p data IH]; cbn; intros g Hrun.
  - injection Hrun as <-. exists []. rewrite app_nil_r. split; reflexivity.
  - apply bind_ok in Hrun as ([] & g1 & Hadd & Hrest).
    apply add_item_ok in Hadd as (k & w & Hk & Hw).
    apply IH in Hrest as (keyed & Hkeyed & Hnames).
    exists ((k, p) :: keyed). rewrite Hk, Hkeyed. split; [reflexivity|].
    rewrite Hnames, Hw, item_names_app, <- app_assoc. reflexivity.
Qed.

Lemma first_population_ok (data : list Dict) (g g' : PM2GUI) :
  first_population data g = (Ok tt, g') ->
  exists keyed,
    with_keys data = Ok keyed /\
    forall n, n ∈ item_names (project_list_widget g') <-> n ∈ keyed.*1.
Proof.
  unfold first_population. rewrite !bind_modify. intros Hrun.
  apply add_items_ok in Hrun as (keyed & Hkeyed & Hnames).
  exists keyed. split; [exact Hkeyed|]. intros n. rewrite Hnames. reflexivity.
Qed.

(** Removing the stale names never raises; where each name shows once,
    exactly the names that are both stale and known go. *)
Lemma remove_stale_run (existing new_names : list string) (g : PM2GUI) :
  NoDup (item_names (project_list_widget g)) ->
  exists g',
    remove_stale existing new_names g = (Ok tt, g') /\
    NoDup (item_names (project_list_widget g')) /\
    forall n, n ∈ item_names (project_list_widget g') <->
              n ∈ item_names (project_list_widget g) /\ (n ∈ existing -> n ∈ new_names).
Proof.
  unfold remove_stale. revert g.
  induction existing as [|name existing IH]; cbn; intros g Hnd.
  - exists g. split; [reflexivity|]. split; [exact Hnd|]. intros n. split; [|tauto].
    intros Hn. split; [exact Hn|]. intros Hin. apply elem_of_nil in Hin. destruct Hin.
  - destruct (decide (name ∈ new_names)) as [Hname|Hname].
    + rewrite (bool_decide_eq_true_2 _ Hname). cbn [negb when]. rewrite bind_ret.
      destruct (IH g Hnd) as (g' & Hrun & Hnd' & Hin). exists g'.
      split; [exact Hrun|]. split; [exact Hnd'|]. intros n. rewrite Hin, elem_of_cons.
      split; intros [Hn Himp]; (split; [exact Hn|]); [intros [->|?]; auto|auto].
    + rewrite (bool_decide_eq_false_2 _ Hname). cbn [negb when]. rewrite bind_modify.
      destruct (take_last_names name _ Hnd) as [Hnd1 Hin1].
      destruct (IH (list_call (CallTakeItem name)
                      (take_last name (project_list_widget g)) g) Hnd1)
        as (g' & Hrun & Hnd' & Hin).
      exists g'. split; [exact Hrun|]. split; [exact Hnd'|]. intros n.
      rewrite Hin. cbn [project_list_widget list_call]. rewrite Hin1, elem_of_cons.
      split.
      * intros [[Hn Hne] Himp]. split; [exact Hn|]. intros [->|?]; [congruence|auto].
      * intros [Hn Himp]. split; [split; [exact Hn|]|auto].
        intros ->. apply Hname, Himp. left. reflexivity.
Qed.

Lemma update_or_add_ok (existing : list string) (entry : nat * Dict) (g g' : PM2GUI) :
  update_or_add existing entry g = (Ok tt, g') ->
  exists k,
    name_key entry.2 = Ok k /\
    forall n, n ∈ item_names (project_list_widget g') <->
              n ∈ item_names (project_list_widget g) \/ (n = k /\ k ∉ existing).
Proof.
  unfold update_or_add.
  destruct (name_key entry.2) as [k|] eqn:Hk; [|rewrite bind_lift_raise; discriminate].
  rewrite bind_lift_ok. destruct (decide (k ∈ existing)) as [Hin|Hin].
  - rewrite (bool_decide_eq_true_2 _ Hin).
    destruct (update_last k entry.2 (project_list_widget g)) as [items|] eqn:Hup;
      [|discriminate].
    intros Hrun. injection Hrun as <-. exists k. split; [reflexivity|].
    intros n. cbn [project_list_widget list_call].
    rewrite (update_last_names _ _ _ _ Hup). tauto.
  - rewrite (bool_decide_eq_false_2 _ Hin). intros Hrun.
    apply add_item_ok in Hrun as (k' & w & Hk' & Hw).
    rewrite Hk in Hk'. injection Hk' as <-. exists k. split; [reflexivity|].
    intros n. rewrite Hw, elem_of_names_insert_at. tauto.
Qed.

Lemma update_loop_ok (existing : list string) (entries : list (nat * Dict)) (g g' : PM2GUI) :
  for_each entries (update_or_add existing) g = (Ok tt, g') ->
  forall n, n ∈ item_names (project_list_widget g') <->
            n ∈ item_names (project_list_widget g) \/
            ((n ∉ existing) /\ exists e, e ∈ entries /\ name_key e.2 = Ok n).
Proof.
  revert g. induction entries as [|e entries IH]; cbn; intros g Hrun n.
  - injection Hrun as <-. split; [tauto|]. intros [Hn|[_ (e & He & _)]]; [exact Hn|].
    apply elem_of_nil in He. destruct He.
  - apply bind_ok in Hrun as ([] & g1 & Hstep & Hrest).
    apply update_or_add_ok in Hstep as (k & Hk & Hin1).
    rewrite (IH _ Hrest n), Hin1. split.
    + intros [[Hn|[-> Hne]]|[Hne (e' & He' & Hk')]].
      * left. exact Hn.
      * right. split; [exact Hne|]. exists e. split; [left|exact Hk].
      * right. split; [exact Hne|]. exists e'. split; [right; exact He'|exact Hk'].
    + intros [Hn|[Hne (e' & He' & Hk')]]; [left; left; exact Hn|].
      apply elem_of_cons in He' as [->|He'].
      * left. right. rewrite Hk in Hk'. injection Hk' as ->. split; [reflexivity|exact Hne].
      * right. split; [exact Hne|]. exists e'. split; assumption.
Qed.

(** After a diff that returns, on a list where each name shows once,
    the list shows the names of the data and no other. *)
Lemma diff_population_ok (data : list Dict) (g g' : PM2GUI) :
  NoDup (item_names (project_list_widget g)) ->
  diff_population data g = (Ok tt, g') ->
  exists keyed,
    with_keys data = Ok keyed /\
    forall n, n ∈ item_names (project_list_widget g') <-> n ∈ keyed.*1.
Proof.
  intros Hnd. unfold diff_population. rewrite bind_gets.
  destruct (with_keys data) as [keyed|] eqn:Hkeyed; [|rewrite bind_lift_raise; discriminate].
  rewrite bind_lift_ok.
  destruct (remove_stale_run (existing_keys (project_list_widget g)) keyed.*1 g Hnd)
    as (g1 & Hremove & _ & Hin1).
  unfold bind at 1. rewrite Hremove. intros Hloop.
  exists keyed. split; [reflexivity|]. intros n.
  rewrite (update_loop_ok _ _ _ _ Hloop n), Hin1, elem_of_existing_keys.
  pose proof (with_keys_spec _ _ Hkeyed) as Hspec. split.
  - intros [[Hn Himp]|[_ (e & He & Hk)]]; [auto|].
    apply (keyed_elem data _ e.2 n Hspec); [apply elem_of_imap_pair, He|exact Hk].
  - intros Hn. destruct (decide (n ∈ item_names (project_list_widget g))) as [Hold|Hold].
    + left. auto.
    + right. split; [exact Hold|].
      destruct (keyed_elem_inv _ _ _ Hspec Hn) as (p & Hp & Hk).
      destruct (elem_of_imap_pair_inv _ _ Hp) as (e & He & <-).
      exists e. split; assumption.
Qed.

Lemma render_ok (is_first_load : bool) (pm2_processes : PyVal) (g g' : PM2GUI) :
  render refresh_views is_first_load pm2_processes g = (Ok tt, g') ->
  exists data s s',
    reconcile (projects g) pm2_processes = Ok data /\
    project_list_widget s = project_list_widget g /\
    (if is_first_load then first_population data else diff_population data) s = (Ok tt, s') /\
    project_list_widget g' = project_list_widget s' /\
    list_calls g' = list_calls s'.
Proof.
  unfold render. rewrite bind_gets.
  destruct (reconcile (projects g) pm2_processes) as [data|] eqn:Hrec;
    [|rewrite bind_lift_raise; discriminate].
  rewrite bind_lift_ok, bind_modify, bind_gets, bind_modify.
  destruct (refresh_views _ data); [|rewrite bind_lift_raise; discriminate].
  rewrite bind_lift_ok. intros Hrun.
  apply bind_ok in Hrun as ([] & s' & Hbranch & Htail).
  rewrite bind_gets in Htail. unfold modify in Htail. injection Htail as <-.
  eexists data, _, s'. split; [reflexivity|]. split; [|split; [exact Hbranch|]].
  - reflexivity.
  - split; reflexivity.
Qed.

(** A run of [update_ui] that returns leaves in the list the names of
    the merged data it stored, whichever of its two branches it took. *)
Lemma update_ui_ok (pm2_json_data : string) (g g' : PM2GUI) :
  NoDup (item_names (project_list_widget g)) ->
  update_ui refresh_views pm2_json_data g = (Ok tt, g') ->
  exists v data keyed,
    decoded pm2_json_data = Some v /\
    reconcile (projects g) v = Ok data /\
    with_keys data = Ok keyed /\
    forall n, n ∈ item_names (project_list_widget g') <-> n ∈ keyed.*1.
Proof.
  intros Hnd. unfold update_ui, decoded. rewrite bind_gets.
  assert (Hrender : forall g0 v,
            project_list_widget g0 = project_list_widget g ->
            projects g0 = projects g ->
            render refresh_views (is_empty (all_projects_data g)) v g0 = (Ok tt, g') ->
            exists data keyed,
              reconcile (projects g) v = Ok data /\
              with_keys data = Ok keyed /\
              forall n, n ∈ item_names (project_list_widget g') <-> n ∈ keyed.*1).
  { intros g0 v Hw Hp Hrun.
    apply render_ok in Hrun as (data & s & s' & Hrec & Hs & Hbranch & Hw' & _).
    rewrite Hp in Hrec. exists data. rewrite Hw'.
    destruct (is_empty (all_projects_data g)).
    - apply first_population_ok in Hbranch as (keyed & Hkeyed & Hin). eauto.
    - apply diff_population_ok in Hbranch as (keyed & Hkeyed & Hin); [eauto|].
      rewrite Hs, Hw. exact Hnd. }
  destruct (json_loads pm2_json_data) as [v| |e].
  - rewrite bind_ret. intros Hrun. exists v.
    destruct (Hrender g _ eq_refl eq_refl Hrun) as (data & keyed & ?). eauto.
  - rewrite bind_show_error. intros Hrun. exists (VList []).
    destruct (Hrender (critical "Failed to parse PM2 data."
                         (show_message "An error occurred." g)) _ eq_refl eq_refl Hrun)
      as (data & keyed & ?). eauto.
  - discriminate.
Qed.

Lemma update_ui_projects (pm2_json_data : string) (g : PM2GUI) :
  projects (slot (update_ui refresh_views pm2_json_data) g) = projects g.
Proof.
  apply (update_ui_keeps (fun g' => projects g' = projects g)); auto.
  repeat split; auto.
Qed.

(** C8, as amended. Take a window whose list shows each project name
    at most once, as every list built by [update_ui] from distinctly
    named configurations does, and a run of [update_ui] on it that
    returns. A second run on the same payload then takes no project
    item out of the list and puts none in: the project names shown are
    the same after it as before. When the merged list is not empty the
    calls it makes on the list are status updates only. When it is
    empty the run takes the first-load branch again: its calls are those
    that clear the list and add the dashboard item, which the list had
    and has alone. *)
Theorem second_update_only_updates (pm2_json_data : string) (g g1 : PM2GUI) :
  NoDup (item_names (project_list_widget g)) ->
  update_ui refresh_views pm2_json_data g = (Ok tt, g1) ->
  let g2 := slot (update_ui refresh_views pm2_json_data) g1 in
  item_names (project_list_widget g2) = item_names (project_list_widget g1) /\
  exists new,
    list_calls g2 = list_calls g1 ++ new /\
    Forall (in_place (all_projects_data g1)) new.
Proof.
  intros Hnd Hrun g2.
  destruct (update_ui_ok _ _ _ Hnd Hrun) as (v0 & data & keyed & Hdec & Hrec & Hkeyed & Hnames).
  assert (Hg1 : g1 = slot (update_ui refresh_views pm2_json_data) g)
    by (unfold slot; rewrite Hrun; reflexivity).
  assert (Hdata : all_projects_data g1 = data)
    by (rewrite Hg1; apply (update_ui_data _ _ v0); assumption).
  assert (Hprojects : projects g1 = projects g)
    by (rewrite Hg1; apply update_ui_projects).
  rewrite Hdata.
  enough (Hsettled : settled (in_place data)
                       (item_names (project_list_widget g1)) (list_calls g1) g2)
    by exact Hsettled.
  assert (Hstart : settled (in_place data)
                     (item_names (project_list_widget g1)) (list_calls g1) g1).
  { split; [reflexivity|]. exists []. rewrite app_nil_r. split; [reflexivity|constructor]. }
  subst g2. unfold slot, update_ui. rewrite bind_gets, Hdata.
  unfold decoded in Hdec. rewrite <- Hprojects in Hrec.
  destruct (json_loads pm2_json_data) as [v| |e]; [| |discriminate Hdec];
    injection Hdec as <-.
  - rewrite bind_ret. apply (render_settled _ _ _ _ _ _ data keyed); auto.
  - rewrite bind_show_error.
    apply (render_settled _ _ _ _ _ (critical _ (show_message _ g1)) data keyed); auto.
Qed.

(** ** Each name shows once

    The hypothesis of C8 is an invariant of the window: [update_ui]
    keeps it, whether it returns or raises, as long as the declared
    names are distinct. *)

Lemma find_live_named (name : string) (elems : list PyVal) (p : Dict) :
  find_live name elems = Ok (Some p) -> p !! "name" = Some (VStr name).
Proof.
  induction elems as [|[| | | | |d] elems IH]; cbn; try discriminate.
  destruct (has_name name d) eqn:Hd; [|exact IH].
  intros Hfound. injection Hfound as <-. apply has_name_true, Hd.
Qed.

Lemma merge_known_names (pm2_processes : PyVal) (known : list DeclaredProcessConfig)
    (merged : list Dict) :
  merge_known pm2_processes known = Ok merged ->
  Forall2 (fun p k => p !! "name" = Some (VStr k)) merged (cfg_name <$> known).
Proof.
  revert merged. induction known as [|c known IH]; cbn; intros merged Hm.
  - injection Hm as <-. constructor.
  - destruct (py_iter pm2_processes) as [elems|]; [|discriminate Hm].
    destruct (find_live (cfg_name c) elems) as [live_data|] eqn:Hlive; [|discriminate Hm].
    destruct (merge_known pm2_processes known) as [rest|]; [|discriminate Hm].
    injection Hm as <-. constructor; [|apply IH; reflexivity].
    unfold merge. destruct live_data as [p|]; cbn.
    + apply lookup_union_Some_l, (find_live_named _ elems), Hlive.
    + rewrite (left_id_L ∅ (∪)). apply lookup_insert_eq.
Qed.

(** The keys of reconciled data are the declared names, reordered. *)
Lemma reconcile_keys (known : list DeclaredProcessConfig) (pm2_processes : PyVal)
    (data : list Dict) :
  reconcile known pm2_processes = Ok data ->
  exists keyed, with_keys data = Ok keyed /\ keyed.*1 ≡ₚ cfg_name <$> known.
Proof.
  unfold reconcile, sort_by_name.
  destruct (merge_known pm2_processes known) as [merged|] eqn:Hm; [|discriminate].
  pose proof (merge_known_names _ _ _ Hm) as Hnames.
  rewrite (with_keys_named _ _ Hnames). intros Hdata. injection Hdata as <-.
  set (sorted := sort_keyed (zip (cfg_name <$> known) merged)).
  assert (Hsorted : Forall (fun kp => kp.2 !! "name" = Some (VStr kp.1)) sorted).
  { unfold sorted. rewrite sort_keyed_perm. apply Forall_forall. intros [k q] Hin.
    apply elem_of_lookup_zip_with in Hin as (i & k' & q' & Heq & Hk & Hq).
    injection Heq as -> ->. cbn.
    exact (Forall2_lookup_lr _ _ _ _ _ _ Hnames Hq Hk). }
  exists (zip sorted.*1 sorted.*2). split.
  - apply with_keys_named, Forall2_fmap, Forall_Forall2_diag.
    eapply Forall_impl; [exact Hsorted|]. auto.
  - rewrite fst_zip by (rewrite !length_fmap; reflexivity).
    unfold sorted. rewrite sort_keyed_perm.
    rewrite fst_zip; [reflexivity|].
    apply Forall2_length in Hnames. rewrite Hnames. reflexivity.
Qed.

Lemma add_item_raise (proj_data : Dict) (at_row : option nat) (g g' : PM2GUI) (e : Exn) :
  _add_project_list_item proj_data at_row g = (Raise e, g') -> g' = g.
Proof.
  unfold _add_project_list_item.
  destruct (name_key proj_data) as [k|];
    [rewrite bind_lift_ok|rewrite bind_lift_raise; congruence].
  destruct (new_ProjectListItemWidget proj_data) as [w|];
    [rewrite bind_lift_ok|rewrite bind_lift_raise; congruence].
  unfold modify. discriminate.
Qed.

Lemma add_items_distinct (data : list Dict) (keyed : list (string * Dict)) (g : PM2GUI) :
  with_keys data = Ok keyed ->
  NoDup (item_names (project_list_widget g) ++ keyed.*1) ->
  NoDup (item_names (project_list_widget
           (for_each data (fun proj => _add_project_list_item proj None) g).2)).
Proof.
  revert keyed g. induction data as [|p data IH]; cbn; intros keyed g Hkeyed Hnd.
  - injection Hkeyed as <-. rewrite app_nil_r in Hnd. exact Hnd.
  - destruct (name_key p) as [k|] eqn:Hk; [|discriminate Hkeyed].
    destruct (with_keys data) as [rest|] eqn:Hrest; [|discriminate Hkeyed].
    injection Hkeyed as <-. cbn in Hnd. unfold bind.
    destruct (_add_project_list_item p None g) as [[[]|e] g1] eqn:Hadd; cbn.
    + apply add_item_ok in Hadd as (k' & w & Hk' & Hw).
      rewrite Hk in Hk'. injection Hk' as <-.
      apply (IH rest); [reflexivity|].
      rewrite Hw, item_names_app, <- app_assoc. exact Hnd.
    + apply add_item_raise in Hadd. subst g1. apply NoDup_app in Hnd. apply Hnd.
Qed.

Lemma first_population_distinct (data : list Dict) (keyed : list (string * Dict))
    (g : PM2GUI) :
  with_keys data = Ok keyed -> NoDup keyed.*1 ->
  NoDup (item_names (project_list_widget (first_population data g).2)).
Proof.
  intros Hkeyed Hnd. unfold first_population. rewrite !bind_modify.
  apply (add_items_distinct _ keyed); [exact Hkeyed|exact Hnd].
Qed.

Lemma names_insert_at_perm (row : nat) (k : string) (w : ProjectListItemWidget)
    (items : list Item) :
  item_names (insert_at row (ProjectItem k w) items) ≡ₚ k :: item_names items.
Proof.
  unfold insert_at. rewrite <- (take_drop row items) at 3.
  rewrite !item_names_app. cbn. symmetry. apply Permutation_middle.
Qed.

Lemma update_or_add_raise (existing : list string) (entry : nat * Dict)
    (g g' : PM2GUI) (e : Exn) :
  update_or_add existing entry g = (Raise e, g') -> g' = g.
Proof.
  unfold update_or_add.
  destruct (name_key entry.2) as [k|];
    [rewrite bind_lift_ok|rewrite bind_lift_raise; congruence].
  destruct (bool_decide (k ∈ existing)).
  - destruct (update_last k entry.2 (project_list_widget g)); [discriminate|congruence].
  - apply add_item_raise.
Qed.

Lemma update_or_add_names (existing : list string) (entry : nat * Dict)
    (g g' : PM2GUI) (k : string) :
  update_or_add existing entry g = (Ok tt, g') ->
  name_key entry.2 = Ok k ->
  (k ∈ existing /\ item_names (project_list_widget g') = item_names (project_list_widget g)) \/
  ((k ∉ existing) /\
   item_names (project_list_widget g') ≡ₚ k :: item_names (project_list_widget g)).
Proof.
  unfold update_or_add. intros Hrun Hk. rewrite Hk, bind_lift_ok in Hrun.
  destruct (decide (k ∈ existing)) as [Hin|Hin].
  - rewrite (bool_decide_eq_true_2 _ Hin) in Hrun.
    destruct (update_last k entry.2 (project_list_widget g)) as [items|] eqn:Hup;
      [|discriminate Hrun].
    injection Hrun as <-. left. split; [exact Hin|]. apply (update_last_names _ _ _ _ Hup).
  - rewrite (bool_decide_eq_false_2 _ Hin) in Hrun.
    apply add_item_ok in Hrun as (k' & w & Hk' & Hw).
    rewrite Hk in Hk'. injection Hk' as <-. right. split; [exact Hin|].
    rewrite Hw. apply names_insert_at_perm.
Qed.

Lemma update_loop_distinct (existing : list string) (entries : list (nat * Dict))
    (ks : list string) (g : PM2GUI) :
  Forall2 (fun e k => name_key e.2 = Ok k) entries ks ->
  NoDup ks ->
  NoDup (item_names (project_list_widget g)) ->
  (forall k, k ∈ ks -> k ∉ existing -> k ∉ item_names (project_list_widget g)) ->
  NoDup (item_names (project_list_widget
           (for_each entries (update_or_add existing) g).2)).
Proof.
  intros Hks. revert g. induction Hks as [|e k entries ks Hk _ IH]; cbn; intros g Hndk Hnd Hnew.
  - exact Hnd.
  - apply NoDup_cons in Hndk as [Hk_fresh Hndk]. unfold bind.
    destruct (update_or_add existing e g) as [[[]|err] g1] eqn:Hstep; cbn.
    + destruct (update_or_add_names _ _ _ _ _ Hstep Hk) as [[Hin Heq]|[Hin Hperm]].
      * apply IH; [exact Hndk|rewrite Heq; exact Hnd|].
        intros k' Hk' Hk'ex. rewrite Heq. apply Hnew; [right; exact Hk'|exact Hk'ex].
      * apply IH; [exact Hndk| |].
        -- rewrite Hperm. apply NoDup_cons. split; [|exact Hnd].
           apply Hnew; [left|exact Hin].
        -- intros k' Hk' Hk'ex. rewrite Hperm, not_elem_of_cons. split.
           ++ intros ->. contradiction.
           ++ apply Hnew; [right; exact Hk'|exact Hk'ex].
    + apply update_or_add_raise in Hstep. subst g1. exact Hnd.
Qed.

Lemma diff_population_distinct (data : list Dict) (keyed : list (string * Dict))
    (g : PM2GUI) :
  with_keys data = Ok keyed -> NoDup keyed.*1 ->
  NoDup (item_names (project_list_widget g)) ->
  NoDup (item_names (project_list_widget (diff_population data g).2)).
Proof.
  intros Hkeyed Hndk Hnd. unfold diff_population.
  rewrite bind_gets, Hkeyed, bind_lift_ok.
  destruct (remove_stale_run (existing_keys (project_list_widget g)) keyed.*1 g Hnd)
    as (g1 & Hremove & Hnd1 & Hin1).
  unfold bind at 1. rewrite Hremove.
  apply (update_loop_distinct _ _ keyed.*1); [|exact Hndk|exact Hnd1|].
  - pose proof (with_keys_spec _ _ Hkeyed) as Hspec.
    rewrite <- (imap_pair_snd data id) in Hspec.
    apply Forall2_fmap_l in Hspec. exact Hspec.
  - intros k _ Hk. rewrite Hin1, elem_of_existing_keys in *. tauto.
Qed.

(** With distinct declared names, [update_ui] shows each name once if
    the list it starts from does. *)
Lemma update_ui_distinct (pm2_json_data : string) (g : PM2GUI) :
  NoDup (cfg_name <$> projects g) ->
  NoDup (item_names (project_list_widget g)) ->
  NoDup (item_names (project_list_widget (slot (update_ui refresh_views pm2_json_data) g))).
Proof.
  intros Hdecl Hnd. unfold slot, update_ui. rewrite bind_gets.
  assert (Hrender : forall v g0,
            projects g0 = projects g ->
            project_list_widget g0 = project_list_widget g ->
            NoDup (item_names (project_list_widget
                     (render refresh_views (is_empty (all_projects_data g)) v g0).2))).
  { intros v g0 Hp Hw.
    destruct (reconcile (projects g0) v) as [data|e] eqn:Hrec.
    - destruct (reconcile_keys _ _ _ Hrec) as (keyed & Hkeyed & Hperm).
      assert (Hndk : NoDup keyed.*1) by (rewrite Hperm, Hp; exact Hdecl).
      apply (render_branch (fun g' => NoDup (item_names (project_list_widget g')))
               _ _ _ data Hrec); auto.
      + destruct (is_empty (all_projects_data g)); intros s Hs.
        * apply (first_population_distinct _ keyed); assumption.
        * apply (diff_population_distinct _ keyed); assumption.
      + cbn. rewrite Hw. exact Hnd.
    - rewrite (render_raise _ _ _ e Hrec). cbn. rewrite Hw. exact Hnd. }
  destruct (json_loads pm2_json_data) as [v| |e].
  - rewrite bind_ret. apply Hrender; reflexivity.
  - rewrite bind_show_error. apply Hrender; reflexivity.
  - exact Hnd.
Qed.

(** C1, as amended. Each input leaves the machine in the state it
    names, whatever the state before: a liveness result in running or
    stopped, a request for [PENDING] in [PENDING]. And on liveness
    results and such requests, two consecutive states are running and
    stopped, in either order, exactly when the input in between is a
    liveness result that reports the opposite of the state it finds. *)
Theorem flips_follow_liveness_results (g : PM2GUI) (inputs : list StatusArg) :
  state_history refresh_views inputs g = (fun i => Some (to_state i)) <$> inputs /\
  (Forall worker_or_request inputs ->
   forall (k : nat) (a b : option DaemonState),
     (daemon_state g :: state_history refresh_views inputs g) !! k = Some a ->
     (daemon_state g :: state_history refresh_views inputs g) !! S k = Some b ->
     (direct_flip a b <->
      exists is_running : bool,
        inputs !! k = Some (PyBool is_running) /\
        a = Some (if is_running then STOPPED else RUNNING) /\
        b = Some (if is_running then RUNNING else STOPPED))).
Proof.
  split; [apply state_history_spec|].
  intros Hinputs k a b Ha Hb.
  rewrite state_history_spec in Hb.
  change (((fun i => Some (to_state i)) <$> inputs) !! k = Some b) in Hb.
  rewrite list_lookup_fmap in Hb.
  destruct (inputs !! k) as [i|] eqn:Hi; [|discriminate Hb].
  cbn in Hb. injection Hb as <-.
  pose proof (proj1 (Forall_lookup _ _) Hinputs k i Hi) as Hallowed.
  split.
  - intros Hflip. destruct i as [is_running|st].
    + exists is_running. split; [reflexivity|]. split; [|reflexivity].
      destruct is_running; cbn in Hflip;
        destruct Hflip as [[Ha' Hb']|[Ha' Hb']]; try discriminate Hb'; exact Ha'.
    + cbn in Hallowed. subst st. cbn in Hflip.
      destruct Hflip as [[_ Hb']|[_ Hb']]; discriminate Hb'.
  - intros (is_running & [= ->] & -> & _).
    destruct is_running; [right|left]; split; reflexivity.
Qed.

(** On a payload of the worker the window opens no error dialog,
    unless the payload is the empty text that stands for the bytes of a
    query that timed out: then it reports that it could not parse. *)
Lemma worker_payload_dialog (env : Worker.Env) (payload : string) (g : PM2GUI) :
  Worker.worker_payload env payload ->
  error_dialogs (slot (update_ui refresh_views payload) g) = error_dialogs g \/
  payload = EmptyString /\
  error_dialogs (slot (update_ui refresh_views payload) g) =
    (error_dialogs g ++ ["Failed to parse PM2 data."])%list.
Proof.
  intros [Hparse|[-> _]]%WorkerFacts.worker_payload_cases.
  - left. by apply update_ui_no_dialog.
  - right. split; [reflexivity|]. by rewrite update_ui_dialogs, json_loads_empty_text.
Qed.

End Facts.

Import Scenarios Reference.

(** C1 as worded fails: after a request and a positive liveness result
    the machine is running, and the next negative result stops it
    without passing through [PENDING]. *)
Lemma never_direct_claim_fails :
  state_history no_views [PyState PENDING; PyBool true; PyBool false] (new_window []) =
    [Some PENDING; Some RUNNING; Some STOPPED] /\
  ~ never_direct_claim.
Proof.
  split; [vm_compute; reflexivity|].
  intros Hclaim.
  apply (Hclaim Reference.builtins no_views (new_window [])
           [PyState PENDING; PyBool true; PyBool false]
           ltac:(repeat constructor) 2 (Some RUNNING) (Some STOPPED)).
  - vm_compute. reflexivity.
  - vm_compute. reflexivity.
  - left. split; reflexivity.
Qed.

Lemma flips_follow_liveness_witness :
  direct_flip (Some RUNNING) (Some STOPPED) <->
  exists is_running : bool,
    [PyState PENDING; PyBool true; PyBool false] !! 2 = Some (PyBool is_running) /\
    Some RUNNING = Some (if is_running then STOPPED else RUNNING) /\
    Some STOPPED = Some (if is_running then RUNNING else STOPPED).
Proof.
  apply (proj2 (flips_follow_liveness_results no_views (new_window [])
                  [PyState PENDING; PyBool true; PyBool false])).
  - repeat constructor.
  - vm_compute. reflexivity.
  - vm_compute. reflexivity.
Defined.

(** C10. The claim fails where the query times out after printing a
    list, on a machine that is not Windows: what the timeout carries is
    bytes, [json.loads] accepts them, and the slots of [list_ready],
    like that of the preloader, receive the empty text for them, on
    which [update_ui] reports that it could not parse. *)
Theorem timed_out_query_fails_to_parse :
  Worker.signals (Worker.events_of (Worker.get_process_list (stalling "[1]")) fresh_world) =
    [Worker.daemon_status_ready true; Worker.list_ready EmptyString] /\
  (Worker.get_initial_state (stalling "[1]") fresh_world).1 = Ok (OutBytes "[1]", true) /\
  Window.preloaded (stalling "[1]") fresh_world = Ok (EmptyString, true) /\
  Worker.worker_payload (stalling "[1]") EmptyString /\
  error_dialogs (slot (update_ui no_views EmptyString) (new_window [])) =
    ["Failed to parse PM2 data."].
Proof.
  assert (Worker.signals (Worker.events_of (Worker.get_process_list (stalling "[1]")) fresh_world) =
            [Worker.daemon_status_ready true; Worker.list_ready EmptyString]) as Hrun
    by (vm_compute; reflexivity).
  split; [exact Hrun|]. split; [vm_compute; reflexivity|].
  split; [vm_compute; reflexivity|]. split; [|vm_compute; reflexivity].
  apply (Worker.payload_of_refresh _ _ fresh_world).
  vm_compute. right. right. right. left.
Qed.

Lemma merged_list_witness :
  exists names : list string,
    Forall2 (fun p n => p !! "name" = Some (VStr n))
      (all_projects_data (slot (update_ui no_views (jlist "a" "online")) edited_bc)) names /\
    Sorted name_le names /\
    names ≡ₚ ["c"; "b"] /\
    (NoDup ["c"; "b"] -> NoDup names).
Proof.
  apply (merged_list_has_declared_names_sorted no_views (jlist "a" "online") edited_bc
           [live "a" "online"]).
  vm_compute. reflexivity.
Defined.

(** The scenario of the specification: [a] and [b] declared, only [a]
    live; the view of [b] is its declaration and reads undeployed. *)
Lemma merged_view_witness :
  let view := merge (declared "b") None in
  view ∈ all_projects_data
           (slot (update_ui no_views (jlist "a" "online"))
              (new_window [declared "a"; declared "b"])) /\
  view !! "name" = Some (VStr "b") /\
  view = as_dict (declared "b") /\
  (cfg_fields (declared "b") !! "pm2_env" = None ->
   status_of view = Ok (VStr "undeployed") /\
   forall w, exists w', update_status view w = Ok w' /\ icon w' = "presence-unknown").
Proof.
  apply (merged_view_prefers_live_fields no_views (jlist "a" "online")
           (new_window [declared "a"; declared "b"]) [live "a" "online"] (declared "b")).
  - vm_compute. reflexivity.
  - right. left.
Defined.

(** C8 as worded fails: with no project declared the merged list is
    empty, every run takes the first-load branch, and the second run
    clears the list and adds the dashboard item again. *)
Lemma idempotent_diff_claim_fails :
  list_calls (slot (update_ui no_views "[]") (slot (update_ui no_views "[]") (new_window []))) =
    [CallClear; CallAddDashboard; CallClear; CallAddDashboard] /\
  ~ idempotent_diff_claim.
Proof.
  split; [vm_compute; reflexivity|].
  intros Hclaim.
  destruct (Hclaim Reference.builtins no_views "[]" (new_window [])
              (slot (update_ui no_views "[]") (new_window [])))
    as (new & Hcalls & Hnew).
  - constructor.
  - vm_compute. reflexivity.
  - vm_compute in Hcalls.
    destruct new as [|c new]; [discriminate Hcalls|].
    injection Hcalls as <- _. inversion Hnew as [|? ? [name Hname] _]. discriminate Hname.
Qed.

(** The store loses [a] and gains [c] between two refreshes: the first
    run takes [a] out and puts [c] in, the second only updates. *)
Lemma second_update_witness :
  item_names (project_list_widget (slot (update_ui no_views (jlist "a" "online")) shown_bc)) =
    item_names (project_list_widget shown_bc) /\
  exists new,
    list_calls (slot (update_ui no_views (jlist "a" "online")) shown_bc) =
      list_calls shown_bc ++ new /\
    Forall (in_place (all_projects_data shown_bc)) new.
Proof.
  apply (second_update_only_updates no_views (jlist "a" "online") edited_bc shown_bc).
  - vm_compute. repeat constructor; intros Hin;
      repeat (apply elem_of_cons in Hin as [Hin|Hin]; [discriminate Hin|]);
      apply elem_of_nil in Hin; exact Hin.
  - vm_compute. reflexivity.
Defined.

End ViewFacts.

Module WorkerMore.
Import Worker Window Scenarios MonadFacts WorkerFacts.
Local Open Scope list_scope.

Section Facts.
Context `{!PyBuiltins} (env : Env).

Lemma keep_listed (project_data : Dict) (keys : list string) (acc : Dict) (key : string) :
  foldl (fun (acc : Dict) key =>
           match project_data !! key with
           | Some v => if not_blank v then <[key := v]> acc else acc
           | None => acc
           end) acc keys !! key =
    if decide (key ∈ keys) then
      match project_data !! key with
      | Some v => if not_blank v then Some v else acc !! key
      | None => acc !! key
      end
    else acc !! key.
Proof.
  revert acc. induction keys as [|k keys IH]; intros acc; cbn [foldl].
  - rewrite decide_False; [reflexivity|]. apply not_elem_of_nil.
  - rewrite IH. destruct (decide (key ∈ keys)) as [Hin|Hnin].
    + rewrite decide_True by (right; exact Hin).
      destruct (project_data !! key) as [v|] eqn:Hv.
      * destruct (not_blank v) eqn:Hb; [reflexivity|].
        destruct (decide (k = key)) as [->|Hne].
        -- rewrite Hv, Hb. reflexivity.
        -- destruct (project_data !! k) as [v'|]; [|reflexivity].
           destruct (not_blank v'); [|reflexivity]. apply lookup_insert_ne, Hne.
      * destruct (decide (k = key)) as [->|Hne].
        -- rewrite Hv. reflexivity.
        -- destruct (project_data !! k) as [v'|]; [|reflexivity].
           destruct (not_blank v'); [|reflexivity]. apply lookup_insert_ne, Hne.
    + destruct (decide (k = key)) as [->|Hne].
      * rewrite decide_True by left.
        destruct (project_data !! key) as [v|]; [|reflexivity].
        destruct (not_blank v); [apply lookup_insert_eq|reflexivity].
      * rewrite decide_False.
        2:{ intros Hin. apply elem_of_cons in Hin as [->|Hin]; [exact (Hne eq_refl)|exact (Hnin Hin)]. }
        destruct (project_data !! k) as [v'|]; [|reflexivity].
        destruct (not_blank v'); [|reflexivity]. apply lookup_insert_ne, Hne.
Qed.



Lemma then_refresh {A} (c : M World A) (w w_mid : World) (pre : list Event) :
  (c w).2 = refreshed env w_mid ->
  trace w_mid = trace w ++ pre ->
  events_of c w = pre ++ events_of (get_process_list env) w_mid.
Proof.
  intros Hrun Htrace. apply events_of_app.
  rewrite Hrun, refreshed_trace, Htrace, get_process_list_events, <- app_assoc. reflexivity.
Qed.

Lemma signals_app (a b : list Event) : signals (a ++ b) = signals a ++ signals b.
Proof. apply omap_app. Qed.

Lemma signals_run (command : string) (t : list Event) :
  signals (EvRun command :: t) = signals t.
Proof. reflexivity. Qed.

Lemma signals_emit (sig : Signal) (t : list Event) :
  signals (EvEmit sig :: t) = sig :: signals t.
Proof. reflexivity. Qed.

Lemma surfaced_errors (command : string) (r : ExecOutcome) :
  if failed r then exists message, signals (surfaced command false r) = [error message]
  else signals (surfaced command false r) = [].
Proof. destruct r as [out| |out|out]; cbn; eauto. Qed.

Lemma simple_action_events (command title : string) (message : option Output -> string)
    (w : World) :
  let outcome := check_output env (clock w) command in
  exists w_mid,
    events_of (simple_action env command title message) w =
      (EvRun command :: surfaced command false outcome ++
       (if truthy (captured outcome)
        then [EvEmit (action_finished title (message (captured outcome)))] else [])) ++
      events_of (get_process_list env) w_mid.
Proof.
  cbn zeta.
  assert (Hrun : (simple_action env command title message w).2 =
            refreshed env
              (if truthy (captured (check_output env (clock w) command))
               then log (EvEmit (action_finished title
                                   (message (captured (check_output env (clock w) command)))))
                      (_run_command env command false w).2
               else (_run_command env command false w).2)).
  { unfold simple_action, bind. rewrite run_command_spec. unfold when.
    destruct (truthy _); unfold emit, modify, ret; cbv beta iota;
      rewrite get_process_list_spec; reflexivity. }
  eexists. apply (then_refresh _ _ _ _ Hrun).
  rewrite run_command_spec. destruct (truthy _); unfold log; cbn [trace snd].
  - rewrite <- app_assoc. reflexivity.
  - rewrite app_nil_r. reflexivity.
Qed.

(** X2. Stopping, restarting, reloading or deleting a process,
    and the two bulk operations, emit: the error of a failed command,
    if it failed; then the report of the action, exactly when the
    command handed back output that is not empty, whether it succeeded
    or not; then the signals of the refresh. So a command that fails
    after printing something is reported as an error and as done. The
    report on one process shows the output as an f-string formats it:
    text as it is and, for the bytes a timeout carries, their [repr].
    The report of a bulk operation is the output itself, as the slot
    receives it: text as it is, the empty text for bytes. *)
Theorem actions_report_iff_output (r : Request) (w : World) :
  let outcome := check_output env (clock w) (command_of r EmptyString) in
  let shown := fmt_output (captured outcome) in
  let received := str_argument (captured outcome) in
  let report title message :=
    if truthy (captured outcome) then [action_finished title message] else [] in
  exists (errors : list Signal) (w_mid : World),
    (if failed outcome then exists message, errors = [error message] else errors = []) /\
    match r with
    | StopProcess n =>
        signals (events_of (perform env r) w) =
          errors ++ report "Process Stopped" ("Stopped '" +:+ n +:+ "'." +:+ nl +:+ shown) ++
          signals (events_of (get_process_list env) w_mid)
    | RestartProcess n =>
        signals (events_of (perform env r) w) =
          errors ++ report "Process Restarted" ("Restarted '" +:+ n +:+ "'." +:+ nl +:+ shown) ++
          signals (events_of (get_process_list env) w_mid)
    | ReloadProcess n =>
        signals (events_of (perform env r) w) =
          errors ++ report "Process Reloaded" ("Reloaded '" +:+ n +:+ "'." +:+ nl +:+ shown) ++
          signals (events_of (get_process_list env) w_mid)
    | DeleteProcess n =>
        signals (events_of (perform env r) w) =
          errors ++ report "Process Deleted" ("Deleted '" +:+ n +:+ "' from PM2." +:+ nl +:+ shown) ++
          signals (events_of (get_process_list env) w_mid)
    | StopAll =>
        signals (events_of (perform env r) w) =
          errors ++ report "All Processes Stopped" received ++
          signals (events_of (get_process_list env) w_mid)
    | RestartAll =>
        signals (events_of (perform env r) w) =
          errors ++ report "All Processes Restarted" received ++
          signals (events_of (get_process_list env) w_mid)
    | StartProcess _ | StartDaemon | KillDaemon => True
    end.
Proof.
  cbn zeta.
  pose proof (surfaced_errors (command_of r EmptyString)
                (check_output env (clock w) (command_of r EmptyString))) as Herr.
  set (outcome := check_output env (clock w) (command_of r EmptyString)) in *.
  clear Herr.
  assert (Hsimple : forall title message,
            exists w_mid,
              signals (events_of (simple_action env (command_of r EmptyString) title message) w) =
                signals (surfaced (command_of r EmptyString) false outcome) ++
                (if truthy (captured outcome)
                 then [action_finished title (message (captured outcome))] else []) ++
                signals (events_of (get_process_list env) w_mid)).
  { intros title message.
    destruct (simple_action_events (command_of r EmptyString) title message w) as [w_mid ->].
    exists w_mid. rewrite signals_app, signals_run, signals_app. fold outcome. rewrite <- app_assoc.
    destruct (truthy (captured outcome)); reflexivity. }
  pose proof (surfaced_errors (command_of r EmptyString) outcome) as Herr.
  exists (signals (surfaced (command_of r EmptyString) false outcome)).
  destruct r; cbn [perform command_of] in *.
  1, 8, 9: exists w; split; [exact Herr|exact I].
  all: unfold stop_process, restart_process, reload_process, delete_process,
         stop_all, restart_all;
       edestruct Hsimple as [w_mid Hsig]; exists w_mid;
       split; [exact Herr|exact Hsig].
Qed.

(** X3. [start_daemon] always reports its attempt, and surfaces
    no error for a [pm2 resurrect] that fails or times out, only for a
    missing tool. [kill_daemon] reports the daemon as killed whenever
    [pm2 kill] handed back an output, also after a non-zero exit or a
    timeout with captured output, where the error comes first; it makes
    no report only when the tool is missing or a timeout captured
    nothing. Both end with the signals of a refresh. *)
Theorem daemon_operations_report (w : World) :
  let started := check_output env (clock w) "pm2 resurrect" in
  let killed := check_output env (clock w) "pm2 kill" in
  (exists w_mid : World,
     signals (events_of (start_daemon env) w) =
       (if started is FileNotFoundError
        then [error "Error: 'pm2' command not found. Is PM2 installed and in your system's PATH?"]
        else []) ++
       action_finished "PM2 Daemon" "Attempting to start/resurrect PM2 Daemon..." ::
       signals (events_of (get_process_list env) w_mid)) /\
  (exists (errors : list Signal) (w_mid : World),
     (if failed killed then exists message, errors = [error message] else errors = []) /\
     signals (events_of (kill_daemon env) w) =
       errors ++
       (if captured killed is Some _
        then [action_finished "PM2 Daemon Killed" "The PM2 daemon has been stopped."]
        else []) ++
       signals (events_of (get_process_list env) w_mid)).
Proof.
  cbn zeta. split.
  - assert (Hrun : (start_daemon env w).2 =
              refreshed env
                (log (EvEmit (action_finished "PM2 Daemon"
                                "Attempting to start/resurrect PM2 Daemon..."))
                   (_run_command env "pm2 resurrect" true w).2)).
    { unfold start_daemon, bind. rewrite run_command_spec. unfold emit, modify.
      cbv beta iota. rewrite get_process_list_spec. reflexivity. }
    eexists. erewrite (then_refresh _ _ _ _ Hrun).
    2:{ rewrite run_command_spec. unfold log. cbn [trace snd].
        rewrite <- app_assoc. reflexivity. }
    rewrite signals_app. cbn [app]. rewrite signals_run, signals_app, signals_emit.
    rewrite <- app_assoc. cbn [app signals omap].
    destruct (check_output env (clock w) "pm2 resurrect") as [out| |out|out]; reflexivity.
  - destruct (captured (check_output env (clock w) "pm2 kill")) as [out|] eqn:Hcap.
    + assert (Hrun : (kill_daemon env w).2 =
                refreshed env
                  (log (EvEmit (action_finished "PM2 Daemon Killed"
                                  "The PM2 daemon has been stopped."))
                     (_run_command env "pm2 kill" false w).2)).
      { unfold kill_daemon, bind. rewrite run_command_spec, Hcap.
        rewrite bool_decide_eq_true_2 by discriminate.
        unfold when, emit, modify. cbv beta iota.
        rewrite get_process_list_spec. reflexivity. }
      exists (signals (surfaced "pm2 kill" false (check_output env (clock w) "pm2 kill"))).
      eexists. split; [apply surfaced_errors|].
      erewrite (then_refresh _ _ _ _ Hrun).
      2:{ rewrite run_command_spec. unfold log. cbn [trace snd].
          rewrite <- app_assoc. reflexivity. }
      rewrite signals_app. cbn [app]. rewrite signals_run, signals_app, signals_emit.
      rewrite <- app_assoc. reflexivity.
    + assert (Hrun : (kill_daemon env w).2 =
                refreshed env (_run_command env "pm2 kill" false w).2).
      { unfold kill_daemon, bind. rewrite run_command_spec, Hcap.
        rewrite bool_decide_eq_false_2 by (intros Hn; apply Hn; reflexivity).
        unfold when, ret. cbv beta iota.
        rewrite get_process_list_spec. reflexivity. }
      exists (signals (surfaced "pm2 kill" false (check_output env (clock w) "pm2 kill"))).
      eexists. split; [apply surfaced_errors|].
      erewrite (then_refresh _ _ _ _ Hrun).
      2:{ rewrite run_command_spec. cbn [trace snd]. reflexivity. }
      rewrite signals_app, signals_run. reflexivity.
Qed.


Lemma simple_action_returns (command title : string) (message : option Output -> string)
    (w : World) :
  exists w_mid : World,
    simple_action env command title message w =
      (refresh_result env w_mid, refreshed env w_mid).
Proof.
  unfold simple_action, bind. rewrite run_command_spec. unfold when.
  destruct (truthy _); unfold emit, modify, ret; cbv beta iota;
    rewrite get_process_list_spec; eexists; reflexivity.
Qed.

Lemma refresh_raises (w : World) (e : Exn) :
  refresh_result env w = Raise e <->
  daemon_running env w = true /\
  exists output : Output,
    captured (check_output env (S (clock w)) "pm2 jlist") = Some output /\
    loads output = LoadsRaises e /\ handled e = false.
Proof.
  unfold refresh_result, payload_for, checked.
  destruct (daemon_running env w).
  2:{ split; [discriminate|]. intros [Hrun _]. discriminate Hrun. }
  destruct (captured _) as [output|].
  2:{ split; [discriminate|]. intros (_ & output & Hcap & _). discriminate Hcap. }
  destruct (loads output) as [v| |e'] eqn:Hloads.
  - split; [discriminate|]. intros (_ & o & [= <-] & Hl & _). congruence.
  - split; [discriminate|]. intros (_ & o & [= <-] & Hl & _). congruence.
  - destruct (handled e') eqn:Hhandled.
    + split; [discriminate|]. intros (_ & o & [= <-] & Hl & Hh). congruence.
    + split.
      * intros [= <-]. split; [reflexivity|]. eauto.
      * intros (_ & o & [= <-] & Hl & _). congruence.
Qed.

Ltac close_slot :=
  match goal with
  | |- context [refreshed ?env ?m] =>
      exists m; destruct (refresh_result env m) as [[]|]; reflexivity
  end.

(** How a request ends, and the world its refresh starts from. *)
Lemma perform_result (r : Request) (w : World) :
  exists w_mid : World,
    perform env r w =
      (match refresh_result env w_mid with
       | Raise e => Raise e
       | Ok _ =>
           match r with
           | StartProcess project_data =>
               match named_temporary_file env (clock w) with
               | TempCreated path true =>
                   if truthy (captured (check_output env (S (clock w)) (start_command path)))
                   then if build_app_config project_data !! "name" is Some _
                        then Ok tt else Raise (KeyError "name")
                   else Ok tt
               | TempCreated path false => Raise OSError
               | TempFailed => Raise OSError
               end
           | _ => Ok tt
           end
       end, refreshed env w_mid).
Proof.
  destruct r; cbn [perform].
  2-7: unfold stop_process, restart_process, reload_process, delete_process,
         stop_all, restart_all;
       edestruct simple_action_returns as [w_mid ->]; exists w_mid;
       destruct (refresh_result _ _) as [[]|]; reflexivity.
  - unfold start_process, try_finally, temp_eco_file_at.
    unfold bind at 1. unfold write_descriptor.
    destruct (named_temporary_file env (clock w)) as [|path dumped].
    + unfold bind, os_remove_if_exists. cbv beta iota.
      rewrite get_process_list_spec. close_slot.
    + destruct dumped.
      * unfold bind at 1. cbv beta iota. rewrite run_command_spec. unfold when.
        cbn [clock tick log set_files].
        destruct (truthy _).
        -- destruct (build_app_config project_data !! "name") as [name|];
             unfold bind, emit, modify, raise, os_remove_if_exists;
             cbv beta iota;
             match goal with |- context [if ?b then _ else _] => destruct b end;
             rewrite get_process_list_spec; close_slot.
        -- unfold bind, ret, os_remove_if_exists. cbv beta iota.
           match goal with |- context [if ?b then _ else _] => destruct b end;
             rewrite get_process_list_spec; close_slot.
      * unfold bind, os_remove_if_exists. cbv beta iota.
        match goal with |- context [if ?b then _ else _] => destruct b end;
          rewrite get_process_list_spec; close_slot.
  - unfold start_daemon, bind. rewrite run_command_spec. unfold emit, modify.
    cbv beta iota. rewrite get_process_list_spec. close_slot.
  - unfold kill_daemon, bind. rewrite run_command_spec. unfold when.
    destruct (bool_decide _); unfold emit, modify, ret; cbv beta iota;
      rewrite get_process_list_spec; close_slot.
Qed.


Lemma commands_app (a b : list Event) : commands (a ++ b) = commands a ++ commands b.
Proof. apply omap_app. Qed.

Lemma commands_surfaced (command : string) (can_fail : bool) (r : ExecOutcome) :
  commands (surfaced command can_fail r) = [].
Proof. destruct r as [out| |out|out]; cbn; try destruct can_fail; reflexivity. Qed.

(** X5. [get_logs] runs its one command and nothing else: it
    probes nothing, refreshes nothing and touches no file, and what it
    emits is an error or the logs for the process it was asked about. *)
Theorem log_fetch_never_refreshes (proc_id_or_name : string) (w : World) :
  commands (events_of (get_logs env proc_id_or_name) w) = [logs_command proc_id_or_name] /\
  files (get_logs env proc_id_or_name w).2 = files w /\
  forall e : Event,
    e ∈ events_of (get_logs env proc_id_or_name) w ->
    e = EvRun (logs_command proc_id_or_name) \/
    (exists message, e = EvEmit (error message)) \/
    (exists logs, e = EvEmit (logs_ready proc_id_or_name logs)).
Proof.
  rewrite get_logs_events. cbn zeta. split; [|split].
  - change (commands (EvRun ?c :: ?t)) with (c :: commands t).
    rewrite commands_app, commands_surfaced. destruct (truthy _); reflexivity.
  - unfold get_logs, bind. rewrite run_command_spec. unfold when.
    destruct (truthy _); reflexivity.
  - intros e Hin. apply elem_of_cons in Hin as [->|Hin]; [left; reflexivity|].
    right. apply elem_of_app in Hin as [Hin|Hin].
    + left. destruct (check_output env (clock w) (logs_command proc_id_or_name))
        as [out| |out|out]; cbn in Hin;
        try (apply elem_of_nil in Hin; destruct Hin);
        apply list_elem_of_singleton in Hin; eauto.
    + right. destruct (truthy _); [|apply elem_of_nil in Hin; destruct Hin].
      apply list_elem_of_singleton in Hin. eauto.
Qed.


Lemma error_is_report (message : string) : is_report (EvEmit (error message)).
Proof. intros sig [= <-]. left. eexists. reflexivity. Qed.

Lemma surfaced_reports (command : string) (can_fail : bool) (r : ExecOutcome) :
  Forall is_report (surfaced command can_fail r).
Proof.
  destruct r as [out| |out|out]; cbn [surfaced]; try destruct can_fail.
  all: first [apply Forall_nil_2 | apply Forall_cons_2; [apply error_is_report|apply Forall_nil_2]].
Qed.

Lemma run_is_report (command : string) : is_report (EvRun command).
Proof. intros sig Heq. discriminate Heq. Qed.

Lemma finished_is_report (title message : string) :
  is_report (EvEmit (action_finished title message)).
Proof. intros sig [= <-]. right. eexists _, _. reflexivity. Qed.

Lemma perform_reports (r : Request) (w : World) :
  exists (w_mid : World) (pre : list Event),
    events_of (perform env r) w = pre ++ events_of (get_process_list env) w_mid /\
    Forall is_report pre.
Proof.
  destruct r; cbn [perform].
  2-7: unfold stop_process, restart_process, reload_process, delete_process,
         stop_all, restart_all;
       edestruct simple_action_events as [w_mid Hev]; eexists w_mid, _;
       (split; [exact Hev|]);
       apply Forall_cons_2; [apply run_is_report|];
       apply Forall_app; (split; [apply surfaced_reports|]);
       destruct (truthy _); first [apply Forall_nil_2 | apply Forall_cons_2; [apply finished_is_report|apply Forall_nil_2]].
  - destruct (start_process_run env project_data w) as (mid & w_mid & Hmid & Hrun & Htrace & _).
    exists w_mid, (start_events env w mid). split.
    + apply (then_refresh _ _ _ _ Hrun Htrace).
    + unfold start_events.
      destruct (named_temporary_file env (clock w)) as [|path dumped]; [apply Forall_nil_2|].
      apply Forall_cons_2; [intros sig Heq; discriminate Heq|].
      apply Forall_app. split.
      * destruct dumped; [|apply Forall_nil_2].
        apply Forall_cons_2; [apply run_is_report|].
        apply Forall_app. split; [apply surfaced_reports|].
        destruct Hmid as [->|[->|(title & message & ->)]]; first [apply Forall_nil_2 | apply Forall_cons_2; [apply finished_is_report|apply Forall_nil_2]].
      * destruct (negb _); [|apply Forall_nil_2].
        apply Forall_cons_2; [intros sig Heq; discriminate Heq|apply Forall_nil_2].
  - assert (Hrun : (start_daemon env w).2 =
              refreshed env
                (log (EvEmit (action_finished "PM2 Daemon"
                                "Attempting to start/resurrect PM2 Daemon..."))
                   (_run_command env "pm2 resurrect" true w).2)).
    { unfold start_daemon, bind. rewrite run_command_spec. unfold emit, modify.
      cbv beta iota. rewrite get_process_list_spec. reflexivity. }
    eexists _, _. split.
    + apply (then_refresh _ _ _ _ Hrun). rewrite run_command_spec. unfold log.
      cbn [trace snd]. rewrite <- app_assoc. reflexivity.
    + cbn [app]. apply Forall_cons_2; [apply run_is_report|].
      apply Forall_app. split; [apply surfaced_reports|].
      first [apply Forall_nil_2 | apply Forall_cons_2; [apply finished_is_report|apply Forall_nil_2]].
  - destruct (captured (check_output env (clock w) "pm2 kill")) as [out|] eqn:Hcap.
    + assert (Hrun : (kill_daemon env w).2 =
                refreshed env
                  (log (EvEmit (action_finished "PM2 Daemon Killed"
                                  "The PM2 daemon has been stopped."))
                     (_run_command env "pm2 kill" false w).2)).
      { unfold kill_daemon, bind. rewrite run_command_spec, Hcap.
        rewrite bool_decide_eq_true_2 by discriminate.
        unfold when, emit, modify. cbv beta iota.
        rewrite get_process_list_spec. reflexivity. }
      eexists _, _. split.
      * apply (then_refresh _ _ _ _ Hrun). rewrite run_command_spec. unfold log.
        cbn [trace snd]. rewrite <- app_assoc. reflexivity.
      * cbn [app]. apply Forall_cons_2; [apply run_is_report|].
        apply Forall_app. split; [apply surfaced_reports|].
        first [apply Forall_nil_2 | apply Forall_cons_2; [apply finished_is_report|apply Forall_nil_2]].
    + assert (Hrun : (kill_daemon env w).2 =
                refreshed env (_run_command env "pm2 kill" false w).2).
      { unfold kill_daemon, bind. rewrite run_command_spec, Hcap.
        rewrite bool_decide_eq_false_2 by (intros Hn; apply Hn; reflexivity).
        unfold when, ret. cbv beta iota.
        rewrite get_process_list_spec. reflexivity. }
      eexists _, _. split.
      * apply (then_refresh _ _ _ _ Hrun). rewrite run_command_spec.
        cbn [trace snd]. reflexivity.
      * apply Forall_cons_2; [apply run_is_report|]. apply surfaced_reports.
Qed.

End Facts.
End WorkerMore.

Module WindowFacts.
Import Worker View Window MonadFacts WorkerFacts WorkerMore ViewFacts.
Local Open Scope list_scope.

Section Facts.
Context `{!PyBuiltins} (refresh_views : nat -> list Dict -> Result unit).

(** What [update_ui] leaves alone. *)
Lemma update_ui_frame (A : Type) (f : PM2GUI -> A) (pm2_json_data : string) (g : PM2GUI) :
  (forall g', f (count_update g') = f g') ->
  (forall msg g', f (show_message msg g') = f g') ->
  (forall c items g', f (list_call c items g') = f g') ->
  (forall d g', f (set_all_projects_data d g') = f g') ->
  (forall msg g', f (critical msg g') = f g') ->
  f (slot (update_ui refresh_views pm2_json_data) g) = f g.
Proof.
  intros Hcount Hmsg Hcall Hset Hcrit.
  apply (update_ui_keeps refresh_views (fun g' => f g' = f g)); [| | |reflexivity].
  - repeat split; intros; congruence.
  - intros; congruence.
  - intros; congruence.
Qed.

Lemma update_ui_state (pm2_json_data : string) (g : PM2GUI) :
  daemon_state (slot (update_ui refresh_views pm2_json_data) g) = daemon_state g.
Proof. apply update_ui_frame; reflexivity. Qed.

Lemma update_ui_controls (pm2_json_data : string) (g : PM2GUI) :
  controls (slot (update_ui refresh_views pm2_json_data) g) = controls g.
Proof. apply update_ui_frame; reflexivity. Qed.

Lemma update_daemon_status_controls (i : StatusArg) (g : PM2GUI) :
  controls (slot (update_daemon_status refresh_views i) g) =
    if same_state (daemon_state g) (to_state i) then controls g
    else controls_for (to_state i) (controls g).
Proof.
  unfold slot, update_daemon_status. rewrite bind_gets.
  destruct (same_state (daemon_state g) (to_state i)); [reflexivity|].
  rewrite !bind_modify. destruct (to_state i); try reflexivity.
  apply (update_ui_controls "[]").
Qed.

Lemma controls_for_idem (st : DaemonState) (c : Controls) :
  controls_for st (controls_for st c) = controls_for st c.
Proof. destruct st; reflexivity. Qed.

Lemma handle_agrees (i : Input) : preserves controls_agree (handle refresh_views i).
Proof.
  assert (Hstatus : forall i, preserves controls_agree (update_daemon_status refresh_views i)).
  { intros a g Hg st. change (_ g).2 with (slot (update_daemon_status refresh_views a) g).
    rewrite update_daemon_status_sets, update_daemon_status_controls.
    intros [= <-]. destruct (same_state _ _) eqn:Hsame.
    - apply Hg, same_state_true, Hsame.
    - symmetry. apply controls_for_idem. }
  destruct i as [st|[payload|name logs|title message|message|is_running]]; cbn [handle deliver].
  - apply Hstatus.
  - intros g Hg st. change (_ g).2 with (slot (update_ui refresh_views payload) g).
    rewrite update_ui_state, update_ui_controls. apply Hg.
  - intros g Hg. exact Hg.
  - intros g Hg. exact Hg.
  - intros g Hg. exact Hg.
  - apply Hstatus.
Qed.

Lemma after_agrees (inputs : list Input) (g : PM2GUI) :
  controls_agree g -> controls_agree (after refresh_views inputs g).
Proof.
  revert g. induction inputs as [|i inputs IH]; intros g Hg; [exact Hg|].
  apply IH. apply handle_agrees, Hg.
Qed.

(** X6. Take the window as [__init__] builds it, and let it
    enter states and receive signals of the worker in any order.
    Whenever it has a daemon state, its actions, the overlay, the
    dashboard flag and the timer are those [update_daemon_status] sets
    on entering that state: the overlay shows while pending and only
    then, the timer runs while running and is stopped while stopped;
    nothing else, [update_ui] included, touches them. *)
Theorem controls_follow_daemon_state
    (known_projects : list DeclaredProcessConfig) (inputs : list Input) (st : DaemonState) :
  let g := after refresh_views inputs (new_window known_projects) in
  daemon_state g = Some st ->
  controls g = controls_for st (controls g).
Proof.
  cbn zeta. apply after_agrees. intros st'. discriminate.
Qed.


Lemma received_app (a b : list Signal) (g : PM2GUI) :
  received refresh_views (a ++ b) g = received refresh_views b (received refresh_views a g).
Proof. apply foldl_app. Qed.

Lemma received_cons (sig : Signal) (sigs : list Signal) (g : PM2GUI) :
  received refresh_views (sig :: sigs) g =
    received refresh_views sigs (slot (deliver refresh_views sig) g).
Proof. reflexivity. Qed.

Lemma deliver_keeps_state (sig : Signal) (g : PM2GUI) :
  (forall b, sig <> daemon_status_ready b) ->
  daemon_state (slot (deliver refresh_views sig) g) = daemon_state g /\
  controls (slot (deliver refresh_views sig) g) = controls g.
Proof.
  intros Hsig. destruct sig as [payload|name logs|title message|message|b];
    cbn [deliver]; try (split; reflexivity).
  - split; [apply update_ui_state|apply update_ui_controls].
  - destruct (Hsig b eq_refl).
Qed.

Lemma received_keeps_state (sigs : list Signal) (g : PM2GUI) :
  Forall (fun sig => forall b, sig <> daemon_status_ready b) sigs ->
  daemon_state (received refresh_views sigs g) = daemon_state g /\
  controls (received refresh_views sigs g) = controls g.
Proof.
  intros Hsigs. revert g. induction Hsigs as [|sig sigs Hsig _ IH]; intros g; [split; reflexivity|].
  rewrite received_cons.
  destruct (IH (slot (deliver refresh_views sig) g)) as [-> ->].
  apply deliver_keeps_state, Hsig.
Qed.

Lemma reports_keep_state (pre : list Event) :
  Forall is_report pre ->
  Forall (fun sig => forall b, sig <> daemon_status_ready b) (signals pre).
Proof.
  induction 1 as [|e pre He _ IH]; [constructor|].
  destruct e as [b|c|p|p|sig]; try exact IH.
  change (signals (EvEmit sig :: pre)) with (sig :: signals pre).
  constructor; [|exact IH].
  intros b ->. destruct (He _ eq_refl) as [[m Hm]|(t & m & Hm)]; discriminate.
Qed.

Lemma refresh_tail_keeps_state (w : World) (env : Env) :
  exists tail,
    signals (events_of (get_process_list env) w) =
      daemon_status_ready (daemon_running env w) :: tail /\
    Forall (fun sig => forall b, sig <> daemon_status_ready b) tail.
Proof.
  rewrite get_process_list_events, refresh_signals. eexists. split; [reflexivity|].
  destruct (daemon_running env w); [|repeat constructor; discriminate].
  cbn zeta. apply Forall_app. split.
  - destruct (check_output env (S (clock w)) "pm2 jlist") as [out| |out|out]; cbn;
      repeat constructor; discriminate.
  - destruct (payload_for _); repeat constructor; discriminate.
Qed.

Lemma refresh_received (env : Env) (w : World) (g : PM2GUI) :
  let g' := received refresh_views (signals (events_of (get_process_list env) w)) g in
  daemon_state g' = Some (if daemon_running env w then RUNNING else STOPPED) /\
  controls g' = controls (slot (update_daemon_status refresh_views
                                  (PyBool (daemon_running env w))) g).
Proof.
  cbn zeta. destruct (refresh_tail_keeps_state w env) as (tail & -> & Htail).
  rewrite received_cons.
  destruct (received_keeps_state tail
              (slot (deliver refresh_views (daemon_status_ready (daemon_running env w))) g) Htail)
    as [-> ->].
  cbn [deliver]. split; [|reflexivity].
  rewrite update_daemon_status_sets. reflexivity.
Qed.

(** X7. Once the signals of a control operation, or of a plain
    refresh, have reached their slots, the window is running or
    stopped, as the probe of that refresh found the daemon: it is never
    left pending, whatever state it was in and whatever the commands
    did. *)
Theorem operations_settle_the_state (env : Env) (r : Request) (w : World) (g : PM2GUI) :
  (exists is_running : bool,
     EvProbe is_running ∈ events_of (perform env r) w /\
     daemon_state (received refresh_views (signals (events_of (perform env r) w)) g) =
       Some (if is_running then RUNNING else STOPPED)) /\
  daemon_state (received refresh_views (signals (events_of (get_process_list env) w)) g) =
    Some (if daemon_running env w then RUNNING else STOPPED).
Proof.
  split; [|apply refresh_received].
  destruct (perform_reports env r w) as (w_mid & pre & -> & Hpre).
  exists (daemon_running env w_mid). split.
  - apply elem_of_app. right. rewrite get_process_list_events. left.
  - rewrite signals_app, received_app.
    apply refresh_received.
Qed.

Lemma update_daemon_status_dialogs (i : StatusArg) (g : PM2GUI) :
  error_dialogs (slot (update_daemon_status refresh_views i) g) = error_dialogs g.
Proof.
  unfold slot, update_daemon_status. rewrite bind_gets.
  destruct (same_state (daemon_state g) (to_state i)); [reflexivity|].
  rewrite !bind_modify. destruct (to_state i); try reflexivity.
  etrans; [apply (update_ui_no_dialog refresh_views "[]")|reflexivity].
  rewrite json_loads_empty_list. eauto.
Qed.

(** The state a sequence of two slots ends in. *)
Lemma bind_slot {A} (c : M PM2GUI A) (k : A -> M PM2GUI unit) (g : PM2GUI) :
  (bind c k g).2 = (c g).2 \/ exists a, (bind c k g).2 = (k a (c g).2).2.
Proof. unfold bind. destruct (c g) as [[a|e] g']; cbn; eauto. Qed.

Lemma update_daemon_status_running (g : PM2GUI) :
  (update_daemon_status refresh_views (PyBool true) g).1 = Ok tt.
Proof.
  unfold update_daemon_status. rewrite bind_gets. cbn [to_state].
  destruct (same_state (daemon_state g) RUNNING); [reflexivity|].
  rewrite !bind_modify. reflexivity.
Qed.

(** The window as [on_preload_finished] leaves it. Populating the list
    can raise; for a daemon that is stopped, entering the state can
    raise before, and then the initial data is not looked at. *)
Lemma populated (initial_json_data : string) (is_running : bool)
    (known_projects : list DeclaredProcessConfig) :
  (is_running = false -> exists v, json_loads initial_json_data = Parsed v) ->
  let g := (on_preload_finished refresh_views known_projects
              initial_json_data is_running).2 in
  let st := if is_running then RUNNING else STOPPED in
  daemon_state g = Some st /\
  controls g = controls_for st (controls g) /\
  error_dialogs g =
    if json_loads initial_json_data is JSONDecodeError
    then ["Failed to parse PM2 data."] else [].
Proof.
  intros Hstopped. cbn zeta. unfold on_preload_finished.
  set (g1 := slot (init_ui refresh_views) (new_window known_projects)).
  set (g := (_ (new_window known_projects)).2).
  assert (Hg : g = (post_init_setup refresh_views initial_json_data is_running g1).2)
    by reflexivity.
  clearbody g. subst g.
  set (g2 := slot (update_daemon_status refresh_views (PyBool is_running)) g1).
  assert (H2 : daemon_state g2 = Some (if is_running then RUNNING else STOPPED) /\
               controls g2 = controls_for (if is_running then RUNNING else STOPPED) (controls g2) /\
               error_dialogs g2 = []).
  { split; [apply (update_daemon_status_sets refresh_views (PyBool is_running))|]. split.
    - unfold g2. rewrite update_daemon_status_controls.
      destruct is_running; reflexivity.
    - unfold g2. rewrite update_daemon_status_dialogs. reflexivity. }
  assert (Hpost : (post_init_setup refresh_views initial_json_data is_running g1).2 = g2 /\
                  (exists v, json_loads initial_json_data = Parsed v) \/
                  (post_init_setup refresh_views initial_json_data is_running g1).2 =
                    slot (update_ui refresh_views initial_json_data) g2).
  { unfold post_init_setup, bind, g2, slot. destruct is_running.
    - right. pose proof (update_daemon_status_running g1) as Hok.
      destruct (update_daemon_status _ _ g1) as [[[]|e] g']; [reflexivity|discriminate Hok].
    - destruct (update_daemon_status _ _ g1) as [[[]|e] g']; [right; reflexivity|].
      left. split; [reflexivity|]. by apply Hstopped. }
  destruct H2 as (Hst & Hc & Hd). destruct Hpost as [[Hpost [v Hv]]|Hpost]; rewrite Hpost.
  - rewrite Hv. split; [exact Hst|]. split; [exact Hc|]. exact Hd.
  - rewrite update_ui_state, update_ui_controls, update_ui_dialogs, Hd.
    split; [exact Hst|]. split; [exact Hc|].
    by destruct (json_loads initial_json_data).
Qed.


Lemma reconcile_nothing_live (known : list DeclaredProcessConfig) :
  exists data, reconcile known (VList []) = Ok data /\ data ≡ₚ as_dict <$> known.
Proof.
  pose proof (reconcile_dicts known []) as Hrec. cbn [fmap list_fmap] in Hrec.
  eexists. split; [exact Hrec|].
  rewrite sort_keyed_perm, <- list_fmap_compose. clear Hrec.
  induction known as [|c known IH]; [reflexivity|].
  cbn [fmap list_fmap compose snd find]. unfold merge at 1. cbn [default].
  rewrite (left_id_L ∅ (∪)). constructor. exact IH.
Qed.

(** X9. When a window that is not stopped is told that the
    daemon is down, it stops and its data is replaced by the declared
    configurations alone: no live field of the last refresh survives
    in [all_projects_data]. *)
Theorem stopped_daemon_shows_declarations (g : PM2GUI) :
  daemon_state g <> Some STOPPED ->
  let g' := slot (update_daemon_status refresh_views (PyBool false)) g in
  daemon_state g' = Some STOPPED /\
  all_projects_data g' ≡ₚ as_dict <$> projects g.
Proof.
  intros Hstate. cbn zeta. split; [apply (update_daemon_status_sets refresh_views (PyBool false))|].
  unfold slot, update_daemon_status. rewrite bind_gets.
  destruct (same_state (daemon_state g) (to_state (PyBool false))) eqn:Hsame.
  { apply same_state_true in Hsame. destruct (Hstate Hsame). }
  rewrite !bind_modify. cbn [to_state].
  destruct (reconcile_nothing_live (projects g)) as (data & Hrec & Hperm).
  rewrite <- Hperm.
  match goal with |- all_projects_data (update_ui _ _ ?g0).2 ≡ₚ _ =>
    change (update_ui refresh_views "[]" g0).2 with (slot (update_ui refresh_views "[]") g0);
    rewrite (update_ui_data refresh_views "[]" g0 (VList []) data);
      [reflexivity| |exact Hrec]
  end.
  unfold decoded. rewrite json_loads_empty_list. reflexivity.
Qed.


(** A window over the store [known] whose list shows no name twice. *)
Lemma handle_distinct (known : list DeclaredProcessConfig) (i : Input) (g : PM2GUI) :
  NoDup (cfg_name <$> known) ->
  projects g = known /\ NoDup (item_names (project_list_widget g)) ->
  projects (slot (handle refresh_views i) g) = known /\
  NoDup (item_names (project_list_widget (slot (handle refresh_views i) g))).
Proof.
  intros Hknown.
  assert (Hui : forall payload g0,
            projects g0 = known /\ NoDup (item_names (project_list_widget g0)) ->
            projects (slot (update_ui refresh_views payload) g0) = known /\
            NoDup (item_names (project_list_widget (slot (update_ui refresh_views payload) g0)))).
  { intros payload g0 [Hp Hnd]. split; [rewrite update_ui_projects; exact Hp|].
    apply update_ui_distinct; [rewrite Hp; exact Hknown|exact Hnd]. }
  assert (Hstatus : forall a g0,
            projects g0 = known /\ NoDup (item_names (project_list_widget g0)) ->
            projects (slot (update_daemon_status refresh_views a) g0) = known /\
            NoDup (item_names (project_list_widget
                                 (slot (update_daemon_status refresh_views a) g0)))).
  { intros a g0 Hg0. unfold slot, update_daemon_status. rewrite bind_gets.
    destruct (same_state (daemon_state g0) (to_state a)); [exact Hg0|].
    rewrite !bind_modify. destruct (to_state a); try exact Hg0.
    apply (Hui "[]"). exact Hg0. }
  intros Hg.
  destruct i as [st|[payload|name logs|title message|message|is_running]]; cbn [handle deliver].
  - apply Hstatus, Hg.
  - apply Hui, Hg.
  - exact Hg.
  - exact Hg.
  - exact Hg.
  - apply Hstatus, Hg.
Qed.

(** X10. With distinct declared names the list widget never
    shows a name twice, whatever states the window enters and whatever
    signals and payloads it receives, from its construction on. *)
Theorem list_never_repeats_a_name
    (known_projects : list DeclaredProcessConfig) (inputs : list Input) :
  NoDup (cfg_name <$> known_projects) ->
  NoDup (item_names (project_list_widget
                       (after refresh_views inputs (new_window known_projects)))).
Proof.
  intros Hknown.
  enough (Hinv : forall g,
            projects g = known_projects /\ NoDup (item_names (project_list_widget g)) ->
            projects (after refresh_views inputs g) = known_projects /\
            NoDup (item_names (project_list_widget (after refresh_views inputs g)))).
  { apply Hinv. split; [reflexivity|constructor]. }
  induction inputs as [|i inputs IH]; intros g Hg; [exact Hg|].
  apply IH. apply handle_distinct; assumption.
Qed.

End Facts.

Import Scenarios Cases Reference.

Lemma controls_follow_daemon_state_witness :
  let g := after no_views started (new_window [declared "a"]) in
  controls g = controls_for RUNNING (controls g).
Proof.
  apply (controls_follow_daemon_state no_views [declared "a"] started RUNNING).
  vm_compute. reflexivity.
Defined.

Lemma stopped_daemon_witness :
  let g' := slot (update_daemon_status no_views (PyBool false)) shown_ab in
  daemon_state g' = Some STOPPED /\
  all_projects_data g' ≡ₚ as_dict <$> projects shown_ab.
Proof.
  apply (stopped_daemon_shows_declarations no_views shown_ab).
  vm_compute. discriminate.
Defined.

Lemma list_never_repeats_witness :
  NoDup (item_names (project_list_widget
                       (after no_views started (new_window [declared "a"; declared "b"])))).
Proof.
  apply (list_never_repeats_a_name no_views [declared "a"; declared "b"] started).
  apply (@bool_decide_unpack _ (NoDup_dec _)). vm_compute. exact I.
Defined.

End WindowFacts.

Module ManagerFacts.
Import View Manager MonadFacts.
Local Open Scope list_scope.

Lemma py_eq_str (v : PyVal) (s : string) :
  py_eq v (VStr s) = has_name s {[ "name" := v ]}.
Proof.
  unfold has_name. rewrite lookup_singleton_eq. destruct v; reflexivity.
Qed.

Lemma py_eq_text (a b : string) : py_eq (VStr a) (VStr b) = String.eqb a b.
Proof. reflexivity. Qed.

Lemma has_name_eqb (n k : string) (d : Dict) :
  d !! "name" = Some (VStr k) -> has_name n d = String.eqb k n.
Proof. intros Hd. unfold has_name. rewrite Hd. reflexivity. Qed.

Section Named.
Context (n : string).

Lemma any_named_spec (ds : list Dict) (names : list string) :
  Forall2 (fun d k => d !! "name" = Some (VStr k)) ds names ->
  any_named (VStr n) (VDict <$> ds) = Ok (bool_decide (n ∈ names)).
Proof.
  induction 1 as [|d k ds names Hd _ IH]; [reflexivity|].
  cbn [fmap list_fmap any_named name_of]. change (list_fmap _ _ VDict ds) with (VDict <$> ds).
  rewrite Hd, py_eq_text. destruct (String.eqb k n) eqn:Hk.
  - apply String.eqb_eq in Hk as ->. rewrite bool_decide_eq_true_2 by left. reflexivity.
  - rewrite IH. apply String.eqb_neq in Hk. f_equal.
    apply bool_decide_ext. rewrite elem_of_cons.
    split; [intros Hin; right; exact Hin|intros [->|Hin]; [destruct (Hk eq_refl)|exact Hin]].
Qed.

Lemma first_named_spec (ds : list Dict) (names : list string) :
  Forall2 (fun d k => d !! "name" = Some (VStr k)) ds names ->
  first_named (VStr n) (VDict <$> ds) = Ok (find (has_name n) ds).
Proof.
  induction 1 as [|d k ds names Hd _ IH]; [reflexivity|].
  cbn [fmap list_fmap first_named find]. change (list_fmap _ _ VDict ds) with (VDict <$> ds).
  rewrite (has_name_eqb n k d Hd), Hd, py_eq_text.
  destruct (String.eqb k n); [reflexivity|exact IH].
Qed.

Lemma others_spec (ds : list Dict) (names : list string) :
  Forall2 (fun d k => d !! "name" = Some (VStr k)) ds names ->
  others (VStr n) (VDict <$> ds) =
    Ok (VDict <$> List.filter (fun d => negb (has_name n d)) ds).
Proof.
  induction 1 as [|d k ds names Hd _ IH]; [reflexivity|].
  cbn [fmap list_fmap others name_of List.filter].
  change (list_fmap _ _ VDict ds) with (VDict <$> ds).
  rewrite (has_name_eqb n k d Hd), Hd, IH, py_eq_text.
  destruct (String.eqb k n); reflexivity.
Qed.

End Named.

Lemma names_of_holds (ds : list Dict) (names : list string) :
  Forall2 (fun d k => d !! "name" = Some (VStr k)) ds names ->
  forall n, n ∈ names <-> exists d, d ∈ ds /\ has_name n d = true.
Proof.
  induction 1 as [|d k ds names Hd _ IH]; intros n.
  - split; [intros Hin; apply elem_of_nil in Hin; destruct Hin|].
    intros (d & Hin & _). apply elem_of_nil in Hin. destruct Hin.
  - rewrite elem_of_cons, IH. split.
    + intros [->|(d' & Hin & Hn)].
      * exists d. split; [left|]. rewrite (has_name_eqb k k d Hd). apply String.eqb_refl.
      * exists d'. split; [right; exact Hin|exact Hn].
    + intros (d' & Hin & Hn). apply elem_of_cons in Hin as [->|Hin].
      * left. rewrite (has_name_eqb n k d Hd) in Hn. apply String.eqb_eq in Hn. congruence.
      * right. exists d'. split; assumption.
Qed.

Lemma filter_others_length (n : string) (ds : list Dict) (names : list string) :
  Forall2 (fun d k => d !! "name" = Some (VStr k)) ds names ->
  (List.length (List.filter (fun d => negb (has_name n d)) ds) <? List.length ds)%nat =
    bool_decide (n ∈ names) /\
  (n ∉ names -> List.filter (fun d => negb (has_name n d)) ds = ds).
Proof.
  induction 1 as [|d k ds names Hd _ [IHlen IHeq]].
  - split; [|reflexivity]. rewrite bool_decide_eq_false_2 by apply not_elem_of_nil. reflexivity.
  - cbn [List.filter]. rewrite (has_name_eqb n k d Hd).
    pose proof (List.filter_length_le (fun d => negb (has_name n d)) ds) as Hle.
    destruct (String.eqb k n) eqn:Hk; cbn [negb List.length].
    + apply String.eqb_eq in Hk as ->. split.
      * rewrite bool_decide_eq_true_2 by left. apply Nat.ltb_lt. lia.
      * intros Hn. destruct Hn. left.
    + apply String.eqb_neq in Hk. split.
      * change (S ?a <? S ?b)%nat with (a <? b)%nat. rewrite IHlen.
        apply bool_decide_ext. rewrite elem_of_cons.
        split; [intros Hin; right; exact Hin|intros [->|Hin]; [destruct (Hk eq_refl)|exact Hin]].
      * intros Hn. rewrite IHeq; [reflexivity|].
        intros Hin. apply Hn. right. exact Hin.
Qed.

Lemma filter_others_holds (n : string) (ds : list Dict) (names : list string) :
  Forall2 (fun d k => d !! "name" = Some (VStr k)) ds names ->
  Forall2 (fun d k => d !! "name" = Some (VStr k))
    (List.filter (fun d => negb (has_name n d)) ds)
    (List.filter (fun k => negb (String.eqb k n)) names).
Proof.
  induction 1 as [|d k ds names Hd _ IH]; [constructor|].
  cbn [List.filter]. rewrite (has_name_eqb n k d Hd).
  destruct (String.eqb k n); cbn [negb]; [exact IH|constructor; assumption].
Qed.

Lemma rewrite_none (old : string) (new_data : Dict) (ds : list Dict) (names : list string) :
  Forall2 (fun d k => d !! "name" = Some (VStr k)) ds names ->
  old ∉ names ->
  (fun d => if has_name old d then new_data else d) <$> ds = ds.
Proof.
  induction 1 as [|d k ds names Hd _ IH]; intros Hold; [reflexivity|].
  cbn [fmap list_fmap]. rewrite (has_name_eqb old k d Hd).
  destruct (String.eqb k old) eqn:Hk.
  - apply String.eqb_eq in Hk as ->. destruct Hold. left.
  - f_equal. apply IH. intros Hin. apply Hold. right. exact Hin.
Qed.

Lemma rewrite_first_spec (old : string) (new_data : Dict) (ds : list Dict)
    (names : list string) :
  Forall2 (fun d k => d !! "name" = Some (VStr k)) ds names ->
  NoDup names ->
  rewrite_first (VStr old) new_data (VDict <$> ds) =
    VDict <$> ((fun d => if has_name old d then new_data else d) <$> ds).
Proof.
  induction 1 as [|d k ds names Hd Hall IH]; intros Hnd; [reflexivity|].
  apply NoDup_cons in Hnd as [Hk Hnd].
  cbn [fmap list_fmap rewrite_first].
  change (list_fmap _ _ VDict ds) with (VDict <$> ds).
  change (list_fmap _ _ ?f ds) with (f <$> ds).
  rewrite (has_name_eqb old k d Hd), Hd, py_eq_text.
  destruct (String.eqb k old) eqn:Hko.
  - apply String.eqb_eq in Hko as ->.
    rewrite (rewrite_none old new_data ds names Hall Hk). reflexivity.
  - f_equal. apply IH, Hnd.
Qed.

Lemma eta (m : ProjectManager) : {| projects := projects m; dumped := dumped m |} = m.
Proof. destruct m; reflexivity. Qed.

(** What the three operations do on a store the application wrote. *)
Lemma add_project_spec (m : ProjectManager) (ds : list Dict) (names : list string)
    (name path script : string) :
  holds m ds names ->
  add_project name path script m =
    if bool_decide (name ∈ names) then (Ok false, m)
    else
      let l := VList (VDict <$> (ds ++ [new_project name path script])) in
      (Ok true, {| projects := l; dumped := dumped m ++ [l] |}).
Proof.
  intros [Hp Hnames]. unfold add_project.
  rewrite bind_gets, Hp. cbn [py_iter]. rewrite bind_lift_ok.
  rewrite (any_named_spec name ds names Hnames), bind_lift_ok.
  destruct (bool_decide (name ∈ names)); [reflexivity|].
  rewrite bind_modify. unfold save_projects. rewrite bind_modify.
  cbn. rewrite fmap_app. reflexivity.
Qed.

Lemma remove_project_spec (m : ProjectManager) (ds : list Dict) (names : list string)
    (n : string) :
  holds m ds names ->
  remove_project n m =
    if bool_decide (n ∈ names) then
      let l := VList (VDict <$> List.filter (fun d => negb (has_name n d)) ds) in
      (Ok true, {| projects := l; dumped := dumped m ++ [l] |})
    else (Ok false, m).
Proof.
  intros [Hp Hnames]. unfold remove_project.
  rewrite bind_gets, Hp. cbn [py_iter]. rewrite bind_lift_ok.
  rewrite (others_spec n ds names Hnames), bind_lift_ok, bind_modify.
  rewrite !length_fmap.
  destruct (filter_others_length n ds names Hnames) as [-> Heq].
  destruct (bool_decide (n ∈ names)) eqn:Hin.
  - unfold save_projects. rewrite bind_modify. reflexivity.
  - apply bool_decide_eq_false in Hin. rewrite (Heq Hin). cbn.
    unfold set_projects. rewrite <- Hp. rewrite eta. reflexivity.
Qed.

Lemma find_project_spec (m : ProjectManager) (ds : list Dict) (names : list string)
    (n : string) :
  holds m ds names ->
  find_project n m = (Ok (find (has_name n) ds), m).
Proof.
  intros [Hp Hnames]. unfold find_project.
  rewrite bind_gets, Hp. cbn [py_iter]. rewrite bind_lift_ok.
  rewrite (first_named_spec n ds names Hnames). reflexivity.
Qed.

Lemma find_named (ds : list Dict) (names : list string) (n : string) :
  Forall2 (fun d k => d !! "name" = Some (VStr k)) ds names ->
  match find (has_name n) ds with
  | Some d => n ∈ names /\ d ∈ ds /\ d !! "name" = Some (VStr n)
  | None => n ∉ names
  end.
Proof.
  induction 1 as [|d k ds names Hd _ IH]; cbn [find]; [apply not_elem_of_nil|].
  rewrite (has_name_eqb n k d Hd). destruct (String.eqb k n) eqn:Hk.
  - apply String.eqb_eq in Hk as ->. split; [left|]. split; [left|exact Hd].
  - apply String.eqb_neq in Hk. destruct (find (has_name n) ds) as [d'|].
    + destruct IH as (Hin & Hd' & Hn). split; [right; exact Hin|]. split; [right; exact Hd'|exact Hn].
    + intros Hin. apply elem_of_cons in Hin as [->|Hin]; [exact (Hk eq_refl)|exact (IH Hin)].
Qed.

Lemma named_truthy (d : Dict) (v : PyVal) : d !! "name" = Some v -> py_bool (VDict d) = true.
Proof.
  intros Hd. cbn. rewrite bool_decide_eq_false_2; [reflexivity|].
  intros ->. rewrite lookup_empty in Hd. discriminate Hd.
Qed.

Lemma update_project_spec (m : ProjectManager) (ds : list Dict) (names : list string)
    (old new : string) (new_data : Dict) :
  holds m ds names ->
  NoDup names ->
  new_data !! "name" = Some (VStr new) ->
  update_project old new_data m =
    if String.eqb new EmptyString
       || (negb (String.eqb old new) && bool_decide (new ∈ names))
       || negb (bool_decide (old ∈ names))
    then (Ok false, m)
    else
      let l := VList (VDict <$> ((fun d => if has_name old d then new_data else d) <$> ds)) in
      (Ok true, {| projects := l; dumped := dumped m ++ [l] |}).
Proof.
  intros Hm Hnd Hnew. pose proof Hm as [Hp Hnames]. unfold update_project.
  rewrite Hnew. cbn [default from_option id].
  change (py_bool (VStr new)) with (negb (String.eqb new EmptyString)).
  rewrite negb_involutive.
  destruct (String.eqb new EmptyString); [reflexivity|]. cbn [orb].
  rewrite bind_gets, py_eq_text.
  destruct (String.eqb old new) eqn:Hon; cbn [negb andb orb].
  - rewrite bind_ret. cbv beta iota.
    unfold bind at 1. rewrite (find_project_spec m ds names old Hm).
    pose proof (find_named ds names old Hnames) as Hfind.
    destruct (find (has_name old) ds) as [d|].
    + destruct Hfind as (Hin & _ & Hd). rewrite (named_truthy d _ Hd).
      rewrite (bool_decide_eq_true_2 _ Hin). cbn [negb].
      rewrite bind_modify. unfold save_projects. rewrite bind_modify.
      rewrite Hp. cbn [rewritten]. rewrite (rewrite_first_spec old new_data ds names Hnames Hnd).
      reflexivity.
    + rewrite (bool_decide_eq_false_2 _ Hfind). reflexivity.
  - rewrite Hp. cbn [py_iter]. unfold bind at 2. cbn [lift].
    rewrite (any_named_spec new ds names Hnames). unfold bind at 1. cbn [lift].
    destruct (bool_decide (new ∈ names)); [reflexivity|]. cbn [orb].
    rewrite <- Hp. unfold bind at 1. rewrite (find_project_spec m ds names old Hm).
    pose proof (find_named ds names old Hnames) as Hfind.
    destruct (find (has_name old) ds) as [d|].
    + destruct Hfind as (Hin & _ & Hd). rewrite (named_truthy d _ Hd).
      rewrite (bool_decide_eq_true_2 _ Hin). cbn [negb].
      rewrite bind_modify. unfold save_projects. rewrite bind_modify.
      rewrite Hp. cbn [rewritten]. rewrite (rewrite_first_spec old new_data ds names Hnames Hnd).
      reflexivity.
    + rewrite (bool_decide_eq_false_2 _ Hfind). reflexivity.
Qed.

Lemma update_project_nameless (m : ProjectManager) (old : string) (new_data : Dict) :
  new_data !! "name" = None -> update_project old new_data m = (Ok false, m).
Proof. intros Hnew. unfold update_project. rewrite Hnew. reflexivity. Qed.

Lemma holds_app (m : ProjectManager) (ds : list Dict) (names : list string)
    (d : Dict) (n : string) (log : list PyVal) :
  holds m ds names ->
  d !! "name" = Some (VStr n) ->
  holds {| projects := VList (VDict <$> (ds ++ [d])); dumped := log |} (ds ++ [d]) (names ++ [n]).
Proof.
  intros [_ Hnames] Hd. split; [reflexivity|].
  apply Forall2_app; [exact Hnames|]. constructor; [exact Hd|constructor].
Qed.

Lemma find_append {A} (f : A -> bool) (l k : list A) :
  find f (l ++ k) = match find f l with Some x => Some x | None => find f k end.
Proof.
  induction l as [|a l IH]; [reflexivity|]. cbn [app find].
  destruct (f a); [reflexivity|exact IH].
Qed.

Lemma find_app_new (ds : list Dict) (names : list string) (d : Dict) (n : string) :
  Forall2 (fun d k => d !! "name" = Some (VStr k)) ds names ->
  n ∉ names ->
  d !! "name" = Some (VStr n) ->
  find (has_name n) (ds ++ [d]) = Some d.
Proof.
  intros Hnames Hn Hd. pose proof (find_named ds names n Hnames) as Hfind.
  rewrite find_append. destruct (find (has_name n) ds) as [d'|].
  - destruct Hfind as [Hin _]. destruct (Hn Hin).
  - cbn [find]. rewrite (has_name_eqb n n d Hd), String.eqb_refl. reflexivity.
Qed.

(** X11. On a store of named projects, [add_project] with a
    name already there returns [False] and changes nothing, not memory
    and not the file. With a new name it returns [True], the new
    project comes last with its five fields, and [find_project] finds
    it under its name. *)
Theorem add_project_refuses_duplicates
    (m : ProjectManager) (ds : list Dict) (names : list string) (name path script : string) :
  holds m ds names ->
  let m' := (add_project name path script m).2 in
  if decide (name ∈ names) then add_project name path script m = (Ok false, m)
  else
    (add_project name path script m).1 = Ok true /\
    holds m' (ds ++ [new_project name path script]) (names ++ [name]) /\
    (find_project name m').1 = Ok (Some (new_project name path script)).
Proof.
  intros Hm. cbn zeta. rewrite (add_project_spec m ds names name path script Hm).
  destruct (decide (name ∈ names)) as [Hin|Hnin].
  - rewrite (bool_decide_eq_true_2 _ Hin). reflexivity.
  - rewrite (bool_decide_eq_false_2 _ Hnin). cbn [fst snd].
    assert (Hnew : new_project name path script !! "name" = Some (VStr name)) by reflexivity.
    pose proof (holds_app m ds names _ name
                  (dumped m ++ [VList (VDict <$> (ds ++ [new_project name path script]))])
                  Hm Hnew) as Hm'.
    split; [reflexivity|]. split; [exact Hm'|].
    rewrite (find_project_spec _ _ _ name Hm'). cbn [fst].
    destruct Hm as [_ Hnames]. rewrite (find_app_new ds names _ name Hnames Hnin Hnew).
    reflexivity.
Qed.

Lemma find_filter_others (n k : string) (ds : list Dict) (names : list string) :
  Forall2 (fun d k => d !! "name" = Some (VStr k)) ds names ->
  find (has_name k) (List.filter (fun d => negb (has_name n d)) ds) =
    if String.eqb k n then None else find (has_name k) ds.
Proof.
  induction 1 as [|d j ds names Hd _ IH]; [destruct (String.eqb k n); reflexivity|].
  cbn [List.filter find]. rewrite (has_name_eqb n j d Hd), (has_name_eqb k j d Hd).
  destruct (String.eqb j n) eqn:Hjn; cbn [negb].
  - rewrite IH. apply String.eqb_eq in Hjn as ->.
    rewrite (String.eqb_sym n k). destruct (String.eqb k n); reflexivity.
  - cbn [find]. rewrite (has_name_eqb k j d Hd), IH.
    destruct (String.eqb j k) eqn:Hjk; [|reflexivity].
    apply String.eqb_eq in Hjk as ->. rewrite Hjn. reflexivity.
Qed.

(** X12. On a store of named projects, [remove_project] returns
    whether a project had the name; afterwards [find_project] finds
    nothing under that name, and finds under every other name what it
    found before: the other projects are kept, in their order. *)
Theorem remove_project_forgets
    (m : ProjectManager) (ds : list Dict) (names : list string) (project_name : string) :
  holds m ds names ->
  let m' := (remove_project project_name m).2 in
  (remove_project project_name m).1 = Ok (bool_decide (project_name ∈ names)) /\
  holds m' (List.filter (fun d => negb (has_name project_name d)) ds)
           (List.filter (fun k => negb (String.eqb k project_name)) names) /\
  (find_project project_name m').1 = Ok None /\
  forall k, k <> project_name -> (find_project k m').1 = (find_project k m).1.
Proof.
  intros Hm. cbn zeta. pose proof Hm as [Hp Hnames].
  pose proof (filter_others_holds project_name ds names Hnames) as Hkept.
  pose proof (filter_others_length project_name ds names Hnames) as [_ Hsame].
  pose proof (remove_project_spec m ds names project_name Hm) as Hspec.
  set (m' := (remove_project project_name m).2).
  assert (Hm' : holds m' (List.filter (fun d => negb (has_name project_name d)) ds)
                  (List.filter (fun k => negb (String.eqb k project_name)) names)).
  { unfold m'. rewrite Hspec.
    destruct (bool_decide (project_name ∈ names)) eqn:Hin; cbn [snd].
    - split; [reflexivity|exact Hkept].
    - apply bool_decide_eq_false in Hin. split; [|exact Hkept].
      rewrite (Hsame Hin). exact Hp. }
  split; [rewrite Hspec; destruct (bool_decide _); reflexivity|]. split; [exact Hm'|].
  split.
  - rewrite (find_project_spec _ _ _ project_name Hm'). cbn [fst].
    rewrite (find_filter_others project_name project_name ds names Hnames), String.eqb_refl.
    reflexivity.
  - intros k Hk. rewrite (find_project_spec _ _ _ k Hm'), (find_project_spec _ _ _ k Hm).
    cbn [fst]. rewrite (find_filter_others project_name k ds names Hnames).
    apply String.eqb_neq in Hk. rewrite Hk. reflexivity.
Qed.

Section Rename.
Context (old new : string) (new_data : Dict) (Hnew : new_data !! "name" = Some (VStr new)).

Let rewrite_dict (d : Dict) : Dict := if has_name old d then new_data else d.
Let rename (k : string) : string := if String.eqb k old then new else k.

Lemma rename_holds (ds : list Dict) (names : list string) :
  Forall2 (fun d k => d !! "name" = Some (VStr k)) ds names ->
  Forall2 (fun d k => d !! "name" = Some (VStr k)) (rewrite_dict <$> ds) (rename <$> names).
Proof.
  induction 1 as [|d k ds names Hd _ IH]; [constructor|].
  cbn [fmap list_fmap]. constructor; [|exact IH].
  unfold rewrite_dict, rename. rewrite (has_name_eqb old k d Hd).
  destruct (String.eqb k old); assumption.
Qed.

Lemma rename_nodup (names : list string) :
  NoDup names -> new = old \/ new ∉ names -> NoDup (rename <$> names).
Proof.
  intros Hnd Hfree. apply NoDup_fmap_2_strong; [|exact Hnd].
  intros a b Ha Hb. unfold rename.
  destruct (String.eqb a old) eqn:Hao, (String.eqb b old) eqn:Hbo.
  - apply String.eqb_eq in Hao, Hbo. congruence.
  - apply String.eqb_eq in Hao. apply String.eqb_neq in Hbo. intros <-.
    destruct Hfree as [Hfree|Hfree]; [destruct (Hbo Hfree)|destruct (Hfree Hb)].
  - apply String.eqb_neq in Hao. apply String.eqb_eq in Hbo. intros ->.
    destruct Hfree as [Hfree|Hfree]; [destruct (Hao Hfree)|destruct (Hfree Ha)].
  - auto.
Qed.

Lemma find_renamed (ds : list Dict) (names : list string) :
  Forall2 (fun d k => d !! "name" = Some (VStr k)) ds names ->
  old ∈ names ->
  new = old \/ new ∉ names ->
  find (has_name new) (rewrite_dict <$> ds) = Some new_data.
Proof.
  induction 1 as [|d k ds names Hd _ IH]; intros Hold Hfree.
  - apply elem_of_nil in Hold. destruct Hold.
  - cbn [fmap list_fmap find].
    assert (Hrd : rewrite_dict d = if String.eqb k old then new_data else d)
      by (unfold rewrite_dict; rewrite (has_name_eqb old k d Hd); reflexivity).
    rewrite Hrd. clear Hrd. destruct (String.eqb k old) eqn:Hko.
    + rewrite (has_name_eqb new new new_data Hnew), String.eqb_refl. reflexivity.
    + apply String.eqb_neq in Hko. rewrite (has_name_eqb new k d Hd).
      destruct (String.eqb k new) eqn:Hkn.
      * apply String.eqb_eq in Hkn as ->.
        destruct Hfree as [->|Hfree]; [destruct (Hko eq_refl)|destruct Hfree; left].
      * apply IH.
        -- apply elem_of_cons in Hold as [->|Hold]; [destruct (Hko eq_refl)|exact Hold].
        -- destruct Hfree as [->|Hfree]; [left; reflexivity|].
           right. intros Hin. apply Hfree. right. exact Hin.
Qed.

Lemma find_not_renamed (k : string) (ds : list Dict) (names : list string) :
  Forall2 (fun d k => d !! "name" = Some (VStr k)) ds names ->
  k <> old -> k <> new ->
  find (has_name k) (rewrite_dict <$> ds) = find (has_name k) ds.
Proof.
  intros Hall Hko Hkn. induction Hall as [|d j ds names Hd _ IH]; [reflexivity|].
  cbn [fmap list_fmap find].
  assert (Hrd : rewrite_dict d = if String.eqb j old then new_data else d)
    by (unfold rewrite_dict; rewrite (has_name_eqb old j d Hd); reflexivity).
  rewrite Hrd, (has_name_eqb k j d Hd). clear Hrd.
  destruct (String.eqb j old) eqn:Hjo.
  - apply String.eqb_eq in Hjo as ->.
    rewrite (has_name_eqb k new new_data Hnew).
    assert (String.eqb new k = false) as -> by (apply String.eqb_neq; congruence).
    assert (String.eqb old k = false) as -> by (apply String.eqb_neq; congruence).
    exact IH.
  - rewrite (has_name_eqb k j d Hd). destruct (String.eqb j k); [reflexivity|exact IH].
Qed.

End Rename.

(** X13. On a store of distinctly named projects,
    [update_project] with new data named by text is accepted exactly
    when the new name is not empty, a project has the old name, and
    the new name is the old one or not taken. When accepted it returns
    [True], the project is replaced in place by the new data, names
    stay distinct, [find_project] finds the new data under the new
    name and every other project as before. When refused it returns
    [False] and changes nothing. *)
Theorem update_project_renames
    (m : ProjectManager) (ds : list Dict) (names : list string)
    (old_name new_name : string) (new_data : Dict) :
  holds m ds names ->
  NoDup names ->
  new_data !! "name" = Some (VStr new_name) ->
  let m' := (update_project old_name new_data m).2 in
  let accepted :=
    new_name <> EmptyString /\ old_name ∈ names /\
    (new_name = old_name \/ new_name ∉ names) in
  (accepted ->
     (update_project old_name new_data m).1 = Ok true /\
     holds m' ((fun d => if has_name old_name d then new_data else d) <$> ds)
              ((fun k => if String.eqb k old_name then new_name else k) <$> names) /\
     NoDup ((fun k => if String.eqb k old_name then new_name else k) <$> names) /\
     (find_project new_name m').1 = Ok (Some new_data) /\
     forall k, k <> old_name -> k <> new_name ->
       (find_project k m').1 = (find_project k m).1) /\
  (~ accepted -> update_project old_name new_data m = (Ok false, m)).
Proof.
  intros Hm Hnd Hnew. cbn zeta. pose proof Hm as [Hp Hnames].
  pose proof (update_project_spec m ds names old_name new_name new_data Hm Hnd Hnew) as Hspec.
  set (m' := (update_project old_name new_data m).2).
  split.
  - intros (Hne & Hold & Hfree).
    assert (Hcond : String.eqb new_name EmptyString
                    || (negb (String.eqb old_name new_name) && bool_decide (new_name ∈ names))
                    || negb (bool_decide (old_name ∈ names)) = false).
    { apply String.eqb_neq in Hne. rewrite Hne, (bool_decide_eq_true_2 _ Hold). cbn [orb negb].
      rewrite orb_false_r. destruct Hfree as [->|Hfree].
      - rewrite String.eqb_refl. reflexivity.
      - rewrite (bool_decide_eq_false_2 _ Hfree). apply andb_false_r. }
    rewrite Hcond in Hspec.
    assert (Hm' : holds m' ((fun d => if has_name old_name d then new_data else d) <$> ds)
                    ((fun k => if String.eqb k old_name then new_name else k) <$> names)).
    { unfold m'. rewrite Hspec. split; [reflexivity|].
      apply rename_holds; assumption. }
    split; [rewrite Hspec; reflexivity|]. split; [exact Hm'|].
    split; [apply rename_nodup; assumption|]. split.
    + rewrite (find_project_spec _ _ _ new_name Hm'). cbn [fst].
      rewrite (find_renamed old_name new_name new_data Hnew ds names Hnames Hold Hfree).
      reflexivity.
    + intros k Hko Hkn.
      rewrite (find_project_spec _ _ _ k Hm'), (find_project_spec _ _ _ k Hm). cbn [fst].
      rewrite (find_not_renamed old_name new_name new_data Hnew k ds names Hnames Hko Hkn).
      reflexivity.
  - intros Hrefused. rewrite Hspec.
    destruct (String.eqb new_name EmptyString) eqn:Hne; [reflexivity|].
    apply String.eqb_neq in Hne. cbn [orb].
    destruct (bool_decide (old_name ∈ names)) eqn:Hold;
      [|rewrite orb_true_r; reflexivity].
    apply bool_decide_eq_true in Hold. cbn [negb]. rewrite orb_false_r.
    destruct (String.eqb old_name new_name) eqn:Hon.
    + apply String.eqb_eq in Hon. destruct Hrefused. repeat split; auto.
    + destruct (bool_decide (new_name ∈ names)) eqn:Htaken; [reflexivity|].
      apply bool_decide_eq_false in Htaken. destruct Hrefused. repeat split; auto.
Qed.

Lemma elem_of_filtered {A} (f : A -> bool) (l : list A) (x : A) :
  x ∈ List.filter f l -> x ∈ l.
Proof.
  induction l as [|a l IH]; cbn [List.filter]; [auto|].
  destruct (f a); [|right; auto].
  intros Hin. apply elem_of_cons in Hin as [->|Hin]; [left|right; auto].
Qed.

Lemma nodup_filtered {A} (f : A -> bool) (l : list A) :
  NoDup l -> NoDup (List.filter f l).
Proof.
  induction 1 as [|a l Ha _ IH]; cbn [List.filter]; [constructor|].
  destruct (f a); [|exact IH].
  constructor; [|exact IH]. intros Hin. apply Ha, (elem_of_filtered f), Hin.
Qed.

(** One call on a store with distinct names: it returns, the names stay
    distinct, and the list is saved exactly when it changed. *)
Lemma call_keeps (c : Call) (m : ProjectManager) (ds : list Dict) (names : list string) :
  holds m ds names -> NoDup names -> text_name c ->
  exists (b : bool) (ds' : list Dict) (names' : list string),
    (call c m).1 = Ok b /\
    holds (call c m).2 ds' names' /\
    NoDup names' /\
    if b then dumped (call c m).2 = dumped m ++ [projects (call c m).2]
    else (call c m).2 = m.
Proof.
  intros Hm Hnd Htext. pose proof Hm as [Hp Hnames].
  destruct c as [name path script|project_name|old_name new_data]; cbn [call].
  - rewrite (add_project_spec m ds names name path script Hm).
    destruct (bool_decide (name ∈ names)) eqn:Hin.
    + exists false, ds, names. auto.
    + apply bool_decide_eq_false in Hin.
      exists true, (ds ++ [new_project name path script]), (names ++ [name]).
      split; [reflexivity|]. split; [apply (holds_app m); [exact Hm|reflexivity]|].
      split; [|reflexivity].
      apply NoDup_app. split; [exact Hnd|]. split; [|apply NoDup_singleton].
      intros k Hk Hk'. apply list_elem_of_singleton in Hk'. subst k. exact (Hin Hk).
  - rewrite (remove_project_spec m ds names project_name Hm).
    destruct (bool_decide (project_name ∈ names)) eqn:Hin.
    + eexists true, _, _. split; [reflexivity|].
      split; [split; [reflexivity|apply filter_others_holds, Hnames]|].
      split; [apply nodup_filtered, Hnd|reflexivity].
    + exists false, ds, names. auto.
  - cbn [text_name] in Htext.
    destruct (new_data !! "name") as [[| | |new_name| |]|] eqn:Hnew; try destruct Htext.
    + rewrite (update_project_spec m ds names old_name new_name new_data Hm Hnd Hnew).
      destruct (String.eqb new_name EmptyString
                || (negb (String.eqb old_name new_name) && bool_decide (new_name ∈ names))
                || negb (bool_decide (old_name ∈ names))) eqn:Hcond.
      * exists false, ds, names. auto.
      * apply orb_false_elim in Hcond as [Hcond Hold].
        apply orb_false_elim in Hcond as [_ Htaken].
        apply negb_false_iff, bool_decide_eq_true in Hold.
        eexists true, _, _. split; [reflexivity|].
        split; [split; [reflexivity|apply (rename_holds old_name new_name new_data Hnew), Hnames]|].
        split; [|reflexivity].
        apply rename_nodup; [exact Hnd|].
        apply andb_false_iff in Htaken as [Hsame|Hfree].
        -- left. apply negb_false_iff, String.eqb_eq in Hsame. congruence.
        -- right. apply bool_decide_eq_false in Hfree. exact Hfree.
    + rewrite (update_project_nameless m old_name new_data Hnew).
      exists false, ds, names. auto.
Qed.

(** X14. Starting from a store of distinctly named projects,
    every call of [add_project], [remove_project] and [update_project]
    returns, in any number and order, and the store stays a list of
    distinctly named projects: the uniqueness of names the window
    relies on is an invariant of the store. *)
Theorem store_keeps_distinct_names
    (cs : list Call) (m : ProjectManager) (ds : list Dict) (names : list string) :
  holds m ds names ->
  NoDup names ->
  Forall text_name cs ->
  exists (ds' : list Dict) (names' : list string),
    Forall (fun r => exists b : bool, r = Ok b) (calls cs m).1 /\
    holds (calls cs m).2 ds' names' /\
    NoDup names'.
Proof.
  intros Hm Hnd Hcs. revert m ds names Hm Hnd.
  induction Hcs as [|c cs Hc _ IH]; intros m ds names Hm Hnd.
  - exists ds, names. split; [constructor|]. split; assumption.
  - destruct (call_keeps c m ds names Hm Hnd Hc) as (b & ds1 & names1 & Hr & Hm1 & Hnd1 & _).
    cbn [calls]. destruct (call c m) as [r m1]. cbn [fst snd] in Hr, Hm1. subst r.
    destruct (IH m1 ds1 names1 Hm1 Hnd1) as (ds2 & names2 & Hrs & Hm2 & Hnd2).
    destruct (calls cs m1) as [rs m2]. cbn [fst snd] in *.
    exists ds2, names2. split; [constructor; [eauto|exact Hrs]|]. split; assumption.
Qed.

(** X15. On such a store a call that returns [True] has handed
    to [json.dump] exactly the list it leaves in memory, as its last
    write; a call that returns [False] has written nothing and left the
    store as it was. Memory and file cannot drift apart through these
    calls. *)
Theorem changes_reach_the_file
    (c : Call) (m : ProjectManager) (ds : list Dict) (names : list string) :
  holds m ds names ->
  NoDup names ->
  text_name c ->
  exists b : bool,
    (call c m).1 = Ok b /\
    if b then dumped (call c m).2 = dumped m ++ [projects (call c m).2]
    else (call c m).2 = m.
Proof.
  intros Hm Hnd Hc.
  destruct (call_keeps c m ds names Hm Hnd Hc) as (b & _ & _ & Hr & _ & _ & Hsaved).
  exists b. split; assumption.
Qed.

Lemma others_nameless (n : string) (ds : list Dict) (d : Dict) :
  d ∈ ds -> d !! "name" = None ->
  others (VStr n) (VDict <$> ds) = Raise (KeyError "name").
Proof.
  intros Hin Hd. induction ds as [|d0 ds IH]; [apply elem_of_nil in Hin; destruct Hin|].
  cbn [fmap list_fmap others name_of]. change (list_fmap _ _ VDict ds) with (VDict <$> ds).
  destruct (d0 !! "name") as [v|] eqn:Hd0; [|reflexivity].
  rewrite IH; [reflexivity|].
  apply elem_of_cons in Hin as [->|Hin]; [congruence|exact Hin].
Qed.

(** X16. A store that holds an entry without a ['name'] (from
    a file edited by hand, say) cannot be cleaned through the
    application: [remove_project] raises [KeyError] for every name,
    that of a sound project included, and changes nothing. *)
Theorem nameless_entry_blocks_removal
    (m : ProjectManager) (ds : list Dict) (d : Dict) (project_name : string) :
  projects m = VList (VDict <$> ds) ->
  d ∈ ds ->
  d !! "name" = None ->
  remove_project project_name m = (Raise (KeyError "name"), m).
Proof.
  intros Hp Hin Hd. unfold remove_project.
  rewrite bind_gets, Hp. cbn [py_iter]. rewrite bind_lift_ok.
  rewrite (others_nameless project_name ds d Hin Hd). reflexivity.
Qed.

Import Cases.

Ltac store_holds := split; [reflexivity|repeat constructor].
Ltac store_distinct := apply (@bool_decide_unpack _ (NoDup_dec _)); vm_compute; exact I.

Lemma add_project_witness :
  let m' := (add_project "api" "/srv" "main.js" store).2 in
  if decide ("api" ∈ ["api"; "web"]) then
    add_project "api" "/srv" "main.js" store = (Ok false, store)
  else
    (add_project "api" "/srv" "main.js" store).1 = Ok true /\
    holds m' ([project "api"; project "web"] ++ [new_project "api" "/srv" "main.js"])
      (["api"; "web"] ++ ["api"]) /\
    (find_project "api" m').1 = Ok (Some (new_project "api" "/srv" "main.js")).
Proof.
  apply (add_project_refuses_duplicates store [project "api"; project "web"] ["api"; "web"]
           "api" "/srv" "main.js").
  store_holds.
Defined.

Lemma remove_project_witness :
  let m' := (remove_project "web" store).2 in
  (remove_project "web" store).1 = Ok (bool_decide ("web" ∈ ["api"; "web"])) /\
  holds m' (List.filter (fun d => negb (has_name "web" d)) [project "api"; project "web"])
           (List.filter (fun k => negb (String.eqb k "web")) ["api"; "web"]) /\
  (find_project "web" m').1 = Ok None /\
  forall k, k <> "web" -> (find_project k m').1 = (find_project k store).1.
Proof.
  apply (remove_project_forgets store [project "api"; project "web"] ["api"; "web"] "web").
  store_holds.
Defined.

Lemma update_project_witness :
  let m' := (update_project "web" renamed store).2 in
  let accepted :=
    "site" <> EmptyString /\ "web" ∈ ["api"; "web"] /\
    ("site" = "web" \/ "site" ∉ ["api"; "web"]) in
  (accepted ->
     (update_project "web" renamed store).1 = Ok true /\
     holds m' ((fun d => if has_name "web" d then renamed else d) <$>
                 [project "api"; project "web"])
              ((fun k => if String.eqb k "web" then "site" else k) <$> ["api"; "web"]) /\
     NoDup ((fun k => if String.eqb k "web" then "site" else k) <$> ["api"; "web"]) /\
     (find_project "site" m').1 = Ok (Some renamed) /\
     forall k, k <> "web" -> k <> "site" ->
       (find_project k m').1 = (find_project k store).1) /\
  (~ accepted -> update_project "web" renamed store = (Ok false, store)).
Proof.
  apply (update_project_renames store [project "api"; project "web"] ["api"; "web"]
           "web" "site" renamed).
  - store_holds.
  - store_distinct.
  - vm_compute. reflexivity.
Defined.

Lemma store_keeps_distinct_names_witness :
  let cs := [AddProject "db" "/srv" "main.js"; UpdateProject "web" renamed;
             RemoveProject "api"] in
  exists (ds' : list Dict) (names' : list string),
    Forall (fun r => exists b : bool, r = Ok b) (calls cs store).1 /\
    holds (calls cs store).2 ds' names' /\
    NoDup names'.
Proof.
  apply (store_keeps_distinct_names
           [AddProject "db" "/srv" "main.js"; UpdateProject "web" renamed; RemoveProject "api"]
           store [project "api"; project "web"] ["api"; "web"]).
  - store_holds.
  - store_distinct.
  - repeat (apply Forall_cons_2 || apply Forall_nil_2); vm_compute; exact I.
Defined.

Lemma changes_reach_the_file_witness :
  exists b : bool,
    (call (AddProject "db" "/srv" "main.js") store).1 = Ok b /\
    if b then dumped (call (AddProject "db" "/srv" "main.js") store).2 =
                dumped store ++ [projects (call (AddProject "db" "/srv" "main.js") store).2]
    else (call (AddProject "db" "/srv" "main.js") store).2 = store.
Proof.
  apply (changes_reach_the_file (AddProject "db" "/srv" "main.js") store
           [project "api"; project "web"] ["api"; "web"]).
  - store_holds.
  - store_distinct.
  - exact I.
Defined.

Lemma nameless_entry_witness :
  remove_project "api" edited_store = (Raise (KeyError "name"), edited_store).
Proof.
  apply (nameless_entry_blocks_removal edited_store
           [project "api"; {[ "script" := VStr "main.js" ]}]
           {[ "script" := VStr "main.js" ]} "api").
  - reflexivity.
  - right. left.
  - vm_compute. reflexivity.
Defined.

End ManagerFacts.

Module WidgetFacts.
Import View Gauge Graph Binary64 Dashboard Detail.
Local Open Scope list_scope.
Local Open Scope Z_scope.

Lemma set_on_the_arc (s : Setter) (g : HalfCircleGauge) :
  on_the_arc g -> on_the_arc (set s g).
Proof.
  unfold on_the_arc. intros Hg. destruct s as [value|max_value|text|title]; cbn.
  - lia.
  - destruct (0 <? max_value) eqn:Hm; [apply Z.ltb_lt in Hm|]; lia.
  - exact Hg.
  - exact Hg.
Qed.

Lemma after_on_the_arc (setters : list Setter) (g : HalfCircleGauge) :
  on_the_arc g -> on_the_arc (after setters g).
Proof.
  revert g. induction setters as [|s setters IH]; intros g Hg; [exact Hg|].
  apply IH, set_on_the_arc, Hg.
Qed.

(** X17. Whatever setters are called on a gauge, in whatever
    order and with whatever numbers, its maximum stays positive and its
    value between zero and the maximum: the fraction [paintEvent]
    divides out exists and lies on the arc. *)
Theorem gauge_stays_on_the_arc (title unit : string) (setters : list Setter) :
  let g := after setters (new_HalfCircleGauge title unit) in
  0 < _max_value g /\ 0 <= _value g <= _max_value g.
Proof.
  apply after_on_the_arc. unfold on_the_arc. cbn. lia.
Qed.

Lemma after_unit (setters : list Setter) (g : HalfCircleGauge) :
  _unit (after setters g) = _unit g.
Proof.
  revert g. induction setters as [|s setters IH]; intros g; [reflexivity|].
  change (after (s :: setters) g) with (after setters (set s g)).
  rewrite IH. destruct s; reflexivity.
Qed.

Lemma after_snoc (setters : list Setter) (s : Setter) (g : HalfCircleGauge) :
  after (setters ++ [s]) g = set s (after setters g).
Proof. unfold after. rewrite foldl_app. reflexivity. Qed.

(** X18. [setMaxValue] takes a maximum that is not positive as
    100, clamps the value to the new maximum, and always prints the
    value with the unit: it overwrites the [N/A] a negative reading
    left, and a text set by [setText]. *)
Theorem new_maximum_prints_the_reading
    (title unit : string) (setters : list Setter) (max_value : Z) :
  let before := after setters (new_HalfCircleGauge title unit) in
  let g := after (setters ++ [SetMaxValue max_value]) (new_HalfCircleGauge title unit) in
  _max_value g = (if 0 <? max_value then max_value else 100) /\
  _value g = Z.min (_value before) (_max_value g) /\
  _text g = pretty (_value g) +:+ unit.
Proof.
  cbn zeta. rewrite after_snoc.
  pose proof (gauge_stays_on_the_arc title unit setters) as Harc. cbn zeta in Harc.
  pose proof (after_unit setters (new_HalfCircleGauge title unit)) as Hunit.
  cbn [_unit new_HalfCircleGauge] in Hunit.
  set (g0 := after setters (new_HalfCircleGauge title unit)) in *.
  cbn [set setMaxValue setValue _value _max_value _text _unit].
  split; [reflexivity|]. split.
  - destruct (0 <? max_value) eqn:Hm; [apply Z.ltb_lt in Hm|]; lia.
  - rewrite Hunit. destruct (_value g0 <? 0) eqn:Hneg; [|reflexivity].
    apply Z.ltb_lt in Hneg. lia.
Qed.

(** *** The graphs *)

Lemma deque_append_full {A} (n : nat) (x : A) (d : list A) :
  List.length d = n -> deque_append n x d = drop 1 (d ++ [x]).
Proof.
  intros Hlen. unfold deque_append. rewrite length_app, Hlen. cbn [List.length].
  f_equal. lia.
Qed.

Lemma deque_extend_room {A} (n : nat) (xs d : list A) :
  (List.length d + List.length xs <= n)%nat -> deque_extend n xs d = d ++ xs.
Proof.
  revert d. induction xs as [|x xs IH]; intros d Hlen.
  - cbn. rewrite app_nil_r. reflexivity.
  - change (deque_extend n (x :: xs) d) with (deque_extend n xs (deque_append n x d)).
    cbn [List.length] in Hlen.
    assert (Happ : deque_append n x d = d ++ [x]).
    { unfold deque_append. rewrite length_app. cbn [List.length].
      replace (List.length d + 1 - n)%nat with 0%nat by lia. reflexivity. }
    rewrite Happ, IH, <- app_assoc; [reflexivity|].
    rewrite length_app. cbn [List.length]. lia.
Qed.

Lemma zeros_snoc (n : nat) : replicate n 0 ++ [0] = 0 :: replicate n 0.
Proof.
  induction n as [|n IH]; [reflexivity|]. cbn [replicate app]. rewrite IH. reflexivity.
Qed.

Lemma shift_zeros (n : nat) : drop 1 (replicate n 0 ++ [0]) = replicate n 0.
Proof. rewrite zeros_snoc. reflexivity. Qed.

Lemma clear_spec (p : PerformanceGraphWidget) :
  let zeros := replicate (max_points p) 0 in
  clear p =
    {| max_points := max_points p; time_data := time_data p;
       cpu_data := zeros; mem_data := zeros;
       cpu_curve := (time_data p, zeros); mem_curve := (time_data p, zeros);
       combined_cpu_curve := (time_data p, zeros);
       combined_mem_curve := (time_data p, zeros) |}.
Proof.
  cbn zeta. unfold clear, update_data. cbn [max_points time_data cpu_data mem_data].
  rewrite deque_extend_room by (rewrite length_replicate; cbn; lia).
  cbn [app]. rewrite deque_append_full by apply length_replicate.
  rewrite shift_zeros. reflexivity.
Qed.

Lemma fed_snoc (readings : list (Z * Z)) (r : Z * Z) (p : PerformanceGraphWidget) :
  fed (readings ++ [r]) p = update_data r.1 r.2 (fed readings p).
Proof. unfold fed. rewrite foldl_app. reflexivity. Qed.

Lemma window_step (zeros samples : list Z) (x : Z) (n : nat) :
  n = List.length samples ->
  drop 1 (drop n (zeros ++ samples) ++ [x]) = drop (S n) (zeros ++ samples ++ [x]).
Proof.
  intros ->. rewrite (app_assoc zeros).
  rewrite <- (drop_app_le (zeros ++ samples) [x] (List.length samples))
    by (rewrite length_app; lia).
  rewrite drop_drop. f_equal. lia.
Qed.

Lemma fed_spec (p : PerformanceGraphWidget) (readings : list (Z * Z)) :
  let q := fed readings (clear p) in
  let window (samples : list Z) :=
    drop (List.length readings) (replicate (max_points p) 0 ++ samples) in
  max_points q = max_points p /\
  time_data q = time_data p /\
  cpu_data q = window readings.*1 /\
  mem_data q = window readings.*2 /\
  cpu_curve q = (time_data p, cpu_data q) /\
  mem_curve q = (time_data p, mem_data q) /\
  combined_cpu_curve q = (time_data p, cpu_data q) /\
  combined_mem_curve q = (time_data p, mem_data q).
Proof.
  cbn zeta. induction readings as [|r readings IH] using rev_ind.
  - change (fed [] (clear p)) with (clear p). rewrite clear_spec. cbn.
    rewrite app_nil_r. repeat split; reflexivity.
  - destruct IH as (Hmax & Htime & Hcpu & Hmem & _).
    rewrite fed_snoc. set (q := fed readings (clear p)) in *.
    unfold update_data.
    cbn [max_points time_data cpu_data mem_data cpu_curve mem_curve
         combined_cpu_curve combined_mem_curve].
    rewrite Hmax, Htime.
    assert (Hlen : forall samples : list Z,
              List.length samples = List.length readings ->
              List.length (drop (List.length readings)
                             (replicate (max_points p) 0 ++ samples)) = max_points p).
    { intros samples Hs. rewrite length_drop, length_app, length_replicate. lia. }
    rewrite !deque_append_full
      by (rewrite ?Hcpu, ?Hmem; apply Hlen; apply length_fmap).
    rewrite Hcpu, Hmem, !fmap_app, length_app. cbn [List.length fmap list_fmap].
    rewrite !window_step by (symmetry; apply length_fmap).
    replace (List.length readings + 1)%nat with (S (List.length readings)) by lia.
    repeat split; reflexivity.
Qed.

(** X19. After [clear], and so after construction, each series
    of the graphs is the last [max_points] of: that many zeros followed
    by the readings fed since. It always has exactly [max_points]
    samples, and every curve holds the series against the time axis. *)
Theorem graphs_show_the_latest_samples
    (p : PerformanceGraphWidget) (readings : list (Z * Z)) :
  let q := fed readings (clear p) in
  let window (samples : list Z) :=
    drop (List.length readings) (replicate (max_points p) 0 ++ samples) in
  cpu_data q = window readings.*1 /\
  mem_data q = window readings.*2 /\
  List.length (cpu_data q) = max_points p /\
  List.length (mem_data q) = max_points p /\
  cpu_curve q = (time_data p, cpu_data q) /\
  mem_curve q = (time_data p, mem_data q) /\
  combined_cpu_curve q = (time_data p, cpu_data q) /\
  combined_mem_curve q = (time_data p, mem_data q).
Proof.
  cbn zeta.
  destruct (fed_spec p readings) as (_ & _ & Hcpu & Hmem & Hc1 & Hc2 & Hc3 & Hc4).
  repeat split; try assumption.
  - rewrite Hcpu, length_drop, length_app, length_replicate, length_fmap. lia.
  - rewrite Hmem, length_drop, length_app, length_replicate, length_fmap. lia.
Qed.

(** *** The dashboard *)

Lemma row_icon_spec (proc : Dict) (status : PyVal) :
  status_of proc = Ok status -> row_icon proc = Some (icon_for status).
Proof.
  intros Hs. unfold row_icon, new_ProjectListItemWidget, update_status, icon_for.
  rewrite Hs.
  destruct (str_is "online" status); [reflexivity|].
  destruct (str_is "stopped" status || str_is "stopping" status); [reflexivity|].
  destruct (str_is "errored" status); reflexivity.
Qed.

Lemma rows_with_cons (icon_theme : string) (proc : Dict) (rest : list Dict) :
  rows_with icon_theme (proc :: rest) = (shown icon_theme proc + rows_with icon_theme rest)%nat.
Proof.
  unfold rows_with, shown. cbn [List.filter].
  destruct (bool_decide _); reflexivity.
Qed.

Lemma same_icon (a b : string) : bool_decide (Some a = Some b) = String.eqb a b.
Proof.
  destruct (String.eqb_spec a b) as [->|Hne].
  - apply bool_decide_eq_true_2. reflexivity.
  - apply bool_decide_eq_false_2. intros [= Heq]. exact (Hne Heq).
Qed.

Lemma count_spec (t t' : Tally) (proc : Dict) :
  count t proc = Ok t' ->
  online_count t' = (online_count t + shown "presence-online" proc)%nat /\
  stopped_count t' = (stopped_count t + shown "presence-offline" proc)%nat /\
  errored_count t' = (errored_count t + shown "presence-busy" proc)%nat /\
  undeployed_count t' = (undeployed_count t + shown "presence-unknown" proc)%nat /\
  (shown "presence-online" proc + shown "presence-offline" proc +
   shown "presence-busy" proc + shown "presence-unknown" proc = 1)%nat.
Proof.
  unfold count. destruct (status_of proc) as [status|e] eqn:Hs; [|discriminate].
  unfold shown. rewrite (row_icon_spec proc status Hs). unfold icon_for.
  destruct (str_is "online" status).
  - destruct (monit_get "cpu" proc) as [cpu|]; [|discriminate].
    destruct (py_add (total_cpu t) cpu) as [cpu_sum|]; [|discriminate].
    destruct (monit_get "memory" proc) as [memory|]; [|discriminate].
    destruct (py_add (total_mem_bytes t) memory) as [mem_sum|]; [|discriminate].
    intros [= <-]. cbn [online_count stopped_count errored_count undeployed_count].
    rewrite !same_icon. cbn. repeat split; lia.
  - destruct (str_is "stopped" status || str_is "stopping" status).
    + intros [= <-]. cbn [online_count stopped_count errored_count undeployed_count].
      rewrite !same_icon. cbn. repeat split; lia.
    + destruct (str_is "errored" status); intros [= <-];
        cbn [online_count stopped_count errored_count undeployed_count];
        rewrite !same_icon; cbn; repeat split; lia.
Qed.

Lemma tally_spec (data : list Dict) (t t' : Tally) :
  tally t data = Ok t' ->
  online_count t' = (online_count t + rows_with "presence-online" data)%nat /\
  stopped_count t' = (stopped_count t + rows_with "presence-offline" data)%nat /\
  errored_count t' = (errored_count t + rows_with "presence-busy" data)%nat /\
  undeployed_count t' = (undeployed_count t + rows_with "presence-unknown" data)%nat /\
  (rows_with "presence-online" data + rows_with "presence-offline" data +
   rows_with "presence-busy" data + rows_with "presence-unknown" data =
   List.length data)%nat.
Proof.
  revert t. induction data as [|proc data IH]; intros t; cbn [tally].
  - intros [= <-]. unfold rows_with. cbn. repeat split; lia.
  - destruct (count t proc) as [t1|e] eqn:Hc; [|discriminate]. intros Ht.
    destruct (count_spec t t1 proc Hc) as (H1 & H2 & H3 & H4 & H5).
    destruct (IH t1 Ht) as (I1 & I2 & I3 & I4 & I5).
    rewrite !rows_with_cons. cbn [List.length]. repeat split; lia.
Qed.

(** X20. When [update_stats] returns, each of its four counters
    is the number of rows to which the sidebar gives the corresponding
    icon, the four add up to the total shown, [Restart All] is enabled
    exactly when some project is not undeployed, and [Stop All] exactly
    when some project is online. *)
Theorem dashboard_counts_match_the_sidebar
    (all_processes_data : list Dict) (d d' : DashboardWidget) :
  update_stats all_processes_data d = Ok d' ->
  let rows icon_theme := rows_with icon_theme all_processes_data in
  total_val d' = "Total Projects: " +:+ pretty (List.length all_processes_data) /\
  online_val d' = "Online: " +:+ pretty (rows "presence-online") /\
  stopped_val d' = "Stopped: " +:+ pretty (rows "presence-offline") /\
  errored_val d' = "Errored: " +:+ pretty (rows "presence-busy") /\
  undeployed_val d' = "Undeployed: " +:+ pretty (rows "presence-unknown") /\
  (rows "presence-online" + rows "presence-offline" + rows "presence-busy" +
   rows "presence-unknown" = List.length all_processes_data)%nat /\
  restart_all_button d' =
    negb (rows "presence-unknown" =? List.length all_processes_data)%nat /\
  stop_all_button d' = negb (rows "presence-online" =? 0)%nat.
Proof.
  unfold update_stats. destruct (tally zero all_processes_data) as [t|e] eqn:Ht; [|discriminate].
  destruct (total_mem_mb t) as [mem_mb|e]; [|discriminate].
  destruct (cpu_max t) as [cpu_max_value|e]; [|discriminate].
  destruct (mem_max mem_mb) as [mem_max_value|e]; [|discriminate].
  intros [= <-]. cbn zeta.
  destruct (tally_spec all_processes_data zero t Ht) as (H1 & H2 & H3 & H4 & H5).
  cbn [online_count stopped_count errored_count undeployed_count zero] in *.
  cbn [total_val online_val stopped_val errored_val undeployed_val
       restart_all_button stop_all_button].
  rewrite H1, H2, H3, H4. cbn [Nat.add].
  repeat split; try reflexivity; try exact H5.
  - destruct (rows_with "presence-online" all_processes_data),
             (rows_with "presence-offline" all_processes_data),
             (rows_with "presence-busy" all_processes_data); cbn [Nat.ltb Nat.leb orb];
      symmetry; first [apply negb_true_iff, Nat.eqb_neq | apply negb_false_iff, Nat.eqb_eq]; lia.
  - destruct (rows_with "presence-online" all_processes_data); reflexivity.
Qed.

Lemma ceil_div_bounds (a b : Z) : 0 < b -> a <= ceil_div a b * b < a + b.
Proof.
  intros Hb. unfold ceil_div.
  pose proof (Z.div_mod (- a) b ltac:(lia)) as Hdm.
  pose proof (Z.mod_pos_bound (- a) b Hb) as Hm. nia.
Qed.

Lemma ceil_div_unique (a b c : Z) : 0 < b -> (c - 1) * b < a <= c * b -> ceil_div a b = c.
Proof.
  intros Hb Hc. pose proof (ceil_div_bounds a b Hb). nia.
Qed.

Lemma shifted_up (a s : Z) : 0 <= s -> shifted a s = a * 2 ^ s.
Proof. intros Hs. unfold shifted. rewrite Z.max_r by lia. reflexivity. Qed.

Lemma shifted_down (a s : Z) : s <= 0 -> shifted a s = a.
Proof. intros Hs. unfold shifted. rewrite Z.max_l by lia. cbn. lia. Qed.

Lemma round_half_even_bounds (a b : Z) :
  0 < b -> 2 * round_half_even a b * b - b <= 2 * a <= 2 * round_half_even a b * b + b.
Proof.
  intros Hb. unfold round_half_even.
  pose proof (Z.div_mod a b ltac:(lia)) as Hdm.
  pose proof (Z.mod_pos_bound a b Hb) as Hm.
  destruct (2 * (a mod b) <? b) eqn:H1; [apply Z.ltb_lt in H1; nia|].
  apply Z.ltb_ge in H1.
  destruct (b <? 2 * (a mod b)) eqn:H2; [apply Z.ltb_lt in H2; nia|].
  apply Z.ltb_ge in H2.
  destruct (Z.even (a / b)); nia.
Qed.

Lemma round_half_even_whole (a : Z) : round_half_even a 1 = a.
Proof.
  unfold round_half_even. rewrite Z.div_1_r, Z.mod_1_r. reflexivity.
Qed.

(** For a quotient in the range of the normal numbers and below
    [2 ^ 53], the nearest number has 53 bits and a scale [2 ^ - s]. *)
Lemma nearest_spec (a b : Z) :
  0 < a -> 0 < b -> a < 2 ^ 53 * b -> b <= a * 2 ^ 1021 ->
  exists s : Z,
    0 <= s /\
    nearest a b = {| mantissa := round_half_even (a * 2 ^ s) b; exponent := - s |} /\
    2 ^ 52 * b <= a * 2 ^ s < 2 ^ 53 * b.
Proof.
  intros Ha Hb Hhigh Hlow.
  pose proof (Z.log2_spec a Ha) as Hla. pose proof (Z.log2_spec b Hb) as Hlb.
  pose proof (Z.log2_nonneg a) as Hla0. pose proof (Z.log2_nonneg b) as Hlb0.
  set (la := Z.log2 a) in *. set (lb := Z.log2 b) in *.
  rewrite Z.pow_succ_r in Hla, Hlb by lia.
  assert (la <= 53 + lb) as Hs0.
  { apply Z.lt_succ_r. apply (Z.pow_lt_mono_r_iff 2); [lia|lia|].
    replace (Z.succ (53 + lb)) with (53 + Z.succ lb) by lia.
    rewrite Z.pow_add_r, Z.pow_succ_r by lia. nia. }
  assert (lb <= la + 1021) as Hs1.
  { apply Z.lt_succ_r. apply (Z.pow_lt_mono_r_iff 2); [lia|lia|].
    replace (Z.succ (la + 1021)) with (Z.succ la + 1021) by lia.
    rewrite Z.pow_add_r, Z.pow_succ_r by lia.
    assert (0 < 2 ^ 1021) by (apply Z.pow_pos_nonneg; lia). nia. }
  unfold nearest. fold la lb. set (s0 := 52 - la + lb).
  assert (-1 <= s0 <= 1073) as Hrange by (unfold s0; lia).
  destruct (Z.eq_dec s0 (-1)) as [Hneg|Hpos].
  - rewrite Hneg. change (- -1) with 1. rewrite (shifted_up b 1), (shifted_down a (-1)) by lia.
    assert ((2 ^ 52 * (b * 2 ^ 1) <=? a) = false) as ->.
    { apply Z.leb_gt. change (2 ^ 1) with 2. lia. }
    change (Z.min (-1 + 1) 1074) with 0. change (- 0) with 0.
    exists 0. rewrite !shifted_up by lia. change (2 ^ 0) with 1. rewrite !Z.mul_1_r.
    split; [lia|]. split; [reflexivity|]. split; [|lia].
    assert (la = 53 + lb) as Hla' by (unfold s0 in Hneg; lia).
    rewrite Hla', Z.pow_add_r in Hla by lia. lia.
  - assert (0 <= s0) as Hs by lia.
    rewrite (shifted_down b (- s0)), (shifted_up a s0) by lia.
    assert (2 ^ la * 2 ^ s0 = 2 ^ 52 * 2 ^ lb) as Hpow.
    { rewrite <- !Z.pow_add_r by lia. f_equal. unfold s0. lia. }
    assert (0 < 2 ^ s0) as Hp by (apply Z.pow_pos_nonneg; lia).
    assert (0 < 2 ^ lb) as Hq by (apply Z.pow_pos_nonneg; lia).
    destruct (2 ^ 52 * b <=? a * 2 ^ s0) eqn:Htest.
    + apply Z.leb_le in Htest. rewrite Z.min_l by lia.
      exists s0. rewrite shifted_up, shifted_down by lia.
      split; [lia|]. split; [reflexivity|]. split; [exact Htest|]. nia.
    + apply Z.leb_gt in Htest. rewrite Z.min_l by lia.
      exists (s0 + 1). rewrite shifted_up, shifted_down by lia.
      split; [lia|]. split; [reflexivity|].
      rewrite Z.pow_add_r by lia. change (2 ^ 1) with 2. nia.
Qed.

(** [math.ceil(a / b)] is the exact ceiling while [a] is below
    [2 ^ 53]. *)
Lemma ceil_nearest_exact (a b : Z) :
  0 < a < 2 ^ 53 -> 0 < b < 2 ^ 53 ->
  finite (nearest a b) = true /\ ceil (nearest a b) = ceil_div a b.
Proof.
  intros Ha Hb.
  destruct (nearest_spec a b) as (s & Hs & -> & Hlo & Hhi); [lia|lia|lia| |].
  { assert (2 ^ 53 <= 2 ^ 1021) by (apply Z.pow_le_mono_r; lia).
    transitivity (1 * 2 ^ 1021); [lia|apply Z.mul_le_mono_nonneg_r; lia]. }
  pose proof (round_half_even_bounds (a * 2 ^ s) b ltac:(lia)) as Hm.
  assert (0 < 2 ^ s) as Hp by (apply Z.pow_pos_nonneg; lia).
  pose proof (ceil_div_bounds a b ltac:(lia)) as Hc.
  unfold finite, ceil. cbn [mantissa exponent].
  rewrite Z.opp_involutive, (shifted_down _ (- s)), !(shifted_up _ s) by lia.
  assert (2 ^ 53 < 2 ^ 1024) as Hbig by (apply Z.pow_lt_mono_r; lia).
  revert Hlo Hhi Hm Hp Hc.
  generalize (round_half_even (a * 2 ^ s) b). intros m.
  generalize (2 ^ s) (ceil_div a b). intros P c Hlo Hhi Hm Hp Hc.
  assert (b < 2 * P) as Hb2 by nia.
  assert (m <= c * P) as Hupper.
  { assert (a * P <= c * b * P) by (apply Z.mul_le_mono_nonneg_r; lia).
    assert (2 * m * b <= (2 * (c * P) + 1) * b) by lia.
    assert (2 * m <= 2 * (c * P) + 1) by (apply (Z.mul_le_mono_pos_r _ _ b); lia). lia. }
  assert ((c - 1) * P < m) as Hlower.
  { assert (((c - 1) * b + 1) * P <= a * P) by (apply Z.mul_le_mono_nonneg_r; lia).
    assert (2 * ((c - 1) * P) * b < 2 * m * b) by lia.
    apply (Z.mul_lt_mono_pos_r (2 * b)); [lia|]. lia. }
  split.
  - apply Z.ltb_lt. assert (c <= 2 ^ 53) by nia. nia.
  - apply ceil_div_unique; lia.
Qed.

Lemma twelve_tenths_bits :
  twelve_tenths = {| mantissa := 5404319552844595; exponent := -52 |}.
Proof. vm_compute. reflexivity. Qed.

(** [math.ceil(n * 1.2)] is above [n]. *)
Lemma ceil_twelve_tenths (n : Z) :
  3 <= n < 2 ^ 52 ->
  finite (nearest n 1) = true /\
  finite (mul (nearest n 1) twelve_tenths) = true /\
  n < ceil (mul (nearest n 1) twelve_tenths).
Proof.
  intros Hn.
  destruct (ceil_nearest_exact n 1) as [Hfin _]; [lia|lia|]. split; [exact Hfin|]. clear Hfin.
  destruct (nearest_spec n 1) as (s1 & Hs1 & -> & Hlo1 & Hhi1); [lia|lia|lia| |].
  { assert (0 < 2 ^ 1021) by (apply Z.pow_pos_nonneg; lia).
    transitivity (1 * 2 ^ 1021); [lia|apply Z.mul_le_mono_nonneg_r; lia]. }
  rewrite round_half_even_whole, twelve_tenths_bits. unfold mul. cbn [mantissa exponent].
  assert (0 < 2 ^ s1) as Hp1 by (apply Z.pow_pos_nonneg; lia).
  rewrite (shifted_down _ (- s1 + -52)) by lia.
  replace (- (- s1 + -52)) with (s1 + 52) by lia.
  rewrite shifted_up, Z.pow_add_r, Z.mul_1_l by lia.
  assert (2 ^ 52 <= 2 ^ 1021) as Hsmall by (apply Z.pow_le_mono_r; lia).
  assert (2 ^ 53 < 2 ^ 1024) as Hbig by (apply Z.pow_lt_mono_r; lia).
  revert Hlo1 Hhi1 Hp1. generalize (2 ^ s1). intros P1 Hlo1 Hhi1 Hp1.
  assert (3 * P1 <= n * P1) as Hn1 by (apply Z.mul_le_mono_nonneg_r; lia).
  assert (n * P1 < 2 ^ 52 * P1) as Hn2 by (apply Z.mul_lt_mono_pos_r; lia).
  destruct (nearest_spec (n * P1 * 5404319552844595) (P1 * 2 ^ 52))
    as (s2 & Hs2 & -> & Hlo2 & Hhi2); [lia|lia|lia|lia|].
  assert (0 < P1 * 2 ^ 52) as Hden by lia.
  pose proof (round_half_even_bounds (n * P1 * 5404319552844595 * 2 ^ s2) (P1 * 2 ^ 52)
                Hden) as Hm.
  assert (0 < 2 ^ s2) as Hp2 by (apply Z.pow_pos_nonneg; lia).
  unfold finite, ceil. cbn [mantissa exponent].
  rewrite Z.opp_involutive, (shifted_down _ (- s2)), !(shifted_up _ s2), Z.mul_1_l by lia.
  pose proof (ceil_div_bounds (round_half_even (n * P1 * 5404319552844595 * 2 ^ s2) (P1 * 2 ^ 52))
                (2 ^ s2) Hp2) as Hc.
  revert Hlo2 Hhi2 Hm Hp2 Hc.
  generalize (ceil_div (round_half_even (n * P1 * 5404319552844595 * 2 ^ s2) (P1 * 2 ^ 52))
                (2 ^ s2)). intros c.
  generalize (round_half_even (n * P1 * 5404319552844595 * 2 ^ s2) (P1 * 2 ^ 52)). intros m.
  generalize (2 ^ s2). intros P2 Hlo2 Hhi2 Hm Hp2 Hc.
  assert (2 * m * 2 ^ 52 - 2 ^ 52 <= 2 * (n * 5404319552844595 * P2) <=
          2 * m * 2 ^ 52 + 2 ^ 52) as Hm'.
  { split; apply (Z.mul_le_mono_pos_r _ _ P1); lia. }
  assert (n * 5404319552844595 * P2 < 2 ^ 53 * 2 ^ 52) as Hhi'.
  { apply (Z.mul_lt_mono_pos_r P1); lia. }
  clear Hm Hhi2 Hlo2 Hden Hn1 Hn2.
  assert (3 * P2 <= n * P2) as Hn3 by (apply Z.mul_le_mono_nonneg_r; lia).
  assert (n * P2 < m) as Habove.
  { change (2 ^ 52) with 4503599627370496 in Hm'. lia. }
  split.
  - apply Z.ltb_lt. assert (m <= 2 ^ 53) by lia.
    apply Z.le_lt_trans with (2 ^ 53); [lia|].
    apply Z.lt_le_trans with (2 ^ 1024 * 1); [lia|].
    apply Z.mul_le_mono_nonneg_l; lia.
  - apply (Z.mul_lt_mono_pos_r P2); lia.
Qed.

(** Within those bounds [update_stats] computes what it is after. *)
Lemma total_mem_mb_exact (t : Tally) :
  total_mem_bytes t < 2 ^ 53 -> total_mem_mb t = Ok (whole_mb (total_mem_bytes t)).
Proof.
  intros Hmem. unfold total_mem_mb, whole_mb, truediv, math_ceil.
  destruct (0 <? total_mem_bytes t) eqn:Hpos; [|reflexivity].
  apply Z.ltb_lt in Hpos.
  assert (0 < 1024 * 1024 < 2 ^ 53) as Hmega by (split; reflexivity).
  destruct (ceil_nearest_exact (total_mem_bytes t) (1024 * 1024)) as [Hfinite Hceil];
    [lia|exact Hmega|].
  rewrite Hfinite. cbv beta iota. rewrite Hfinite, Hceil. reflexivity.
Qed.

Lemma cpu_max_exact (t : Tally) :
  total_cpu t < 2 ^ 53 -> cpu_max t = Ok (next_hundred (total_cpu t)).
Proof.
  intros Hcpu. unfold cpu_max, next_hundred, truediv, math_ceil.
  destruct (0 <? total_cpu t) eqn:Hpos; [|reflexivity].
  apply Z.ltb_lt in Hpos.
  assert (0 < 100 < 2 ^ 53) as Hhundred by (split; reflexivity).
  destruct (ceil_nearest_exact (total_cpu t) 100) as [Hfinite Hceil]; [lia|exact Hhundred|].
  rewrite Hfinite. cbv beta iota. rewrite Hfinite, Hceil. reflexivity.
Qed.

Lemma next_hundred_bounds (percent : Z) :
  0 < next_hundred percent /\ percent <= next_hundred percent.
Proof.
  unfold next_hundred. destruct (0 <? percent) eqn:Hpos.
  - pose proof (ceil_div_bounds percent 100 ltac:(lia)). lia.
  - apply Z.ltb_ge in Hpos. lia.
Qed.

Lemma whole_mb_bounds (bytes : Z) :
  bytes < 2 ^ 53 -> 0 <= whole_mb bytes < 2 ^ 52.
Proof.
  intros Hbytes. unfold whole_mb. destruct (0 <? bytes) eqn:Hpos.
  - apply Z.ltb_lt in Hpos.
    pose proof (ceil_div_bounds bytes (1024 * 1024) ltac:(lia)) as Hc.
    change (2 ^ 53) with 9007199254740992 in Hbytes.
    change (2 ^ 52) with 4503599627370496. lia.
  - split; [lia|reflexivity].
Qed.

Lemma mem_max_above (total_mb : Z) :
  0 <= total_mb < 2 ^ 52 ->
  exists mem_max_value : Z, mem_max total_mb = Ok mem_max_value /\ total_mb < mem_max_value.
Proof.
  intros Hmb. unfold mem_max, mem_tiers_mb. cbn [find].
  repeat (match goal with
          | |- context [if (?a <? ?b) then _ else _] =>
              destruct (a <? b) eqn:?; [eexists; split; [reflexivity|apply Z.ltb_lt; assumption]|]
          end).
  match goal with H : (total_mb <? 32768) = false |- _ => apply Z.ltb_ge in H end.
  destruct (ceil_twelve_tenths total_mb) as (Hn & Hx & Habove); [lia|].
  unfold of_int, math_ceil. rewrite Hn. cbv beta iota. rewrite Hx. eauto.
Qed.

Lemma shows_reading (reading max_value : Z) (g : HalfCircleGauge) :
  0 <= reading <= max_value -> 0 < max_value ->
  let g' := setValue reading (setMaxValue max_value g) in
  _value g' = reading /\ _max_value g' = max_value /\
  _text g' = pretty reading +:+ _unit g /\ _unit g' = _unit g.
Proof.
  intros Hr Hm. cbn.
  assert ((0 <? max_value) = true) as -> by (apply Z.ltb_lt; lia).
  assert ((reading <? 0) = false) as -> by (apply Z.ltb_ge; lia).
  replace (Z.max 0 (Z.min reading max_value)) with reading by lia.
  auto.
Qed.

(** X21. When the loop of [update_stats] ends with a processor
    total from 0 to below [2 ^ 53] and a memory total below [2 ^ 53]
    bytes, the range in which the divisions of the source, made on
    [float]s, give the exact ceilings, [update_stats] returns and both
    gauges show the totals themselves: the maximum chosen for each is
    at least the total, so the value is never clamped, and the text is
    the total with its unit, whatever the gauges showed before ([N/A]
    included). The processor gauge ends at the next hundred, the memory
    is shown in whole megabytes, rounded up. *)
Theorem dashboard_gauges_show_the_totals
    (all_processes_data : list Dict) (d : DashboardWidget) (t : Tally) :
  tally zero all_processes_data = Ok t ->
  0 <= total_cpu t < 2 ^ 53 ->
  total_mem_bytes t < 2 ^ 53 ->
  exists d' : DashboardWidget,
    update_stats all_processes_data d = Ok d' /\
    (_value (cpu_gauge d') = total_cpu t /\
     _max_value (cpu_gauge d') = next_hundred (total_cpu t) /\
     total_cpu t <= _max_value (cpu_gauge d') /\
     _text (cpu_gauge d') = pretty (total_cpu t) +:+ _unit (cpu_gauge d)) /\
    (_value (mem_gauge d') = whole_mb (total_mem_bytes t) /\
     whole_mb (total_mem_bytes t) < _max_value (mem_gauge d') /\
     _text (mem_gauge d') = pretty (whole_mb (total_mem_bytes t)) +:+ _unit (mem_gauge d)).
Proof.
  intros Ht Hcpu Hmem. unfold update_stats. rewrite Ht.
  rewrite (total_mem_mb_exact t Hmem), (cpu_max_exact t (proj2 Hcpu)).
  pose proof (whole_mb_bounds (total_mem_bytes t) Hmem) as Hmb.
  destruct (mem_max_above (whole_mb (total_mem_bytes t)) Hmb) as (mem_max_value & -> & Habove).
  eexists. split; [reflexivity|]. cbn [cpu_gauge mem_gauge].
  pose proof (next_hundred_bounds (total_cpu t)) as [Hcmax Hcle].
  destruct (shows_reading (total_cpu t) (next_hundred (total_cpu t)) (cpu_gauge d))
    as (-> & -> & -> & _); [lia..|].
  destruct (shows_reading (whole_mb (total_mem_bytes t)) mem_max_value (mem_gauge d))
    as (-> & -> & -> & _); [lia..|].
  repeat split; (reflexivity || lia).
Qed.

(** Beyond that range the division rounds: a processor total of
    [10 ^ 17 + 1] gets the maximum [10 ^ 17], and the gauge shows the
    maximum, not the total. *)
Lemma gauge_clamps_a_large_total :
  cpu_max {| online_count := 1; stopped_count := 0; errored_count := 0;
             undeployed_count := 0; total_cpu := 10 ^ 17 + 1; total_mem_bytes := 0 |} =
    Ok (10 ^ 17) /\
  _value (setValue (10 ^ 17 + 1) (setMaxValue (10 ^ 17) (new_HalfCircleGauge "Total CPU" "%"))) =
    10 ^ 17.
Proof. vm_compute. split; reflexivity. Qed.

(** X22. [set_daemon_status(False)] zeroes the five counters,
    puts both gauges to [N/A], enables [Start] alone and disables
    [Kill], [Restart All] and [Stop All]; [set_daemon_status(True)]
    swaps the two daemon buttons and leaves counters, gauges and bulk
    buttons as they are. *)
Theorem daemon_down_blanks_the_dashboard (d : DashboardWidget) :
  let down := set_daemon_status false d in
  let up := set_daemon_status true d in
  (total_val down = "Total Projects: 0" /\ online_val down = "Online: 0" /\
   stopped_val down = "Stopped: 0" /\ errored_val down = "Errored: 0" /\
   undeployed_val down = "Undeployed: 0" /\
   _text (cpu_gauge down) = "N/A" /\ _text (mem_gauge down) = "N/A" /\
   start_daemon_button down = true /\ kill_daemon_button down = false /\
   restart_all_button down = false /\ stop_all_button down = false) /\
  (total_val up = total_val d /\ online_val up = online_val d /\
   stopped_val up = stopped_val d /\ errored_val up = errored_val d /\
   undeployed_val up = undeployed_val d /\
   cpu_gauge up = cpu_gauge d /\ mem_gauge up = mem_gauge d /\
   start_daemon_button up = false /\ kill_daemon_button up = true /\
   restart_all_button up = restart_all_button d /\ stop_all_button up = stop_all_button d).
Proof.
  cbn zeta. split; [|repeat split; reflexivity].
  unfold set_daemon_status, update_stats. cbn [tally zero].
  repeat split; reflexivity.
Qed.

(** *** Uptime *)

Lemma shown_parts (days hours minutes : Z) :
  0 < days \/ 0 < hours \/ 0 < minutes ->
  View.is_empty
    ((if 0 <? days then [pretty days +:+ "d"] else []) ++
     (if 0 <? hours then [pretty hours +:+ "h"] else []) ++
     (if 0 <? minutes then [pretty minutes +:+ "m"] else [])) = false.
Proof.
  intros Hsome.
  destruct (0 <? days) eqn:Hd; [reflexivity|].
  destruct (0 <? hours) eqn:Hh; [reflexivity|].
  destruct (0 <? minutes) eqn:Hm; [reflexivity|].
  apply Z.ltb_ge in Hd, Hh, Hm. lia.
Qed.

(** The parts of a number of seconds, and those of the same number
    without its seconds. *)
Lemma uptime_parts (seconds : Z) :
  0 <= seconds ->
  let whole := seconds - seconds mod 60 in
  whole / 86400 = seconds / 86400 /\
  (whole mod 86400) / 3600 = (seconds mod 86400) / 3600 /\
  ((whole mod 86400) mod 3600) / 60 = ((seconds mod 86400) mod 3600) / 60 /\
  (60 <= seconds ->
   0 < seconds / 86400 \/ 0 < (seconds mod 86400) / 3600 \/
   0 < ((seconds mod 86400) mod 3600) / 60) /\
  (seconds < 60 ->
   seconds / 86400 = 0 /\ (seconds mod 86400) / 3600 = 0 /\
   ((seconds mod 86400) mod 3600) / 60 = 0 /\
   ((seconds mod 86400) mod 3600) mod 60 = seconds).
Proof.
  intros Hpos. cbn zeta.
  set (d := seconds / 86400). set (r1 := seconds mod 86400).
  set (h := r1 / 3600). set (r2 := r1 mod 3600).
  set (m := r2 / 60). set (r3 := r2 mod 60).
  assert (H1 : seconds = 86400 * d + r1) by (apply Z.div_mod; lia).
  assert (B1 : 0 <= r1 < 86400) by (apply Z.mod_pos_bound; lia).
  assert (H2 : r1 = 3600 * h + r2) by (apply Z.div_mod; lia).
  assert (B2 : 0 <= r2 < 3600) by (apply Z.mod_pos_bound; lia).
  assert (H3 : r2 = 60 * m + r3) by (apply Z.div_mod; lia).
  assert (B3 : 0 <= r3 < 60) by (apply Z.mod_pos_bound; lia).
  assert (Bh : 0 <= h < 24) by (unfold h; split; [apply Z.div_pos; lia|apply Z.div_lt_upper_bound; lia]).
  assert (Bm : 0 <= m < 60) by (unfold m; split; [apply Z.div_pos; lia|apply Z.div_lt_upper_bound; lia]).
  assert (Bd : 0 <= d) by (unfold d; apply Z.div_pos; lia).
  assert (Hs60 : seconds mod 60 = r3).
  { symmetry. apply (Z.mod_unique_pos _ _ (1440 * d + 60 * h + m)); lia. }
  rewrite Hs60.
  assert (Hw1 : (seconds - r3) mod 86400 = 3600 * h + 60 * m).
  { symmetry. apply (Z.mod_unique_pos _ _ d); lia. }
  assert (Hw2 : (3600 * h + 60 * m) mod 3600 = 60 * m).
  { symmetry. apply (Z.mod_unique_pos _ _ h); lia. }
  rewrite Hw1, Hw2.
  split; [symmetry; apply (Z.div_unique_pos _ _ _ (3600 * h + 60 * m)); lia|].
  split; [symmetry; apply (Z.div_unique_pos _ _ _ (60 * m)); lia|].
  split; [symmetry; apply (Z.div_unique_pos _ _ _ 0); lia|].
  split; lia.
Qed.

(** X23. [format_uptime], on whole seconds: nothing positive
    gives [0s]; below a minute the seconds are shown; from a minute on
    they are dropped, so that an uptime reads the same as the uptime
    rounded down to the minute. *)
Theorem uptime_drops_seconds_after_a_minute (seconds : Z) :
  (seconds <= 0 -> format_uptime seconds = "0s") /\
  (0 < seconds < 60 -> format_uptime seconds = pretty seconds +:+ "s") /\
  (60 <= seconds -> format_uptime seconds = format_uptime (seconds - seconds mod 60)).
Proof.
  split; [|split].
  - intros Hneg. unfold format_uptime.
    assert ((seconds <=? 0) = true) as -> by (apply Z.leb_le; lia). reflexivity.
  - intros Hs. unfold format_uptime.
    assert ((seconds <=? 0) = false) as -> by (apply Z.leb_gt; lia).
    destruct (uptime_parts seconds ltac:(lia)) as (_ & _ & _ & _ & Hsmall).
    destruct (Hsmall ltac:(lia)) as (-> & -> & -> & ->).
    assert ((0 <? seconds) = true) as -> by (apply Z.ltb_lt; lia). reflexivity.
  - intros Hs. unfold format_uptime.
    destruct (uptime_parts seconds ltac:(lia)) as (Hd & Hh & Hm & Hbig & _).
    specialize (Hbig Hs).
    assert (Hwhole : 60 <= seconds - seconds mod 60).
    { pose proof (Z.mod_pos_bound seconds 60 ltac:(lia)).
      pose proof (Z.div_mod seconds 60 ltac:(lia)) as Hdm.
      assert (1 <= seconds / 60) by (apply Z.div_le_lower_bound; lia). lia. }
    assert ((seconds <=? 0) = false) as -> by (apply Z.leb_gt; lia).
    assert ((seconds - seconds mod 60 <=? 0) = false) as -> by (apply Z.leb_gt; lia).
    cbn zeta. rewrite Hd, Hh, Hm.
    rewrite (shown_parts _ _ _ Hbig). cbn [andb]. rewrite !app_nil_r.
    rewrite (shown_parts _ _ _ Hbig). reflexivity.
Qed.

Import Scenarios Cases.

Lemma dashboard_counts_witness :
  let rows icon_theme := rows_with icon_theme fleet in
  total_val fleet_shown = "Total Projects: " +:+ pretty (List.length fleet) /\
  online_val fleet_shown = "Online: " +:+ pretty (rows "presence-online") /\
  stopped_val fleet_shown = "Stopped: " +:+ pretty (rows "presence-offline") /\
  errored_val fleet_shown = "Errored: " +:+ pretty (rows "presence-busy") /\
  undeployed_val fleet_shown = "Undeployed: " +:+ pretty (rows "presence-unknown") /\
  (rows "presence-online" + rows "presence-offline" + rows "presence-busy" +
   rows "presence-unknown" = List.length fleet)%nat /\
  restart_all_button fleet_shown = negb (rows "presence-unknown" =? List.length fleet)%nat /\
  stop_all_button fleet_shown = negb (rows "presence-online" =? 0)%nat.
Proof.
  apply (dashboard_counts_match_the_sidebar fleet new_DashboardWidget fleet_shown).
  vm_compute. reflexivity.
Defined.

Lemma dashboard_gauges_witness :
  exists d' : DashboardWidget,
    update_stats fleet new_DashboardWidget = Ok d' /\
    (_value (cpu_gauge d') = total_cpu fleet_tally /\
     _max_value (cpu_gauge d') = next_hundred (total_cpu fleet_tally) /\
     total_cpu fleet_tally <= _max_value (cpu_gauge d') /\
     _text (cpu_gauge d') =
       pretty (total_cpu fleet_tally) +:+ _unit (cpu_gauge new_DashboardWidget)) /\
    (_value (mem_gauge d') = whole_mb (total_mem_bytes fleet_tally) /\
     whole_mb (total_mem_bytes fleet_tally) < _max_value (mem_gauge d') /\
     _text (mem_gauge d') =
       pretty (whole_mb (total_mem_bytes fleet_tally)) +:+ _unit (mem_gauge new_DashboardWidget)).
Proof.
  apply (dashboard_gauges_show_the_totals fleet new_DashboardWidget fleet_tally).
  - vm_compute. reflexivity.
  - vm_compute. split; [discriminate|reflexivity].
  - vm_compute. reflexivity.
Defined.

End WidgetFacts.

Module SettingsFacts.
Import Worker Manager Settings Reference Cases.

(** ** Text *)

Lemma app_empty (s : string) : s +:+ EmptyString = s.
Proof. induction s as [|c s IH]; [done|]. unfold String.app in *. cbn. by rewrite IH. Qed.

Lemma app_cons (c : ascii) (s t : string) : String c s +:+ t = String c (s +:+ t).
Proof. reflexivity. Qed.

Lemma app_assoc (s t u : string) : (s +:+ t) +:+ u = s +:+ (t +:+ u).
Proof. induction s as [|c s IH]; [done|]. rewrite !app_cons. by rewrite IH. Qed.

Lemma all_chars_app p (s t : string) :
  all_chars p (s +:+ t) = all_chars p s && all_chars p t.
Proof.
  induction s as [|c s IH]; [done|].
  rewrite app_cons. cbn [all_chars]. rewrite IH. by rewrite andb_assoc.
Qed.

Lemma all_chars_impl (p q : ascii -> bool) (s : string) :
  (forall c, p c = true -> q c = true) -> all_chars p s = true -> all_chars q s = true.
Proof.
  intros Hpq. induction s as [|c s IH]; [done|]. cbn [all_chars].
  rewrite !andb_true_iff. intros [??]. auto.
Qed.

Lemma all_chars_lstrip p (s : string) : all_chars p s = true -> all_chars p (lstrip s) = true.
Proof.
  induction s as [|c s IH]; [done|]. cbn [all_chars lstrip].
  rewrite andb_true_iff. intros [Hc Hs].
  destruct (is_space c); [auto|]. cbn [all_chars]. by rewrite Hc, Hs.
Qed.

Lemma all_chars_rstrip p (s : string) : all_chars p s = true -> all_chars p (rstrip s) = true.
Proof.
  induction s as [|c s IH]; [done|]. cbn [all_chars rstrip].
  rewrite andb_true_iff. intros [Hc Hs]. specialize (IH Hs).
  destruct (rstrip s) as [|c' r].
  - destruct (is_space c); [done|]. cbn [all_chars]. by rewrite Hc.
  - cbn [all_chars] in *. by rewrite Hc, IH.
Qed.

Lemma all_chars_trim p (s : string) : all_chars p s = true -> all_chars p (trim s) = true.
Proof. intros. by apply all_chars_rstrip, all_chars_lstrip. Qed.

(** *** [strip] *)

Lemma lstrip_id (s : string) : starts_blank s = false -> lstrip s = s.
Proof. destruct s as [|c s]; [done|]. cbn. by intros ->. Qed.

Lemma rstrip_id (s : string) : ends_blank s = false -> rstrip s = s.
Proof.
  induction s as [|c s IH]; [done|]. cbn [ends_blank rstrip].
  destruct s as [|c' s].
  - cbn. by intros ->.
  - intros Hs. rewrite (IH Hs). done.
Qed.

Lemma trim_id (s : string) :
  starts_blank s = false -> ends_blank s = false -> trim s = s.
Proof. intros Hs He. unfold trim. rewrite (lstrip_id _ Hs). by apply rstrip_id. Qed.

Lemma starts_blank_lstrip (s : string) : starts_blank (lstrip s) = false.
Proof.
  induction s as [|c s IH]; [done|]. cbn [lstrip].
  destruct (is_space c) eqn:Hc; [done|]. cbn. done.
Qed.

Lemma ends_blank_rstrip (s : string) : ends_blank (rstrip s) = false.
Proof.
  induction s as [|c s IH]; [done|]. cbn [rstrip].
  destruct (rstrip s) as [|c' r].
  - destruct (is_space c) eqn:Hc; [done|]. cbn. done.
  - done.
Qed.

Lemma starts_blank_rstrip (s : string) :
  starts_blank s = false -> starts_blank (rstrip s) = false.
Proof.
  destruct s as [|c s]; [done|]. cbn [rstrip starts_blank]. intros Hc.
  destruct (rstrip s); [by rewrite Hc|done].
Qed.

Lemma trim_trimmed (s : string) :
  starts_blank (trim s) = false /\ ends_blank (trim s) = false.
Proof.
  split; [apply starts_blank_rstrip, starts_blank_lstrip|apply ends_blank_rstrip].
Qed.

Lemma starts_blank_app (s t : string) :
  starts_blank (s +:+ t) = if String.eqb s EmptyString then starts_blank t else starts_blank s.
Proof. by destruct s. Qed.

Lemma ends_blank_cons (c : ascii) (s : string) :
  ends_blank (String c s) = if String.eqb s EmptyString then is_space c else ends_blank s.
Proof. by destruct s. Qed.

Lemma app_eq_empty (s t : string) : String.eqb (s +:+ t) EmptyString = String.eqb s EmptyString && String.eqb t EmptyString.
Proof. destruct s, t; done. Qed.

Lemma ends_blank_app (s t : string) :
  ends_blank (s +:+ t) = if String.eqb t EmptyString then ends_blank s else ends_blank t.
Proof.
  induction s as [|c s IH].
  - destruct t; done.
  - rewrite app_cons, !ends_blank_cons, app_eq_empty, IH.
    destruct (String.eqb t EmptyString), (String.eqb s EmptyString); done.
Qed.

(** *** [splitlines] *)

Lemma lines_from_app (line l s : string) :
  no_break l = true -> lines_from line (l +:+ s) = lines_from (line +:+ l) s.
Proof.
  revert line. induction l as [|c l IH]; intros line.
  - by rewrite app_empty.
  - unfold no_break. cbn [all_chars]. rewrite andb_true_iff, negb_true_iff.
    intros [Hc Hl]. rewrite app_cons. cbn [lines_from]. rewrite Hc.
    rewrite (IH _ Hl), app_assoc. done.
Qed.

Lemma lines_from_line (line l : string) :
  no_break l = true -> l <> EmptyString -> lines_from EmptyString l = [l].
Proof.
  intros Hl Hne. rewrite <- (app_empty l) at 1. rewrite (lines_from_app _ _ _ Hl).
  cbn. destruct l; done.
Qed.

Lemma lines_join (ls : list string) :
  Forall (fun l => no_break l = true /\ l <> EmptyString) ls ->
  lines (String.concat nl ls) = ls.
Proof.
  unfold lines. induction 1 as [|l ls [Hl Hne] Hls IH]; [done|].
  destruct ls as [|l' ls].
  - cbn [String.concat]. by apply lines_from_line.
  - change (String.concat nl (l :: l' :: ls))
      with (l +:+ nl +:+ String.concat nl (l' :: ls)).
    rewrite (lines_from_app _ _ _ Hl).
    change (l :: lines_from EmptyString (String.concat nl (l' :: ls)) = l :: l' :: ls).
    by rewrite IH.
Qed.

Lemma lines_from_all (P : string -> Prop) (s : string) :
  P EmptyString ->
  (forall line c, P line -> is_break c = false -> P (line +:+ String c EmptyString)) ->
  forall line, P line -> Forall P (lines_from line s).
Proof.
  intros Hnil Hsnoc. induction s as [|c s IH]; intros line Hline.
  - cbn. destruct (String.eqb line EmptyString); by repeat constructor.
  - cbn [lines_from]. destruct (is_break c) eqn:Hc; [|by apply IH, Hsnoc].
    constructor; [done|].
    pose proof (IH EmptyString Hnil) as Hs.
    destruct (Ascii.eqb c "013"); [|done].
    destruct s as [|c' s]; [done|].
    destruct (Ascii.eqb c' "010") eqn:Hc'; [|done].
    apply Ascii.eqb_eq in Hc' as ->. cbn in Hs. by inversion Hs.
Qed.

Lemma lines_chars p (s : string) :
  all_chars p s = true -> Forall (fun l => all_chars p l = true) (lines s).
Proof.
  intros Hs. unfold lines.
  assert (forall line, all_chars p (line +:+ s) = true ->
            Forall (fun l => all_chars p l = true) (lines_from line s)) as Hgen.
  { clear Hs. induction s as [|c s IH]; intros line.
    - rewrite app_empty. intros Hl. cbn.
      destruct (String.eqb line EmptyString); by repeat constructor.
    - intros Hl. cbn [lines_from].
      assert (all_chars p line = true /\ p c = true /\ all_chars p s = true) as (H1 & H2 & H3).
      { rewrite all_chars_app in Hl. cbn [all_chars] in Hl.
        by rewrite !andb_true_iff in Hl. }
      assert (Forall (fun l => all_chars p l = true) (lines_from EmptyString s)) as Hs by by apply IH.
      destruct (is_break c).
      + constructor; [done|].
        destruct (Ascii.eqb c "013"); [|done].
        destruct s as [|c' s]; [done|].
        destruct (Ascii.eqb c' "010") eqn:Hc'; [|done].
        apply Ascii.eqb_eq in Hc' as ->. cbn in Hs. by inversion Hs.
      + apply IH. by rewrite app_assoc. }
  by apply Hgen.
Qed.

Lemma lines_no_break (s : string) : Forall (fun l => no_break l = true) (lines s).
Proof.
  apply lines_from_all; [done| |done].
  intros line c Hline Hc. unfold no_break in *. rewrite all_chars_app, Hline. cbn.
  by rewrite Hc.
Qed.

(** *** [split] *)

Lemma split_eq_app (key value : string) :
  no_eq key = true -> split_eq (key +:+ "=" +:+ value) = Some (key, value).
Proof.
  induction key as [|c key IH]; [done|]. unfold no_eq. cbn [all_chars].
  rewrite andb_true_iff, negb_true_iff. intros [Hc Hkey].
  rewrite app_cons. cbn [split_eq]. rewrite Hc, (IH Hkey). done.
Qed.

Lemma split_eq_inv (line key value : string) :
  split_eq line = Some (key, value) ->
  line = key +:+ "=" +:+ value /\ no_eq key = true.
Proof.
  revert key. induction line as [|c line IH]; intros key; [done|]. cbn [split_eq].
  destruct (Ascii.eqb c "=") eqn:Hc.
  - apply Ascii.eqb_eq in Hc as ->. intros [= <- <-]. done.
  - destruct (split_eq line) as [[k v]|]; [|done]. intros [= <- <-].
    destruct (IH k eq_refl) as [-> Hk]. split; [done|].
    unfold no_eq. cbn [all_chars]. by rewrite Hc.
Qed.

Lemma all_chars_concat p (sep : string) (ls : list string) :
  all_chars p sep = true -> Forall (fun l => all_chars p l = true) ls ->
  all_chars p (String.concat sep ls) = true.
Proof.
  intros Hsep. induction 1 as [|l ls Hl Hls IH]; [done|].
  destruct ls as [|l' ls]; [done|].
  change (String.concat sep (l :: l' :: ls))
    with (l +:+ sep +:+ String.concat sep (l' :: ls)).
  by rewrite !all_chars_app, Hl, Hsep, IH.
Qed.

(** ** The environment variables *)

Lemma foldl_ext_in {A B} (f g : A -> B -> A) (l : list B) (a : A) :
  (forall a x, x ∈ l -> f a x = g a x) -> foldl f a l = foldl g a l.
Proof.
  revert a. induction l as [|x l IH]; intros a Hfg; [done|]. cbn [foldl].
  rewrite Hfg by left. apply IH. intros ???. apply Hfg. by right.
Qed.

Lemma foldl_insert (items : list (string * PyVal)) :
  NoDup items.*1 ->
  foldl (fun (m : Dict) kv => <[kv.1 := kv.2]> m) ∅ items = list_to_map items.
Proof.
  induction items as [|[k v] items IH] using rev_ind; [done|].
  rewrite fmap_app, NoDup_app. intros (Hnd & Hk & _).
  rewrite foldl_app. cbn [foldl fst snd]. rewrite (IH Hnd).
  rewrite list_to_map_snoc; [done|].
  intros Hin. apply (Hk _ Hin). cbn. left.
Qed.

(** Setting the items of a dictionary one after the other, in any
    order, builds the dictionary. *)
Lemma foldl_insert_items (env : Dict) (items : list (string * PyVal)) :
  items ≡ₚ map_to_list env ->
  foldl (fun (m : Dict) kv => <[kv.1 := kv.2]> m) ∅ items = env.
Proof.
  intros Hperm.
  assert (NoDup items.*1) as Hnd.
  { rewrite Hperm. apply NoDup_fst_map_to_list. }
  rewrite (foldl_insert _ Hnd), (list_to_map_proper _ _ Hnd Hperm).
  apply list_to_map_to_list.
Qed.

Lemma line_parts p (line key value : string) :
  all_chars p line = true -> split_eq line = Some (key, value) ->
  all_chars p key = true /\ all_chars p value = true.
Proof.
  intros Hline [-> _]%split_eq_inv. rewrite !all_chars_app in Hline.
  apply andb_true_iff in Hline as [? [_ ?]%andb_true_iff]. done.
Qed.

Lemma plain_trim (s : string) :
  is_ascii s = true -> no_break s = true -> plain (trim s) = true.
Proof.
  intros Ha Hb. unfold plain. destruct (trim_trimmed s) as [-> ->].
  unfold is_ascii, no_break in *. by rewrite !all_chars_trim.
Qed.

Lemma plain_id (s : string) : plain s = true -> trim s = s.
Proof.
  unfold plain. rewrite !andb_true_iff, !negb_true_iff. intros [[_ ?] ?].
  by apply trim_id.
Qed.

Lemma plain_line (key value : string) :
  plain key = true -> plain value = true ->
  let line := key +:+ "=" +:+ value in
  is_ascii line = true /\ no_break line = true /\ trim line = line /\ line <> EmptyString.
Proof.
  unfold plain. rewrite !andb_true_iff, !negb_true_iff.
  intros [[[Hak Hbk] Hsk] Hek] [[[Hav Hbv] Hsv] Hev]. cbn zeta.
  unfold is_ascii, no_break in *. rewrite !all_chars_app, Hak, Hbk, Hav, Hbv.
  repeat split.
  - apply trim_id.
    + rewrite starts_blank_app. destruct key; done.
    + rewrite ends_blank_app. rewrite app_eq_empty. cbn [String.eqb andb].
      rewrite ends_blank_app. destruct value; done.
  - destruct key; done.
Qed.

Section Facts.
Context `{!PyBuiltins} `{!PyText}.

(** On ASCII text the loop of [get_data] is a fold of [trim] and
    [split_eq] over [lines]. *)
Lemma parse_env_ascii (text : string) :
  is_ascii text = true ->
  parse_env text =
    foldl (fun (env_dict : Dict) line =>
             match split_eq (trim line) with
             | Some (key, value) => <[trim key := VStr (trim value)]> env_dict
             | None => env_dict
             end) ∅ (lines text).
Proof.
  intros Htext. unfold parse_env. rewrite (splitlines_ascii _ Htext).
  apply foldl_ext_in. intros env_dict line Hline.
  assert (is_ascii line = true) as Ha.
  { pose proof (lines_chars _ _ Htext) as Hall.
    rewrite Forall_forall in Hall. by apply Hall. }
  cbn zeta. rewrite (strip_ascii _ Ha).
  assert (is_ascii (trim line) = true) as Hat by by apply all_chars_trim.
  destruct (String.eqb (trim line) EmptyString) eqn:Hempty.
  - apply String.eqb_eq in Hempty as ->. done.
  - cbn [negb]. destruct (split_eq (trim line)) as [[key value]|] eqn:Hsplit; [|done].
    destruct (line_parts _ _ _ _ Hat Hsplit) as [Hk Hv].
    by rewrite (strip_ascii _ Hk), (strip_ascii _ Hv).
Qed.

Lemma env_text_lines (items : list (string * PyVal)) :
  forallb plain_item items = true ->
  let ls := (fun kv => kv.1 +:+ "=" +:+ py_str kv.2) <$> items in
  is_ascii (env_text items) = true /\ lines (env_text items) = ls.
Proof.
  intros Hitems ls.
  assert (Forall (fun l => is_ascii l = true /\ no_break l = true /\ l <> EmptyString) ls) as Hls.
  { subst ls. apply Forall_fmap, Forall_forall. intros [k v] Hin.
    rewrite forallb_forall in Hitems.
    assert (plain_item (k, v) = true) as Hkv.
    { apply Hitems. by apply list_elem_of_In. }
    unfold plain_item in Hkv. cbn [fst snd] in *. destruct v as [| | |value| |]; try done.
    apply andb_true_iff in Hkv as [[Hk _]%andb_true_iff Hv].
    unfold compose. cbn [fst snd]. rewrite py_str_of_str.
    destruct (plain_line _ _ Hk Hv) as (? & ? & _ & ?). done. }
  split.
  - apply all_chars_concat; [done|]. eapply Forall_impl; [exact Hls|]. by intros ? [??].
  - apply lines_join. eapply Forall_impl; [exact Hls|]. by intros ? (? & ? & ?).
Qed.

(** The loop of [get_data] over the text shown for variables of plain
    text sets them one after the other. *)
Lemma env_text_parsed (items : list (string * PyVal)) :
  forallb plain_item items = true ->
  parse_env (env_text items) =
    foldl (fun (m : Dict) kv => <[kv.1 := kv.2]> m) ∅ items.
Proof.
  intros Hitems. destruct (env_text_lines _ Hitems) as [Ha Hlines].
  rewrite (parse_env_ascii _ Ha), Hlines.
  rewrite foldl_fmap. apply foldl_ext_in. intros m [k v] Hin.
  rewrite forallb_forall in Hitems.
  assert (plain_item (k, v) = true) as Hkv.
  { apply Hitems. by apply list_elem_of_In. }
  unfold plain_item in Hkv. cbn [fst snd] in *. destruct v as [| | |value| |]; try done.
  apply andb_true_iff in Hkv as [[Hk Hne]%andb_true_iff Hv].
  rewrite py_str_of_str.
  destruct (plain_line _ _ Hk Hv) as (_ & _ & -> & _).
  rewrite (split_eq_app _ _ Hne). by rewrite !plain_id.
Qed.

(** What the loop of [get_data] yields from ASCII text is variables
    of plain text. *)
Lemma parsed_plain (text key : string) (v : PyVal) :
  is_ascii text = true -> parse_env text !! key = Some v ->
  plain_item (key, v) = true.
Proof.
  intros Htext. rewrite (parse_env_ascii _ Htext).
  pose proof (lines_chars _ _ Htext) as Ha. pose proof (lines_no_break text) as Hb.
  revert Ha Hb.
  generalize (lines text). intros ls.
  assert (forall k v, (∅ : Dict) !! k = Some v -> plain_item (k, v) = true) as Hinv
    by (intros ??; by rewrite lookup_empty).
  revert Hinv. generalize (∅ : Dict). intros m Hinv Ha Hb. revert key v.
  induction ls as [|line ls IH] in m, Hinv, Ha, Hb |- *; [done|].
  cbn [foldl]. apply Forall_cons in Ha as [Hal Ha]. apply Forall_cons in Hb as [Hbl Hb].
  apply IH; [|done..].
  destruct (split_eq (trim line)) as [[k value]|] eqn:Hsplit; [|done].
  assert (is_ascii (trim line) = true) as Hat by by apply all_chars_trim.
  assert (no_break (trim line) = true) as Hbt by by apply all_chars_trim.
  destruct (line_parts _ _ _ _ Hat Hsplit) as [Hak Hav].
  destruct (line_parts _ _ _ _ Hbt Hsplit) as [Hbk Hbv].
  apply split_eq_inv in Hsplit as [_ Hne].
  intros key v. rewrite lookup_insert_Some. intros [[<- <-]|[_ Hm]]; [|by apply Hinv].
  unfold plain_item. cbn [fst snd].
  rewrite !plain_trim by done. unfold no_eq in *. by rewrite all_chars_trim.
Qed.

(** X24. The environment variables of a project come back
    unchanged from a dialog that is opened on them and accepted as it
    is: the loop of [get_data], run on the text [_populate_fields]
    shows for the items of a dictionary, in whatever order, rebuilds
    that dictionary, provided names and values are ASCII text on one
    line without a blank at either end and no name holds ['=']. *)
Theorem variables_survive_the_dialog (env : Dict) (items : list (string * PyVal)) :
  items ≡ₚ map_to_list env ->
  forallb plain_item items = true ->
  parse_env (env_text items) = env.
Proof.
  intros Hperm Hplain.
  rewrite (env_text_parsed _ Hplain).
  by apply foldl_insert_items.
Qed.

(** X25. What the dialog makes of typed variables is stable: the
    dictionary [get_data] builds from any ASCII text is rebuilt from
    the text [_populate_fields] shows for it, so that opening the
    dialog again and accepting it changes no variable, whatever was
    typed the first time: blank lines, lines without ['='], names set
    twice, blanks around names and values. *)
Theorem saved_variables_are_stable (text : string) (items : list (string * PyVal)) :
  is_ascii text = true ->
  items ≡ₚ map_to_list (parse_env text) ->
  parse_env (env_text items) = parse_env text.
Proof.
  intros Htext Hperm.
  assert (forallb plain_item items = true) as Hplain.
  { apply forallb_forall. intros [k v] Hin%list_elem_of_In.
    rewrite Hperm in Hin. apply elem_of_map_to_list in Hin.
    by apply (parsed_plain text). }
  rewrite (env_text_parsed _ Hplain).
  by apply foldl_insert_items.
Qed.

End Facts.

(** ** The data of the dialog *)

(** A project whose fields are all sent to pm2: the descriptor is the
    project itself, with ['path'] under the name ['cwd']. *)
Lemma descriptor_of_listed (project_data : Dict) :
  (forall key v, project_data !! key = Some v ->
     ((key ∈ pm2_keys) \/ key = "path") /\ not_blank v = true) ->
  build_app_config project_data =
    match project_data !! "path" with
    | Some p => <["cwd" := p]> (delete "path" project_data)
    | None => project_data
    end.
Proof.
  intros Hlisted.
  assert (("cwd" ∉ pm2_keys) /\ ("path" ∉ pm2_keys)) as [Hcwd Hpath].
  { unfold pm2_keys. split; intros Hin;
      repeat (apply elem_of_cons in Hin as [Hin|Hin]; [discriminate Hin|]);
      by apply elem_of_nil in Hin. }
  assert (project_data !! "cwd" = None) as Hnone.
  { destruct (project_data !! "cwd") as [v|] eqn:Hv; [|done].
    destruct (Hlisted _ _ Hv) as [[Hin|Heq] _]; [by destruct Hcwd|discriminate]. }
  assert (forall key, key <> "path" ->
            foldl (fun (acc : Dict) key =>
                     match project_data !! key with
                     | Some v => if not_blank v then <[key := v]> acc else acc
                     | None => acc
                     end) (∅ : Dict) pm2_keys !! key = project_data !! key) as Hfold.
  { intros key Hne. rewrite WorkerMore.keep_listed, lookup_empty.
    destruct (project_data !! key) as [v|] eqn:Hv.
    - destruct (Hlisted _ _ Hv) as [[Hin|Heq] ->]; [|done]. by rewrite decide_True.
    - by destruct (decide _). }
  apply map_eq. intros key. unfold build_app_config.
  destruct (project_data !! "path") as [p|] eqn:Hp.
  - destruct (decide (key = "cwd")) as [->|Hk]; [by rewrite !lookup_insert_eq|].
    rewrite !lookup_insert_ne by done.
    destruct (decide (key = "path")) as [->|Hk'].
    + rewrite lookup_delete_eq, WorkerMore.keep_listed, lookup_empty. by rewrite decide_False.
    + rewrite lookup_delete_ne by done. by apply Hfold.
  - destruct (decide (key = "path")) as [->|Hk'].
    + rewrite Hp, WorkerMore.keep_listed, lookup_empty. by rewrite decide_False.
    + by apply Hfold.
Qed.

Lemma list_to_map_find (l : list (string * PyVal)) (key : string) :
  (list_to_map l : Dict) !! key = snd <$> List.find (fun kv => String.eqb kv.1 key) l.
Proof.
  induction l as [|[k v] l IH]; [done|]. rewrite list_to_map_cons. cbn [List.find fst].
  destruct (String.eqb_spec k key) as [->|Hne].
  - by rewrite lookup_insert_eq.
  - by rewrite lookup_insert_ne.
Qed.

Section Dialog.
Context `{!PyBuiltins} `{!PyText} (os_path : OsPath).

(** The fields [get_data] returns: those of the dictionary it fills
    whose value is not [''], without ['instances'] in fork mode. *)
Lemma get_data_fields (dlg : ProjectSettingsDialog) (data : Dict) :
  get_data os_path dlg = Some data ->
  strip (name_edit dlg) <> EmptyString /\
  exists filled : Dict,
    (forall key v, filled !! key = Some v ->
       ((key ∈ pm2_keys) \/ key = "path") /\
       match v with VStr _ | VBool _ | VDict _ => True | _ => False end) /\
    filled !! "name" = Some (VStr (strip (name_edit dlg))) /\
    filled !! "exec_mode" = Some (VStr (currentText (exec_mode_combo dlg))) /\
    filled !! "instances" = Some (VStr (strip (instances_edit dlg))) /\
    forall key,
      data !! key =
        match exec_mode_combo dlg, decide (key = "instances") with
        | fork, left _ => None
        | _, _ => match filled !! key with
                  | Some v => if kept v then Some v else None
                  | None => None
                  end
        end.
Proof.
  unfold get_data.
  destruct (String.eqb (strip (script_path_edit dlg)) EmptyString ||
            negb (path_exists os_path (strip (script_path_edit dlg))) ||
            String.eqb (strip (name_edit dlg)) EmptyString) eqn:Hguard; [done|].
  apply orb_false_iff in Hguard as [_ Hname]. apply String.eqb_neq in Hname.
  cbn zeta.
  match goal with
  | |- context [filter _ (list_to_map ?l)] => set (fields := l)
  end.
  set (filled := (list_to_map fields : Dict)).
  set (final_data := filter (fun kv : string * PyVal => kept kv.2 = true) filled).
  assert (forall key, final_data !! key =
            match filled !! key with
            | Some v => if kept v then Some v else None
            | None => None
            end) as Hfinal.
  { intros key. unfold final_data. rewrite map_lookup_filter.
    destruct (filled !! key) as [v|]; [|done]. cbn.
    destruct (kept v) eqn:Hv; [by rewrite option_guard_True|by rewrite option_guard_False]. }
  assert (NoDup fields.*1) as Hnd.
  { apply (@bool_decide_unpack _ (NoDup_dec _)). by vm_compute. }
  assert (filled !! "exec_mode" = Some (VStr (currentText (exec_mode_combo dlg)))) as Hmode.
  { unfold filled. rewrite list_to_map_find. reflexivity. }
  match goal with
  | |- Some ?r = Some data -> _ => remember r as result eqn:Hresult
  end.
  intros [= <-]. subst result. split; [done|]. exists filled. split; [|split; [|split; [done|split]]].
  - intros key v Hv. apply (elem_of_list_to_map_2 fields key v) in Hv. unfold fields in Hv.
    repeat (apply elem_of_cons in Hv as [Heq|Hv];
            [injection Heq as -> ->; split; [|done];
             first [by right | left; apply (@bool_decide_unpack _ (list_elem_of_dec _ _)); by vm_compute]|]).
    by apply elem_of_nil in Hv.
  - unfold filled. rewrite list_to_map_find. reflexivity.
  - unfold filled. rewrite list_to_map_find. reflexivity.
  - intros key. rewrite (Hfinal "exec_mode"), Hmode.
    destruct (exec_mode_combo dlg) eqn:Hfork; cbn [currentText kept py_eq String.eqb Ascii.eqb Bool.eqb negb orb andb].
    + destruct (bool_decide (is_Some (final_data !! "instances"))) eqn:Hinst.
      * destruct (decide (key = "instances")) as [->|Hne].
        -- apply lookup_delete_eq.
        -- rewrite lookup_delete_ne by done. apply Hfinal.
      * apply bool_decide_eq_false in Hinst.
        destruct (decide (key = "instances")) as [->|Hne]; [|apply Hfinal].
        destruct (final_data !! "instances") eqn:Hi; [|done]. by destruct Hinst.
    + destruct (decide (key = "instances")); apply Hfinal.
Qed.


End Dialog.

Lemma variables_witness :
  parse_env (env_text (map_to_list variables)) = variables.
Proof.
  apply (variables_survive_the_dialog variables (map_to_list variables)).
  - reflexivity.
  - vm_compute. reflexivity.
Defined.

Lemma saved_variables_witness :
  parse_env (env_text (map_to_list (parse_env typed))) = parse_env typed.
Proof.
  apply (saved_variables_are_stable typed (map_to_list (parse_env typed))).
  - vm_compute. reflexivity.
  - reflexivity.
Defined.


End SettingsFacts.

(** * The scenarios of the specification, run *)

Module Examples.
Import Worker View Scenarios Reference.
Local Open Scope list_scope.

(** Prober reports running and the query returns malformed text: the
    refresh emits the liveness result and an empty list, no error. *)
Example refresh_of_malformed_text :
  signals (events_of (get_process_list (answering "{oops")) fresh_world) =
    [daemon_status_ready true; list_ready "[]"].
Proof. vm_compute. reflexivity. Qed.

Example refresh_of_a_list :
  signals (events_of (get_process_list (answering (jlist "a" "online"))) fresh_world) =
    [daemon_status_ready true; list_ready (jlist "a" "online")].
Proof. vm_compute. reflexivity. Qed.

(** Under Windows the listing must show the header and a process id. *)
Example probe_under_windows :
  probe_verdict true (Completed ("ProcessId  " +:+ crlf +:+ "4242  " +:+ crlf)) = true /\
  probe_verdict true (Completed ("ProcessId  " +:+ crlf +:+ crlf)) = false /\
  probe_verdict true (Completed EmptyString) = false /\
  probe_verdict true (TimeoutExpired None) = false /\
  probe_verdict false (CalledProcessError EmptyString) = false.
Proof. vm_compute. auto. Qed.

(** Without a daemon nothing is queried, at start-up and on refresh. *)
Example no_query_without_daemon :
  (get_initial_state (daemon_down "[]") fresh_world).1 = Ok (OutText "[]", false) /\
  events_of (get_initial_state (daemon_down "[]")) fresh_world = [EvProbe false] /\
  events_of (get_process_list (daemon_down "[]")) fresh_world =
    [EvProbe false; EvEmit (daemon_status_ready false); EvEmit (list_ready "[]")].
Proof. vm_compute. auto. Qed.

(** A delete that times out surfaces an error and is followed by a
    refresh; so is a log fetch that times out, which emits no logs. *)
Example delete_times_out :
  exists message,
    events_of (delete_process hanging "svc") fresh_world =
      [EvRun "pm2 delete svc"; EvEmit (error message);
       EvProbe true; EvEmit (daemon_status_ready true);
       EvRun "pm2 jlist"; EvEmit (list_ready "[]")].
Proof. eexists. vm_compute. reflexivity. Qed.

Example logs_time_out :
  exists message,
    events_of (get_logs hanging "svc") fresh_world =
      [EvRun "pm2 logs svc --lines 200 --nostream"; EvEmit (error message)].
Proof. eexists. vm_compute. reflexivity. Qed.

(** What an f-string shows of bytes. *)
Example bytes_as_shown :
  bytes_repr ("[1]" +:+ nl) = "b'[1]\n'" /\
  bytes_repr "it's" = "b" +:+ dquote +:+ "it's" +:+ dquote /\
  bytes_repr (String "195"%char (String "169"%char EmptyString)) = "b'\xc3\xa9'".
Proof. vm_compute. auto. Qed.

(** A delete that times out after printing: the error and the report
    show the bytes as an f-string does, and the list that the query of
    the refresh printed before it timed out arrives as the empty text. *)
Example delete_stalls :
  signals (events_of (delete_process (stalling "[1]") "svc") fresh_world) =
    [ error ("Command failed: pm2 delete svc" +:+ nl +:+ nl +:+ "Output:" +:+ nl +:+ "b'[1]'");
      action_finished "Process Deleted" ("Deleted 'svc' from PM2." +:+ nl +:+ "b'[1]'");
      daemon_status_ready true; list_ready EmptyString ] /\
  signals (events_of (stop_all (stalling "[1]")) fresh_world) =
    [ error ("Command failed: pm2 stop all" +:+ nl +:+ nl +:+ "Output:" +:+ nl +:+ "b'[1]'");
      action_finished "All Processes Stopped" EmptyString;
      daemon_status_ready true; list_ready EmptyString ].
Proof. vm_compute. split; reflexivity. Qed.

(** Without the [pm2] tool the shell exits with status 127: a refresh
    surfaces nothing and emits the empty list, and a log fetch shows the
    message of the shell as an error and as the logs. *)
Example tool_is_missing :
  signals (events_of (get_process_list tool_missing) fresh_world) =
    [daemon_status_ready true; list_ready "[]"] /\
  signals (events_of (get_logs tool_missing "svc") fresh_world) =
    [ error ("Command failed: " +:+ logs_command "svc" +:+ nl +:+ nl +:+ "Output:" +:+ nl +:+
             "/bin/sh: 1: pm2: not found" +:+ nl);
      logs_ready "svc" ("/bin/sh: 1: pm2: not found" +:+ nl) ].
Proof. vm_compute. split; reflexivity. Qed.

(** A query that times out in the middle of a character hands back
    bytes that are no text: [json.loads] raises past the handler, and
    the refresh ends after the liveness result. *)
Example truncated_capture_raises :
  let env := stalling ("[" +:+ dquote +:+ "caf" +:+ String "195"%char EmptyString) in
  (get_process_list env fresh_world).1 = Raise UnicodeDecodeError /\
  signals (events_of (get_process_list env) fresh_world) = [daemon_status_ready true] /\
  (get_initial_state env fresh_world).1 = Raise UnicodeDecodeError /\
  (stop_process env "svc" fresh_world).1 = Raise UnicodeDecodeError.
Proof. vm_compute. auto. Qed.

(** The descriptor of [svc]: the listed keys that are present, and the
    path as working directory. *)
Example descriptor_of_svc :
  build_app_config svc = {[ "name" := VStr "svc"; "script" := VStr "main"; "cwd" := VStr "/app" ]}.
Proof. vm_compute. reflexivity. Qed.

Example start_of_svc :
  exists report,
    events_of (start_process (answering "started") svc) fresh_world =
      [EvCreate "/tmp/eco.json"; EvRun (start_command "/tmp/eco.json");
       EvEmit (action_finished "Process Started" report);
       EvRemove "/tmp/eco.json";
       EvProbe true; EvEmit (daemon_status_ready true);
       EvRun "pm2 jlist"; EvEmit (list_ready "[]")] /\
    files (start_process (answering "started") svc fresh_world).2 = ∅.
Proof. eexists. vm_compute. split; reflexivity. Qed.

(** A configuration without a name: the report raises, the file is
    removed and the list refreshed all the same. *)
Example start_without_name :
  (start_process (answering "started") {[ "script" := VStr "main" ]} fresh_world).1 =
    Raise (KeyError "name") /\
  events_of (start_process (answering "started") {[ "script" := VStr "main" ]}) fresh_world =
    [EvCreate "/tmp/eco.json"; EvRun (start_command "/tmp/eco.json");
     EvRemove "/tmp/eco.json";
     EvProbe true; EvEmit (daemon_status_ready true);
     EvRun "pm2 jlist"; EvEmit (list_ready "[]")].
Proof. vm_compute. split; reflexivity. Qed.

(** First population, then a diff after the store lost [a] and gained
    [c], then a diff on unchanged data. *)
Example calls_on_the_list :
  list_calls (slot (update_ui no_views (jlist "a" "online")) shown_bc) =
    [CallClear; CallAddDashboard; CallAddItem "a"; CallAddItem "b";
     CallTakeItem "a"; CallUpdateStatus "b"; CallInsertItem 2 "c";
     CallUpdateStatus "b"; CallUpdateStatus "c"] /\
  item_names (project_list_widget shown_ab) = ["a"; "b"] /\
  item_names (project_list_widget shown_bc) = ["b"; "c"].
Proof. vm_compute. auto. Qed.

(** Names are ordered as Python orders strings: upper case first. *)
Example sorted_by_code_point :
  (fun p : Dict => p !! "name") <$>
    all_projects_data
      (slot (update_ui no_views "[]") (new_window [declared "b"; declared "a"; declared "B"])) =
    [Some (VStr "B"); Some (VStr "a"); Some (VStr "b")].
Proof. vm_compute. reflexivity. Qed.

(** A payload that is JSON but no list of records makes [update_ui]
    raise before it stores anything. *)
Example payload_not_a_list :
  (update_ui no_views "5" (new_window [declared "a"])).1 = Raise TypeError /\
  (update_ui no_views "[5]" (new_window [declared "a"])).1 = Raise AttributeError /\
  (update_ui no_views "5" (new_window [])).1 = Ok tt.
Proof. vm_compute. auto. Qed.

(** The window is running with its timer on; the daemon dies; the next
    poll delivers a negative liveness result and the window goes from
    running to stopped at once, its list cleared and the timer off. *)
Example daemon_dies_while_running :
  let running := delivered no_views (get_process_list (answering (jlist "a" "online")))
                   fresh_world
                   (slot (update_daemon_status no_views (PyState PENDING))
                      (new_window [declared "a"])) in
  let stopped := delivered no_views (get_process_list (daemon_down "[]"))
                   fresh_world running in
  daemon_state running = Some RUNNING /\
  refresh_timer (controls running) = true /\
  daemon_state stopped = Some STOPPED /\
  refresh_timer (controls stopped) = false /\
  start_daemon_action (controls stopped) = true /\
  status_bar stopped = "PM2 Daemon is not running.".
Proof. vm_compute. repeat split; reflexivity. Qed.

End Examples.
